(** * BIRB: [birb.py], embedded and verified

    The development follows [src/birb.py]: the build engine
    ([build_project] and what it calls), the creation of the manifest
    ([create_birb_json], [interactive_create]), the preferences
    ([load_preferences]) and the entry point ([main]).  The program is a
    sequence of effects (console output, child processes, the working
    directory, files), so the embedding is a state-and-exception monad over
    an explicit [World]:

    - the file system is a tree of [node]s, addressed by absolute paths
      (lists of names).  A path string is resolved name by name against
      the disk, as a POSIX kernel does: every name but the last must lead
      to a directory, [..] is the parent of the directory reached, a
      symbolic link is followed to the place it leads to, and a trailing
      slash asks for a directory;
    - a child process is an oracle [exec]: it sees the command, the working
      directory, the disk and an opaque outside state, and answers either
      with an exit status, a new disk and a new outside state, or with the
      reason why no process could be started.  [subprocess.run] raises in
      the second case, and before asking when the command holds a NUL
      character;
    - every [print] of the source and every child process that ran leaves
      an [event] in the world's [trace]; entering [git_commit] leaves one
      more, so that the arguments of the post-build hook can be observed.

    Python exceptions are the [Raise] results of the monad; the state
    reached when an exception is raised is kept, as in Python. *)

From Stdlib Require Import String Ascii List ZArith Bool Lia.
Import ListNotations.

Local Open Scope string_scope.
Local Open Scope list_scope.

(** ** Path strings *)

Definition path := list string.

Definition slash : ascii := "/"%char.

Definition nul : ascii := "000"%char.

Fixpoint has_nul (s : string) : bool :=
  match s with
  | EmptyString => false
  | String c s' => Ascii.eqb c nul || has_nul s'
  end.

Fixpoint ends_with_slash (s : string) : bool :=
  match s with
  | EmptyString => false
  | String c EmptyString => Ascii.eqb c slash
  | String _ s' => ends_with_slash s'
  end.

Definition starts_with_slash (s : string) : bool :=
  match s with
  | String c _ => Ascii.eqb c slash
  | EmptyString => false
  end.

(** [os.path.join a b] (posixpath). *)
Definition path_join (a b : string) : string :=
  if starts_with_slash b then b
  else if (a =? "") || ends_with_slash a then (a ++ b)%string
  else (a ++ String slash b)%string.

(** The names of a path string, in order: what stands between the
    slashes; doubled, leading and trailing slashes hold no name. *)
Definition named (name : string) : list string :=
  if name =? "" then [] else [name].

Fixpoint components (s : string) (name : string) : list string :=
  match s with
  | EmptyString => named name
  | String c s' =>
      if Ascii.eqb c slash then named name ++ components s' ""
      else components s' (name ++ String c "")%string
  end.

(** Where resolution starts: the root for an absolute path. *)
Definition origin (dir : path) (s : string) : path :=
  if starts_with_slash s then [] else dir.

(** [BIRB_DIR] and [BIRB_CONFIG_FILE], lines 13-14. *)
Definition BIRB_DIR : string := ".birb".
Definition BIRB_CONFIG_FILE : string := path_join BIRB_DIR "birb.json".

(** ** The manifest (the JSON document of [birb.json]) *)

Record Versioning := mkVersioning {
  auto_increment : bool;
  increment_type : string;
  current_version : string
}.

(** [platform_build_commands] is a JSON object: a Python dict, iterated in
    insertion order, whose values are a command or [null]. *)
Record Build := mkBuild {
  custom_build_command : string;
  platform_build_commands : list (string * option string);
  output_directory : string;
  clean_before_build : option bool   (* read with [.get(..., False)] *)
}.

Record GitIntegration := mkGit {
  repo_name : string;
  branch : string;
  auto_commit : bool;
  commit_message_template : string;
  vcs_push_command : list string
}.

Record Manifest := mkManifest {
  project_name : string;
  versioning : Versioning;
  build : Build;
  git_integration : GitIntegration
}.

(** ** Commands, exceptions, results *)

Inductive command :=
| Shell (line : string)          (* [subprocess.run(line, shell=True)] *)
| Argv (args : list string).     (* [subprocess.run([...])] *)

Record CompletedProcess := mkCompleted {
  args : command;
  returncode : Z
}.

Inductive os_error :=
  NoEntry | NotADirectory | IsADirectory | NotEmpty | PermissionDenied | FileExists
| TooManyLinks.

Inductive exn :=
| CalledProcessError (c : command) (status : Z)
| OSError (kind : os_error) (file : string)
| JSONDecodeError
| ValueError
| KeyError (key : string)
| IndexError
| TypeError
| OutsideModel.

Definition is_CalledProcessError (e : exn) : bool :=
  match e with CalledProcessError _ _ => true | _ => false end.

(** [except Exception] catches every exception of the model. *)
Definition is_Exception (e : exn) : bool := true.

Inductive result (A : Type) :=
| Ok (a : A)
| Raise (e : exn).
Arguments Ok {A} a.
Arguments Raise {A} e.

(** [subprocess.run] refuses a command with a NUL character before any
    process exists ([ValueError]). *)
Definition command_has_nul (c : command) : bool :=
  match c with
  | Shell line => has_nul line
  | Argv args => existsb has_nul args
  end.

(** The program a command starts: the shell, or the first argument. *)
Definition program (c : command) : string :=
  match c with
  | Shell _ => "/bin/sh"
  | Argv (a :: _) => a
  | Argv [] => ""
  end.

(** ** [str.format] with the keyword arguments [version] and [platform]

    The format string is scanned from the left, as CPython's markup
    iterator does: doubled braces are literal braces, a single closing
    brace is a [ValueError], an opening brace starts a replacement field
    that runs to the next closing brace.  A field is looked up among the
    keyword arguments; an empty or numeric field asks for a positional
    argument, of which there is none ([IndexError]), and a number above
    [sys.maxsize] is refused before that ([ValueError]).  Fields with a
    conversion, a format specification, an attribute or an index ([!],
    [:], [.], [[]) are legal Python that this scan does not evaluate: its
    answer is then [None], and the program takes Python's answer for such
    a template from the parameter [formatter] of the engine. *)

Definition ascii_in (c : ascii) (s : string) : bool :=
  existsb (Ascii.eqb c) (list_ascii_of_string s).

Definition is_digits (s : string) : bool :=
  forallb (fun c => ascii_in c "0123456789") (list_ascii_of_string s).

(** The number a string of decimal digits denotes. *)
Definition decimal_value (s : string) : N :=
  fold_left (fun acc c => (acc * 10 + (N_of_ascii c - 48))%N)
            (list_ascii_of_string s) 0%N.

(** [sys.maxsize] of a 64-bit CPython. *)
Definition maxsize : N := 9223372036854775807%N.

Definition format_field (name version platform : string) : result string :=
  if name =? "version" then Ok version
  else if name =? "platform" then Ok platform
  else if is_digits name then      (* covers the empty field *)
    if (maxsize <? decimal_value name)%N then Raise ValueError else Raise IndexError
  else Raise (KeyError name).

Definition prepend (s : string) (r : option (result string)) : option (result string) :=
  match r with
  | Some (Ok t) => Some (Ok (s ++ t)%string)
  | other => other
  end.

Fixpoint format_scan (s : string) (field : option string)
    (version platform : string) : option (result string) :=
  match s, field with
  | EmptyString, None => Some (Ok "")
  | EmptyString, Some _ => Some (Raise ValueError)
  | String c s', None =>
      if Ascii.eqb c "{"%char then
        match s' with
        | String c' s'' =>
            if Ascii.eqb c' "{"%char
            then prepend "{" (format_scan s'' None version platform)
            else format_scan s' (Some "") version platform
        | EmptyString => Some (Raise ValueError)
        end
      else if Ascii.eqb c "}"%char then
        match s' with
        | String c' s'' =>
            if Ascii.eqb c' "}"%char
            then prepend "}" (format_scan s'' None version platform)
            else Some (Raise ValueError)
        | EmptyString => Some (Raise ValueError)
        end
      else prepend (String c "") (format_scan s' None version platform)
  | String c s', Some name =>
      if Ascii.eqb c "}"%char then
        match format_field name version platform with
        | Ok v => prepend v (format_scan s' None version platform)
        | Raise e => Some (Raise e)
        end
      else if Ascii.eqb c "{"%char then Some (Raise ValueError)
      else if ascii_in c "!:.[" then None
      else format_scan s' (Some (name ++ String c "")%string) version platform
  end.

(** [template.format(version=version, platform=platform)], where the
    model evaluates it. *)
Definition py_format (template version platform : string) : option (result string) :=
  format_scan template None version platform.

(** ** The preferences (the JSON document of [preferences.json]) *)

Record VersioningPreferences := mkVersioningPreferences {
  pref_auto_increment : bool;
  pref_increment_type : string;
  version_prefix : string;
  custom_version_format : bool;
  custom_version_template : string
}.

Record BuildPreferences := mkBuildPreferences {
  default_platforms : list string;
  pref_output_directory : string;
  include_source_maps : bool;
  optimize_builds : bool;
  pref_clean_old_builds : bool;
  default_build_engine : string;
  default_build_script : string
}.

Record Notifications := mkNotifications {
  on_success : bool;
  on_failure : bool;
  sound_notifications : bool
}.

Record Preferences := mkPreferences {
  pref_versioning : VersioningPreferences;
  pref_build : BuildPreferences;
  notifications : Notifications;
  pref_git_integration : GitIntegration
}.

(** [default_preferences], lines 20-49. *)
Definition default_preferences : Preferences :=
  mkPreferences
    (mkVersioningPreferences true "patch" "v" false "{major}.{minor}.{patch}-{build}")
    (mkBuildPreferences ["windows"; "linux"; "macos"] "./builds" true true false
       "manual" "")
    (mkNotifications true true false)
    (mkGit "" "main" true "Release {version} for {platform}" []).

(** ** The file system *)

Inductive file_data :=
| Json (m : Manifest)     (* a JSON document that is a manifest *)
| Prefs (p : Preferences) (* a JSON document that is a preferences document *)
| Bytes.                  (* anything [json.load] rejects *)

(** What the system refuses on a directory: [fixed], to remove it;
    [sealed], to list it (no read permission). *)
Record dir_mode := mkMode {
  fixed : bool;
  sealed : bool
}.

Definition plain : dir_mode := mkMode false false.

Set Warnings "-register-all".

(** [deny] marks a read-only file or link: the system refuses to remove
    it or to write to it ([PermissionError]).  A link holds the absolute
    path of the place it leads to. *)
Inductive node :=
| File (deny : bool) (data : file_data)
| Symlink (deny : bool) (target : path)
| Dir (mode : dir_mode) (entries : list (string * node))
| Special.                (* neither file, link nor directory *)

Fixpoint assoc {A : Type} (k : string) (l : list (string * A)) : option A :=
  match l with
  | [] => None
  | (k', v) :: l' => if k =? k' then Some v else assoc k l'
  end.

(** A directory holds one entry per name: removal takes the name away. *)
Fixpoint remove_key {A : Type} (k : string) (l : list (string * A)) : list (string * A) :=
  match l with
  | [] => []
  | (k', v) :: l' => if k =? k' then remove_key k l' else (k', v) :: remove_key k l'
  end.

Fixpoint update_key {A : Type} (k : string) (f : A -> A) (l : list (string * A)) : list (string * A) :=
  match l with
  | [] => []
  | (k', v) :: l' => if k =? k' then (k', f v) :: l' else (k', v) :: update_key k f l'
  end.

(** [d[k] = v] on a dict in insertion order. *)
Fixpoint dict_set {A : Type} (k : string) (v : A) (d : list (string * A)) : list (string * A) :=
  match d with
  | [] => [(k, v)]
  | (k', v') :: d' => if k =? k' then (k', v) :: d' else (k', v') :: dict_set k v d'
  end.

(** The node at an absolute path; links are not followed here. *)
Fixpoint lookup (p : path) (n : node) : option node :=
  match p with
  | [] => Some n
  | x :: p' =>
      match n with
      | Dir _ es => match assoc x es with
                    | Some c => lookup p' c
                    | None => None
                    end
      | _ => None
      end
  end.

(** The entry at path [p] set to [new], added last in its directory when
    it is new; the root stays. *)
Fixpoint put_at (p : path) (new : node) (n : node) : node :=
  match p with
  | [] => n
  | x :: p' =>
      match n with
      | Dir d es =>
          match p' with
          | [] => Dir d (dict_set x new es)
          | _ :: _ => Dir d (update_key x (put_at p' new) es)
          end
      | _ => n
      end
  end.

(** Removal of the entry at path [p]; the root stays. *)
Fixpoint remove_at (p : path) (n : node) : node :=
  match p with
  | [] => n
  | x :: p' =>
      match n with
      | Dir d es =>
          match p' with
          | [] => Dir d (remove_key x es)
          | _ :: _ => Dir d (update_key x (remove_at p') es)
          end
      | _ => n
      end
  end.

(** *** Resolution of a path string *)

Inductive located :=
| At (p : path)
| Lost (kind : os_error).

(** The number of links one resolution follows ([ELOOP] beyond). *)
Definition MAXSYMLINKS : nat := 40.

(** The end of a chain of links: the first place that holds no link. *)
Fixpoint chase (n : nat) (d : node) (p : path) : located :=
  match lookup p d with
  | Some (Symlink _ t) =>
      match n with
      | O => Lost TooManyLinks
      | S n' => chase n' d t
      end
  | _ => At p
  end.

(** A place that holds something. *)
Definition present (d : node) (l : located) : located :=
  match l with
  | At q => match lookup q d with
            | Some _ => At q
            | None => Lost NoEntry
            end
  | Lost k => Lost k
  end.

(** One name of a path, from the place reached so far.  Names are looked
    up in directories only. *)
Definition step (follow : bool) (d : node) (from : located) (x : string) : located :=
  match from with
  | Lost k => Lost k
  | At cur =>
      match lookup cur d with
      | Some (Dir _ _) =>
          if x =? "." then At cur
          else if x =? ".." then At (removelast cur)
          else match lookup (cur ++ [x]) d with
               | Some (Symlink _ t) =>
                   if follow then present d (chase MAXSYMLINKS d t)
                   else At (cur ++ [x])
               | Some _ => At (cur ++ [x])
               | None => Lost NoEntry
               end
      | Some _ => Lost NotADirectory
      | None => Lost NoEntry
      end
  end.

(** All the names of a path, links followed. *)
Definition enter (d : node) (from : path) (names : list string) : located :=
  fold_left (step true d) names (At from).

Definition must_be_dir (d : node) (l : located) : located :=
  match l with
  | At q => match lookup q d with
            | Some (Dir _ _) => At q
            | Some _ => Lost NotADirectory
            | None => Lost NoEntry
            end
  | Lost k => Lost k
  end.

(** The place a path string names, seen from the directory [dir].  With
    [follow] a link in the last position is followed ([stat]); without,
    it is the place named ([lstat], [unlink], [rmdir]).  The empty string
    names nothing, and neither does a string with a NUL character. *)
Definition locate (d : node) (dir : path) (s : string) (follow : bool) : located :=
  if (s =? "") || has_nul s then Lost NoEntry
  else
    let names := components s "" in
    if ends_with_slash s then must_be_dir d (enter d (origin dir s) names)
    else if follow then enter d (origin dir s) names
    else step false d (enter d (origin dir s) (removelast names)) (last names ".").

(** What a path string names, links followed ([stat]) or not ([lstat]). *)
Definition found (d : node) (dir : path) (s : string) : option node :=
  match locate d dir s true with
  | At q => lookup q d
  | Lost _ => None
  end.

Definition found_here (d : node) (dir : path) (s : string) : option node :=
  match locate d dir s false with
  | At q => lookup q d
  | Lost _ => None
  end.

(** Where [open(s, 'w')] writes: the file that [s] names, or the place of
    a new entry in the directory of its last name; a link that leads
    nowhere is written through. *)
Definition place (d : node) (dir : path) (s : string) : located :=
  if (s =? "") || has_nul s then Lost NoEntry
  else if ends_with_slash s then locate d dir s true
  else
    let names := components s "" in
    let x := last names "." in
    match enter d (origin dir s) (removelast names) with
    | Lost k => Lost k
    | At q =>
        match lookup q d with
        | Some (Dir _ _) =>
            if x =? "." then At q
            else if x =? ".." then At (removelast q)
            else match lookup (q ++ [x]) d with
                 | Some (Symlink _ t) =>
                     match chase MAXSYMLINKS d t with
                     | At r =>
                         match lookup r d, lookup (removelast r) d with
                         | Some _, _ | None, Some (Dir _ _) => At r
                         | None, _ => Lost NoEntry
                         end
                     | Lost k => Lost k
                     end
                 | _ => At (q ++ [x])
                 end
        | Some _ => Lost NotADirectory
        | None => Lost NoEntry
        end
    end.

(** [os.makedirs(s, exist_ok=True)] on the disk: the directories of the
    path are made where they are missing.  A name that is taken by
    something that is no directory, and by no link to one, stops it:
    [FileExistsError] at the last name, the error of going through it
    before. *)
Fixpoint grow (d : node) (cur : path) (names : list string) : node + os_error :=
  match names with
  | [] => inl d
  | x :: rest =>
      let stop := match rest with [] => FileExists | _ :: _ => NotADirectory end in
      match lookup cur d with
      | Some (Dir _ _) =>
          if x =? "." then grow d cur rest
          else if x =? ".." then grow d (removelast cur) rest
          else match lookup (cur ++ [x]) d with
               | None => grow (put_at (cur ++ [x]) (Dir plain []) d) (cur ++ [x]) rest
               | Some (Dir _ _) => grow d (cur ++ [x]) rest
               | Some (Symlink _ t) =>
                   match present d (chase MAXSYMLINKS d t) with
                   | At q => match lookup q d with
                             | Some (Dir _ _) => grow d q rest
                             | _ => inr stop
                             end
                   | Lost k => inr (match rest with [] => FileExists | _ :: _ => k end)
                   end
               | Some _ => inr stop
               end
      | Some _ => inr NotADirectory
      | None => inr NoEntry
      end
  end.

(** Resolution is unfolded on demand only. *)
Arguments chase : simpl never.
Arguments step : simpl never.
Arguments enter : simpl never.
Arguments locate : simpl never.
Arguments place : simpl never.
Arguments grow : simpl never.

(** ** The platform mapping written by [interactive_create]

    Lines 200-212: the answers to the three platform prompts and to the
    custom-command prompt become the dict that [create_birb_json] stores,
    unchanged, under [platform_build_commands] (line 74). *)

(** [str.lower()] on ASCII text. *)
Definition lower_ascii (c : ascii) : ascii :=
  let n := nat_of_ascii c in
  if (65 <=? n)%nat && (n <=? 90)%nat then ascii_of_nat (n + 32) else c.

Fixpoint lower (s : string) : string :=
  match s with
  | EmptyString => EmptyString
  | String c s' => String (lower_ascii c) (lower s')
  end.

Definition platforms : list string := ["windows"; "linux"; "macos"].

Definition interactive_platform_commands (answer : string -> string)
    (custom_command : string) : list (string * option string) :=
  let platform_commands :=
    fold_left
      (fun d platform =>
         let command := answer platform in
         if lower command =? "null" then dict_set platform None d
         else dict_set platform
                (Some (if command =? "" then ("build_script." ++ platform ++ ".sh")%string
                       else command)) d)
      platforms [] in
  dict_set "custom"
    (Some (if custom_command =? "" then "make build" else custom_command))
    platform_commands.

(** [s.split(sep)] for a one-character separator. *)
Fixpoint split_on (sep : ascii) (s : string) (current : string) : list string :=
  match s with
  | EmptyString => [current]
  | String c s' =>
      if Ascii.eqb c sep then current :: split_on sep s' ""
      else split_on sep s' (current ++ String c "")%string
  end.

(** The whitespace of [str.strip()] among the ASCII characters: tab to
    carriage return, the four separators 28 to 31, and the space.  The
    answers are taken to be ASCII text. *)
Definition is_space (c : ascii) : bool :=
  let n := nat_of_ascii c in
  ((9 <=? n)%nat && (n <=? 13)%nat) || ((28 <=? n)%nat && (n <=? 32)%nat).

Fixpoint lstrip (s : string) : string :=
  match s with
  | String c s' => if is_space c then lstrip s' else s
  | EmptyString => EmptyString
  end.

(** [rstrip]: a character stays when it is no whitespace or when something
    stays after it. *)
Fixpoint rstrip (s : string) : string :=
  match s with
  | EmptyString => EmptyString
  | String c s' =>
      match rstrip s' with
      | EmptyString => if is_space c then EmptyString else String c EmptyString
      | t => String c t
      end
  end.

Definition strip (s : string) : string := rstrip (lstrip s).

(** The platform mapping of the flag-driven [create], lines 251-253. *)
Definition default_platform_commands : list (string * option string) :=
  fold_left
    (fun d platform =>
       dict_set platform (Some ("build_script." ++ platform ++ ".sh")%string) d)
    platforms [].

(** The answers typed at the prompts of [interactive_create], in the order
    of the prompts. *)
Record Answers := mkAnswers {
  project_name_answer : string;
  version_answer : string;
  platform_answer : string -> string;   (* one answer per platform *)
  custom_command_answer : string;
  output_dir_answer : string;
  clean_answer : string;
  repo_name_answer : string;
  branch_answer : string;
  vcs_push_answer : string
}.

(** The parsed command line of [main]. *)
Inductive subcommand := Create_command | Build_command.

Record Namespace := mkNamespace {
  ns_command : subcommand;
  ns_name : option string;
  ns_version : option string;
  ns_generate_config : bool
}.

(** Truth value of an optional string argument: [None] and the empty
    string are false. *)
Definition truthy (a : option string) : bool :=
  match a with
  | Some s => negb (s =? "")
  | None => false
  end.

(** ** Console messages and events

    One constructor of [message] per [print] of the source, carrying the
    values the f-string interpolates. *)

Inductive message :=
| Config_not_found                          (* line 95 *)
| Executing_command (c : string)            (* line 103 *)
| Build_succeeded                           (* line 106 *)
| Build_failed (e : exn)                    (* line 109 *)
| Committing (commit_message : string)      (* line 123 *)
| Committed                                 (* line 129 *)
| Commit_failed (e : exn)                   (* line 131 *)
| Executing_push (c : string)               (* line 139 *)
| Push_succeeded                            (* line 142 *)
| Push_failed (e : exn)                     (* line 144 *)
| Cleaning (output_dir : string)            (* line 158 *)
| Deleted (file_path : string)              (* line 167 *)
| Failed_to_delete (file_path : string) (e : exn)   (* line 169 *)
| Using_platform_commands                   (* line 173 *)
| Building_for (platform : string)          (* line 176 *)
| Using_custom_command                      (* line 185 *)
| Preferences_not_found                     (* line 54 *)
| Created (file : string)                   (* line 90 *)
| Welcome.                                  (* line 195 *)

(** The call site of a child process. *)
Inductive site := Build_site | Git_site | Push_site.

Inductive event :=
| Printed (m : message)
| Ran (s : site) (c : command) (dir : path) (status : Z)
| Called_git_commit (version platform : string).

(** What became of a command handed to [subprocess.run]: a process that
    ran and exited, or none. *)
Inductive spawned (E : Type) :=
| Exited (status : Z) (d : node) (o : E)
| Not_started (kind : os_error).
Arguments Exited {E} status d o.
Arguments Not_started {E} kind.

(** ** The world and the monad of the program *)

Section Engine.

(** What lies outside the file tree (network, remote repositories, time). *)
Variable E : Type.

(** A child process: command, working directory, disk and outside state
    in; exit status, disk and outside state out, when it started. *)
Variable exec : command -> path -> node -> E -> spawned E.

(** [str.format] on the templates that [py_format] does not evaluate. *)
Variable formatter : string -> string -> string -> result string.

Record World := mkWorld {
  cwd : path;
  disk : node;
  outside : E;
  trace : list event
}.

Definition M (A : Type) : Type := World -> result A * World.

Definition ret {A : Type} (a : A) : M A := fun w => (Ok a, w).

Definition raise {A : Type} (e : exn) : M A := fun w => (Raise e, w).

Definition bind {A B : Type} (m : M A) (k : A -> M B) : M B :=
  fun w => match m w with
           | (Ok a, w') => k a w'
           | (Raise e, w') => (Raise e, w')
           end.

Notation "x <- m ;; k" := (bind m (fun x => k))
  (at level 61, m at next level, right associativity).
Notation "m ;; k" := (bind m (fun _ => k))
  (at level 61, right associativity).

(** [try: body / except <catches> as e: handler e] *)
Definition try_except {A : Type} (body : M A) (catches : exn -> bool)
    (handler : exn -> M A) : M A :=
  fun w => match body w with
           | (Raise e, w') => if catches e then handler e w' else (Raise e, w')
           | r => r
           end.

(** [try: body / finally: final]: [final] runs on every exit of [body];
    an exception of [final] replaces the outcome of [body]. *)
Definition try_finally {A : Type} (body : M A) (final : M unit) : M A :=
  fun w => match body w with
           | (r, w') => match final w' with
                        | (Ok _, w'') => (r, w'')
                        | (Raise e, w'') => (Raise e, w'')
                        end
           end.

Definition lift {A : Type} (r : result A) : M A := fun w => (r, w).

Definition emit (e : event) : M unit :=
  fun w => (Ok tt, mkWorld (cwd w) (disk w) (outside w) (trace w ++ [e])).

Definition print (m : message) : M unit := emit (Printed m).

(** *** The operating system *)

(** [subprocess.run(c, check=True)]: a command that cannot be started
    raises and leaves no trace; a non-zero exit status raises
    [CalledProcessError]. *)
Definition subprocess_run (s : site) (c : command) : M CompletedProcess :=
  fun w =>
    if command_has_nul c then (Raise ValueError, w)
    else
      match exec c (cwd w) (disk w) (outside w) with
      | Exited status d o =>
          let w' := mkWorld (cwd w) d o (trace w ++ [Ran s c (cwd w) status]) in
          if (status =? 0)%Z then (Ok (mkCompleted c status), w')
          else (Raise (CalledProcessError c status), w')
      | Not_started kind => (Raise (OSError kind (program c)), w)
      end.

(** [os.chdir]: the new working directory is the directory the path
    leads to. *)
Definition os_chdir (s : string) : M unit :=
  fun w => match must_be_dir (disk w) (locate (disk w) (cwd w) s true) with
           | At q => (Ok tt, mkWorld q (disk w) (outside w) (trace w))
           | Lost kind => (Raise (OSError kind s), w)
           end.

Definition stat (s : string) : M (option node) :=
  fun w => (Ok (found (disk w) (cwd w) s), w).

Definition lstat (s : string) : M (option node) :=
  fun w => (Ok (found_here (disk w) (cwd w) s), w).

(** [os.path.exists], [isfile] and [isdir] follow links and answer
    [False] when the path leads nowhere; [os.path.islink] looks at the
    place itself. *)
Definition os_path_exists (s : string) : M bool :=
  n <- stat s ;;
  ret match n with
      | Some _ => true
      | None => false
      end.

Definition os_path_isfile (s : string) : M bool :=
  n <- stat s ;; ret match n with Some (File _ _) => true | _ => false end.

Definition os_path_islink (s : string) : M bool :=
  n <- lstat s ;; ret match n with Some (Symlink _ _) => true | _ => false end.

Definition os_path_isdir (s : string) : M bool :=
  n <- stat s ;; ret match n with Some (Dir _ _) => true | _ => false end.

(** [os.listdir]: the names of a directory that may be read. *)
Definition os_listdir (s : string) : M (list string) :=
  fun w =>
    match locate (disk w) (cwd w) s true with
    | At q =>
        match lookup q (disk w) with
        | Some (Dir mode es) =>
            if sealed mode then (Raise (OSError PermissionDenied s), w)
            else (Ok (map fst es), w)
        | Some _ => (Raise (OSError NotADirectory s), w)
        | None => (Raise (OSError NoEntry s), w)
        end
    | Lost kind => (Raise (OSError kind s), w)
    end.

Definition delete_entry (p : path) : M unit :=
  fun w => (Ok tt, mkWorld (cwd w) (remove_at p (disk w)) (outside w) (trace w)).

(** [os.unlink] and [os.rmdir] act on the place named, a link included. *)
Definition os_unlink (s : string) : M unit :=
  fun w =>
    match locate (disk w) (cwd w) s false with
    | At p =>
        match lookup p (disk w) with
        | Some (File deny _) | Some (Symlink deny _) =>
            if deny then (Raise (OSError PermissionDenied s), w) else delete_entry p w
        | Some Special => delete_entry p w
        | Some (Dir _ _) => (Raise (OSError IsADirectory s), w)
        | None => (Raise (OSError NoEntry s), w)
        end
    | Lost kind => (Raise (OSError kind s), w)
    end.

Definition os_rmdir (s : string) : M unit :=
  fun w =>
    match locate (disk w) (cwd w) s false with
    | At p =>
        match lookup p (disk w) with
        | Some (Dir _ (_ :: _)) => (Raise (OSError NotEmpty s), w)
        | Some (Dir mode []) =>
            if fixed mode then (Raise (OSError PermissionDenied s), w) else delete_entry p w
        | Some _ => (Raise (OSError NotADirectory s), w)
        | None => (Raise (OSError NoEntry s), w)
        end
    | Lost kind => (Raise (OSError kind s), w)
    end.

(** [open(s) ; json.load(f)] for a manifest. *)
Definition json_load (s : string) : M Manifest :=
  fun w =>
    match locate (disk w) (cwd w) s true with
    | At p =>
        match lookup p (disk w) with
        | Some (File _ (Json m)) => (Ok m, w)
        | Some (File _ (Prefs _)) => (Raise OutsideModel, w)   (* a document of another shape *)
        | Some (File _ Bytes) => (Raise JSONDecodeError, w)
        | Some (Dir _ _) => (Raise (OSError IsADirectory s), w)
        | Some _ => (Raise OutsideModel, w)                    (* a device or a pipe *)
        | None => (Raise (OSError NoEntry s), w)
        end
    | Lost kind => (Raise (OSError kind s), w)
    end.

(** [os.makedirs(s, exist_ok=True)] *)
Definition os_makedirs (s : string) : M unit :=
  fun w =>
    if (s =? "") || has_nul s then (Raise (OSError NoEntry s), w)
    else
      match grow (disk w) (origin (cwd w) s) (components s "") with
      | inl d => (Ok tt, mkWorld (cwd w) d (outside w) (trace w))
      | inr kind => (Raise (OSError kind s), w)
      end.

(** [with open(s, 'w') as f: json.dump(data, f)]: the file is created in
    an existing directory or overwritten; a read-only file refuses. *)
Definition json_dump (s : string) (data : file_data) : M unit :=
  fun w =>
    match place (disk w) (cwd w) s with
    | At p =>
        match lookup p (disk w) with
        | Some (File false _) | None =>
            (Ok tt, mkWorld (cwd w) (put_at p (File false data) (disk w))
                      (outside w) (trace w))
        | Some (File true _) => (Raise (OSError PermissionDenied s), w)
        | Some (Dir _ _) => (Raise (OSError IsADirectory s), w)
        | Some _ => (Raise OutsideModel, w)                    (* a device or a pipe *)
        end
    | Lost kind => (Raise (OSError kind s), w)
    end.

(** ** The program *)

(** The value of the environment variable [APPDATA]. *)
Variable APPDATA : string.

(** Lines 11-12. *)
Definition APPDATA_PATH : string := path_join APPDATA "BIRB".
Definition PREFERENCES_FILE : string := path_join APPDATA_PATH "preferences.json".

(** [load_preferences], lines 51-58. *)
Definition load_preferences : M Preferences :=
  found <- os_path_exists PREFERENCES_FILE ;;
  (if negb found then
     print Preferences_not_found ;;
     json_dump PREFERENCES_FILE (Prefs default_preferences)
   else ret tt) ;;
  n <- stat PREFERENCES_FILE ;;
  match n with
  | Some (File _ (Prefs p)) => ret p
  | Some (File _ (Json _)) => raise OutsideModel   (* a document of another shape *)
  | Some (File _ Bytes) => raise JSONDecodeError
  | Some (Dir _ _) => raise (OSError IsADirectory PREFERENCES_FILE)
  | Some _ => raise OutsideModel                   (* a device or a pipe *)
  | None => raise (OSError NoEntry PREFERENCES_FILE)
  end.

(** [create_birb_json], lines 60-90.  [platform_commands.get("custom",
    "make build")] is the stored value when the key is there, null
    included; the manifest has no null custom command, and the model stops
    at such a dict (neither caller builds one). *)
Definition create_birb_json (project_name version : string) (generate_config : bool)
    (platform_commands : list (string * option string)) (output_dir : string)
    (clean_before_build : bool) (repo_name branch : string)
    (vcs_push_command : list string) : M unit :=
  os_makedirs BIRB_DIR ;;
  match (match assoc "custom" platform_commands with
         | Some stored => stored
         | None => Some "make build"
         end) with
  | Some custom =>
      let birb_config :=
        mkManifest project_name
          (mkVersioning true "patch" version)
          (mkBuild custom platform_commands output_dir (Some clean_before_build))
          (mkGit repo_name branch true "Release {version} for {platform}"
             vcs_push_command) in
      json_dump BIRB_CONFIG_FILE (Json birb_config) ;;
      print (Created BIRB_CONFIG_FILE)
  | None => raise OutsideModel
  end.

(** [load_birb_json], lines 92-99. *)
Definition load_birb_json : M (option Manifest) :=
  found <- os_path_exists BIRB_CONFIG_FILE ;;
  if negb found then
    print Config_not_found ;;
    ret None
  else
    m <- json_load BIRB_CONFIG_FILE ;;
    ret (Some m).

(** [execute_build_command], lines 101-110: the completed process, or
    [None] when the command failed. *)
Definition execute_build_command (c : string) : M (option CompletedProcess) :=
  print (Executing_command c) ;;
  try_except
    (result <- subprocess_run Build_site (Shell c) ;;
     print Build_succeeded ;;
     ret (Some result))
    is_CalledProcessError
    (fun e => print (Build_failed e) ;; ret None).

(** [template.format(version=version, platform=platform)], line 122. *)
Definition str_format (template version platform : string) : result string :=
  match py_format template version platform with
  | Some formatted => formatted
  | None => formatter template version platform
  end.

(** The body of the [try] statement of [git_commit], lines 126-129. *)
Definition commit_steps (commit_message : string) : M unit :=
  os_chdir BIRB_DIR ;;
  subprocess_run Git_site (Argv ["git"; "add"; "."]) ;;
  subprocess_run Git_site (Argv ["git"; "commit"; "-m"; commit_message]) ;;
  print Committed.

(** The [try] statement of [git_commit], lines 125-134: the commit runs
    inside [BIRB_DIR], and [finally] moves to the parent directory. *)
Definition commit_in_birb_dir (commit_message : string) : M unit :=
  try_finally
    (try_except
       (commit_steps commit_message)
       is_CalledProcessError
       (fun e => print (Commit_failed e)))
    (os_chdir "..").

(** [git_commit], lines 112-134.  [repo_name] and [branch] are read and
    not used. *)
Definition git_commit (version platform : string) : M unit :=
  emit (Called_git_commit version platform) ;;
  config <- load_birb_json ;;
  match config with
  | None => ret tt
  | Some config =>
      if negb (auto_commit (git_integration config)) then ret tt
      else
        let repo_name := repo_name (git_integration config) in
        let branch := branch (git_integration config) in
        commit_message <-
          lift (str_format (commit_message_template (git_integration config))
                           version platform) ;;
        print (Committing commit_message) ;;
        commit_in_birb_dir commit_message
  end.

(** [execute_vcs_push_commands], lines 136-144. *)
Fixpoint execute_vcs_push_commands (vcs_push_commands : list string) : M unit :=
  match vcs_push_commands with
  | [] => ret tt
  | c :: rest =>
      print (Executing_push c) ;;
      try_except
        (subprocess_run Push_site (Shell c) ;;
         print Push_succeeded)
        is_CalledProcessError
        (fun e => print (Push_failed e)) ;;
      execute_vcs_push_commands rest
  end.

(** The body of the cleaning loop, lines 161-169. *)
Definition clean_entry (output_dir filename : string) : M unit :=
  let file_path := path_join output_dir filename in
  try_except
    (is_file <- os_path_isfile file_path ;;
     file_or_link <- (if is_file then ret true else os_path_islink file_path) ;;
     (if file_or_link then os_unlink file_path
      else
        is_dir <- os_path_isdir file_path ;;
        if is_dir then os_rmdir file_path else ret tt) ;;
     print (Deleted file_path))
    is_Exception
    (fun e => print (Failed_to_delete file_path e)).

Fixpoint clean_entries (output_dir : string) (filenames : list string) : M unit :=
  match filenames with
  | [] => ret tt
  | filename :: rest =>
      clean_entry output_dir filename ;;
      clean_entries output_dir rest
  end.

(** The cleaning of one output directory, lines 158-169. *)
Definition clean_old_builds (output_dir : string) : M unit :=
  print (Cleaning output_dir) ;;
  found <- os_path_exists output_dir ;;
  if found then
    filenames <- os_listdir output_dir ;;
    clean_entries output_dir filenames
  else ret tt.

(** The cleaning stage of [build_project], lines 154-169. *)
Definition cleaning_stage (config : Manifest) : M unit :=
  let output_dir := output_directory (build config) in
  let clean := match clean_before_build (build config) with
               | Some b => b
               | None => false
               end in
  if clean then clean_old_builds output_dir else ret tt.

(** What follows a successful build command, lines 179-182 and 188-191. *)
Definition after_build (config : Manifest) (platform : string) : M unit :=
  git_commit (current_version (versioning config)) platform ;;
  execute_vcs_push_commands (vcs_push_command (git_integration config)).

(** The loop over [platform_commands.items()], lines 174-182. *)
Fixpoint build_platforms (config : Manifest)
    (items : list (string * option string)) : M unit :=
  match items with
  | [] => ret tt
  | (platform, command) :: rest =>
      match command with
      | Some c =>
          print (Building_for platform) ;;
          result <- execute_build_command c ;;
          match result with
          | Some _ => after_build config platform
          | None => ret tt
          end
      | None => ret tt
      end ;;
      build_platforms config rest
  end.

(** [any(command is not None for command in platform_commands.values())] *)
Definition any_platform_command (platform_commands : list (string * option string)) : bool :=
  existsb (fun item => match snd item with Some _ => true | None => false end)
          platform_commands.

(** The two build modes, lines 171-191. *)
Definition run_targets (config : Manifest) : M unit :=
  let platform_commands := platform_build_commands (build config) in
  let custom_command := custom_build_command (build config) in
  if any_platform_command platform_commands then
    print Using_platform_commands ;;
    build_platforms config platform_commands
  else
    print Using_custom_command ;;
    result <- execute_build_command custom_command ;;
    match result with
    | Some _ => after_build config "custom"
    | None => ret tt
    end.

(** [build_project] after the manifest is loaded, lines 152-191. *)
Definition build_engine (config : Manifest) : M unit :=
  cleaning_stage config ;;
  run_targets config.

(** [build_project], lines 146-191. *)
Definition build_project : M unit :=
  config <- load_birb_json ;;
  match config with
  | None => ret tt
  | Some config => build_engine config
  end.

(** [interactive_create], lines 193-227.  [input] is the next answer; its
    prompt goes to the console and is not kept in the trace. *)
Definition interactive_create (answers : Answers) : M unit :=
  print Welcome ;;
  let project_name := project_name_answer answers in
  let version := version_answer answers in
  let platform_commands :=
    interactive_platform_commands (platform_answer answers)
      (custom_command_answer answers) in
  let output_dir :=
    if output_dir_answer answers =? "" then "./builds" else output_dir_answer answers in
  let clean_before_build := lower (clean_answer answers) =? "y" in
  let repo_name := repo_name_answer answers in
  let branch := if branch_answer answers =? "" then "main" else branch_answer answers in
  let vcs_push_commands :=
    if vcs_push_answer answers =? "" then []
    else map strip (split_on ","%char (vcs_push_answer answers) "") in
  create_birb_json project_name version true platform_commands output_dir
    clean_before_build repo_name branch vcs_push_commands.

(** [main], lines 229-263, after [parser.parse_args()]. *)
Definition main (args : Namespace) (answers : Answers) : M unit :=
  load_preferences ;;
  match ns_command args with
  | Create_command =>
      if truthy (ns_name args) && truthy (ns_version args) then
        match ns_name args, ns_version args with
        | Some name, Some version =>
            create_birb_json name version (ns_generate_config args)
              default_platform_commands "./builds" false "" "main" []
        | _, _ => ret tt   (* not reached: both are true *)
        end
      else interactive_create answers
  | Build_command => build_project
  end.

End Engine.

(** The module as a script: the module-level statements, lines 11-17, then
    [main].  [environ] is the environment's [APPDATA], if set;
    [os.path.join(None, 'BIRB')] is a [TypeError]. *)
Definition run_module {E : Type} (exec : command -> path -> node -> E -> spawned E)
    (formatter : string -> string -> string -> result string)
    (environ : option string) (args : Namespace) (answers : Answers) : M E unit :=
  match environ with
  | None => raise E TypeError
  | Some appdata =>
      bind E (os_makedirs E (APPDATA_PATH appdata))
        (fun _ => main E exec formatter appdata args answers)
  end.

Arguments mkWorld {E} cwd disk outside trace.
Arguments cwd {E} w.
Arguments disk {E} w.
Arguments outside {E} w.
Arguments trace {E} w.
Arguments ret {E A} a w.
Arguments raise {E A} e w.
Arguments bind {E A B} m k w.
Arguments try_except {E A} body catches handler w.
Arguments try_finally {E A} body final w.
Arguments lift {E A} r w.
Arguments emit {E} e w.
Arguments print {E} m w.
Arguments subprocess_run {E} exec s c w.
Arguments os_chdir {E} s w.
Arguments stat {E} s w.
Arguments lstat {E} s w.
Arguments os_path_exists {E} s w.
Arguments os_path_isfile {E} s w.
Arguments os_path_islink {E} s w.
Arguments os_path_isdir {E} s w.
Arguments os_listdir {E} s w.
Arguments delete_entry {E} p w.
Arguments os_unlink {E} s w.
Arguments os_rmdir {E} s w.
Arguments json_load {E} s w.
Arguments load_birb_json {E} w.
Arguments execute_build_command {E} exec c w.
Arguments commit_steps {E} exec commit_message w.
Arguments commit_in_birb_dir {E} exec commit_message w.
Arguments git_commit {E} exec formatter version platform w.
Arguments execute_vcs_push_commands {E} exec vcs_push_commands w.
Arguments clean_entry {E} output_dir filename w.
Arguments clean_entries {E} output_dir filenames w.
Arguments clean_old_builds {E} output_dir w.
Arguments cleaning_stage {E} config w.
Arguments after_build {E} exec formatter config platform w.
Arguments build_platforms {E} exec formatter config items w.
Arguments run_targets {E} exec formatter config w.
Arguments build_engine {E} exec formatter config w.
Arguments build_project {E} exec formatter w.
Arguments os_makedirs {E} s w.
Arguments json_dump {E} s data w.
Arguments load_preferences {E} APPDATA w.
Arguments create_birb_json {E} project_name version generate_config platform_commands
  output_dir clean_before_build repo_name branch vcs_push_command w.
Arguments interactive_create {E} answers w.
Arguments main {E} exec formatter APPDATA args answers w.
Arguments run_module {E} exec formatter environ args answers w.

(** ** Reading a trace *)

(** The build commands that ran, with their exit status. *)
Definition builds (tr : list event) : list (string * Z) :=
  flat_map (fun e => match e with
                     | Ran Build_site (Shell c) _ st => [(c, st)]
                     | _ => []
                     end) tr.

(** The push commands that ran, with their exit status. *)
Definition pushes (tr : list event) : list (string * Z) :=
  flat_map (fun e => match e with
                     | Ran Push_site (Shell c) _ st => [(c, st)]
                     | _ => []
                     end) tr.

(** The git commands that ran: arguments, working directory, status. *)
Definition git_runs (tr : list event) : list (list string * path * Z) :=
  flat_map (fun e => match e with
                     | Ran Git_site (Argv a) dir st => [(a, dir, st)]
                     | _ => []
                     end) tr.

(** The calls of the post-build hook: version and platform label. *)
Definition hooks (tr : list event) : list (string * string) :=
  flat_map (fun e => match e with
                     | Called_git_commit v p => [(v, p)]
                     | _ => []
                     end) tr.

(** The platforms announced by the multi-platform loop. *)
Definition announced (tr : list event) : list string :=
  flat_map (fun e => match e with
                     | Printed (Building_for p) => [p]
                     | _ => []
                     end) tr.

Definition printed (tr : list event) : list message :=
  flat_map (fun e => match e with
                     | Printed m => [m]
                     | _ => []
                     end) tr.

(** The commit messages the hook formatted. *)
Definition commit_messages (tr : list event) : list string :=
  flat_map (fun e => match e with
                     | Printed (Committing m) => [m]
                     | _ => []
                     end) tr.

(** The push commands the loop announced. *)
Definition push_attempts (tr : list event) : list string :=
  flat_map (fun e => match e with
                     | Printed (Executing_push c) => [c]
                     | _ => []
                     end) tr.

(** The outcomes the push loop reported. *)
Definition push_reports (tr : list event) : list message :=
  flat_map (fun e => match e with
                     | Printed Push_succeeded => [Push_succeeded]
                     | Printed (Push_failed x) => [Push_failed x]
                     | _ => []
                     end) tr.

(** Events of the hook, of the push loop and of a build command. *)
Definition hook_event (e : event) : Prop :=
  match e with
  | Printed Config_not_found | Printed (Committing _)
  | Printed Committed | Printed (Commit_failed _) => True
  | Ran Git_site _ _ _ => True
  | _ => False
  end.

Definition push_event (e : event) : Prop :=
  match e with
  | Printed (Executing_push _) | Printed Push_succeeded
  | Printed (Push_failed _) => True
  | Ran Push_site (Shell _) _ _ => True
  | _ => False
  end.

(** The path of the manifest, seen from the directory [dir]. *)
Definition manifest_path (dir : path) : path := (dir ++ [".birb"]) ++ ["birb.json"].

(** The targets of the multi-platform loop: the items with a command. *)
Definition targets (items : list (string * option string)) : list (string * string) :=
  flat_map (fun item => match snd item with
                        | Some c => [(fst item, c)]
                        | None => []
                        end) items.

(** The world after some more events. *)
Definition say {E : Type} (w : World E) (evs : list event) : World E :=
  mkWorld (cwd w) (disk w) (outside w) (trace w ++ evs).

(** ** The vocabulary of the properties *)

Fixpoint no_slash (s : string) : bool :=
  match s with
  | EmptyString => true
  | String c s' => negb (Ascii.eqb c slash) && no_slash s'
  end.

(** The names a directory listing can hold. *)
Definition proper_name (x : string) : bool :=
  negb (x =? "") && negb (x =? ".") && negb (x =? "..") && no_slash x
  && negb (has_nul x).

(** Nodes that the cleaning loop can remove: they have nothing below. *)
Definition leaf (n : node) : bool :=
  match n with
  | Dir _ (_ :: _) => false
  | _ => true
  end.

(** What the cleaning loop does to one entry, by the node it finds. *)
Definition entry_error (n : option node) : option os_error :=
  match n with
  | Some (File true _) | Some (Symlink true _) => Some PermissionDenied
  | Some (Dir mode []) => if fixed mode then Some PermissionDenied else None
  | Some (Dir _ (_ :: _)) => Some NotEmpty
  | _ => None
  end.

Definition entry_removed (n : option node) : bool :=
  match n with
  | Some (File false _) | Some (Symlink false _) => true
  | Some (Dir mode []) => negb (fixed mode)
  | _ => false
  end.

Definition entry_report (file_path : string) (n : option node) : message :=
  match entry_error n with
  | Some kind => Failed_to_delete file_path (OSError kind file_path)
  | None => Deleted file_path
  end.

(** The entries left by the loop over the listing [names], and its
    console output. *)
Fixpoint sweep (names : list string) (es : list (string * node)) : list (string * node) :=
  match names with
  | [] => es
  | x :: rest =>
      sweep rest (if entry_removed (assoc x es) then remove_key x es else es)
  end.

Fixpoint sweep_reports (output_dir : string) (names : list string)
    (es : list (string * node)) : list event :=
  match names with
  | [] => []
  | x :: rest =>
      Printed (entry_report (path_join output_dir x) (assoc x es))
      :: sweep_reports output_dir rest
           (if entry_removed (assoc x es) then remove_key x es else es)
  end.

Definition kept (e : string * node) : bool := negb (entry_removed (Some (snd e))).

(** The node the output directory names, if any, links followed. *)
Definition output_node {E : Type} (w : World E) (output_dir : string) : option node :=
  found (disk w) (cwd w) output_dir.

(** The directory at [q] with other entries. *)
Fixpoint with_entries (q : path) (es : list (string * node)) (n : node) : node :=
  match q, n with
  | [], Dir mode _ => Dir mode es
  | x :: q', Dir mode es0 => Dir mode (update_key x (with_entries q' es) es0)
  | _, _ => n
  end.

(** The path string [s] leads to the directory [q] whatever that
    directory holds: no entry of [q] is on the way to it. *)
Definition leads_to {E : Type} (w : World E) (s : string) (q : path) : Prop :=
  forall es, locate (with_entries q es (disk w)) (cwd w) s true = At q.

Definition is_brace (c : ascii) : bool :=
  Ascii.eqb c "{"%char || Ascii.eqb c "}"%char.

Definition brace_free (s : string) : bool :=
  forallb (fun c => negb (is_brace c)) (list_ascii_of_string s).

Inductive placeholder := Version | Platform.

Definition hole (x : placeholder) : string :=
  match x with Version => "{version}" | Platform => "{platform}" end.

Definition value (x : placeholder) (version platform : string) : string :=
  match x with Version => version | Platform => platform end.

Definition push_report (cs : string * Z) : message :=
  if (snd cs =? 0)%Z then Push_succeeded
  else Push_failed (CalledProcessError (Shell (fst cs)) (snd cs)).

(** Events that do not announce a build mode. *)
Definition loop_event (e : event) : Prop :=
  match e with
  | Printed Using_platform_commands | Printed Using_custom_command => False
  | _ => True
  end.

(** The outcome of one target: platform, command, exit status. *)
Definition outcome : Type := string * string * Z.
Definition succeeded (o : outcome) : bool := (snd o =? 0)%Z.

(** The events of the [try] statement of the hook, by the exit status
    of [git add] and of [git commit], when [.birb] is a directory of the
    working directory [dir]. *)
Definition commit_events (dir : path) (msg : string) (st1 st2 : Z) : list event :=
  Ran Git_site (Argv ["git"; "add"; "."]) (dir ++ [".birb"]) st1
  :: (if (st1 =? 0)%Z then
        [Ran Git_site (Argv ["git"; "commit"; "-m"; msg]) (dir ++ [".birb"]) st2;
         Printed (if (st2 =? 0)%Z then Committed
                  else Commit_failed
                         (CalledProcessError (Argv ["git"; "commit"; "-m"; msg]) st2))]
      else
        [Printed (Commit_failed (CalledProcessError (Argv ["git"; "add"; "."]) st1))]).

(** The git commands of the hook. *)
Definition git_add : list string := ["git"; "add"; "."].
Definition git_commit_m (msg : string) : list string := ["git"; "commit"; "-m"; msg].

(** The events of the [try] statement of the hook when its commands run
    in the directory [q] with the commit message [msg]. *)
Definition git_event (q : path) (msg : string) (e : event) : Prop :=
  match e with
  | Ran Git_site (Argv a) dir _ => dir = q /\ (a = git_add \/ a = git_commit_m msg)
  | Printed Committed | Printed (Commit_failed _) => True
  | _ => False
  end.

(** Two nodes of the same kind: resolution does not tell them apart. *)
Definition alike (n n' : node) : Prop :=
  match n, n' with
  | File _ _, File _ _ => True
  | Symlink _ t, Symlink _ t' => t = t'
  | Dir _ _, Dir _ _ => True
  | Special, Special => True
  | _, _ => False
  end.

(** A disk [d'] that holds nothing that [d] does not hold. *)
Definition thinned (d' d : node) : Prop :=
  forall p n', lookup p d' = Some n' -> exists n, lookup p d = Some n /\ alike n n'.

(** The place where the entries of the output directory are looked up. *)
Definition entries_at (d : node) (dir : path) (output_dir : string) : located :=
  enter d (origin dir output_dir) (components output_dir "").

(** Why something that is there cannot be listed. *)
Definition listing_error (n : node) : option os_error :=
  match n with
  | Dir mode _ => if sealed mode then Some PermissionDenied else None
  | _ => Some NotADirectory
  end.

(** A command that cannot be started in the world [w]. *)
Definition refused {E : Type} (exec : command -> path -> node -> E -> spawned E)
    (c : command) (w : World E) : Prop :=
  command_has_nul c = true \/
  exists kind, exec c (cwd w) (disk w) (outside w) = Not_started kind.

(** A command that can be started, whatever the state. *)
Definition starts {E : Type} (exec : command -> path -> node -> E -> spawned E)
    (c : command) : Prop :=
  command_has_nul c = false /\
  forall dir d o, exists st d' o', exec c dir d o = Exited st d' o'.

(** The git commands remove no directory and put nothing in the place of
    one. *)
Definition git_leaves_directories {E : Type}
    (exec : command -> path -> node -> E -> spawned E) : Prop :=
  forall args dir d o st d' o',
    exec (Argv args) dir d o = Exited st d' o' ->
    forall p mode es, lookup p d = Some (Dir mode es) ->
      exists mode' es', lookup p d' = Some (Dir mode' es').

(** The child processes leave what is at path [p] as it is. *)
Definition processes_leave {E : Type}
    (exec : command -> path -> node -> E -> spawned E) (p : path) : Prop :=
  forall c dir d o st d' o',
    exec c dir d o = Exited st d' o' -> lookup p d' = lookup p d.

(** A computation that leaves what is at path [p] as it is. *)
Definition keeps {E A : Type} (p : path) (m : M E A) : Prop :=
  forall w, lookup p (disk (snd (m w))) = lookup p (disk w).

(** How the multi-platform loop ended, given the outcomes of the targets
    whose command ran and the targets [rest] whose command did not: at the
    end of the mapping; by an exception of the hook or of a push command,
    after a target that was built; or at a build command that could not be
    started, after its platform was announced ([extra]). *)
Inductive loop_end {E : Type} (exec : command -> path -> node -> E -> spawned E)
    (formatter : string -> string -> string -> result string)
    (config : Manifest) (outcomes : list outcome) (rest : list (string * string))
    (r : result unit) (w' : World E) : list string -> Prop :=
| Finished :
    r = Ok tt -> rest = [] -> loop_end exec formatter config outcomes rest r w' []
| Left_after_build (e : exn) (pre : list outcome) (o : outcome) (w1 : World E) :
    r = Raise e -> outcomes = pre ++ [o] -> succeeded o = true ->
    after_build exec formatter config (fst (fst o)) w1 = (Raise e, w') ->
    loop_end exec formatter config outcomes rest r w' []
| Left_at_start (e : exn) (p c : string) (rest' : list (string * string)) :
    r = Raise e -> rest = (p, c) :: rest' -> refused exec (Shell c) w' ->
    loop_end exec formatter config outcomes rest r w' [p].

(** The commit step of a trace succeeded: [git commit] ran and exited
    with status 0. *)
Definition commit_succeeded (tr : list event) : bool :=
  existsb (fun g => match g with
                    | ("git" :: "commit" :: _, _, st) => (st =? 0)%Z
                    | _ => false
                    end) (git_runs tr).

(** The specification on pushing (claim C1), on the trace of a run: without a
    successful commit, no push command runs. *)
Definition push_skipped_unless_committed (tr : list event) : Prop :=
  commit_succeeded tr = false -> pushes tr = [].

(** The push commands that are due after the build commands [bs] of a
    run: the whole list after each one that exited with status 0. *)
Definition pushes_due (config : Manifest) (bs : list (string * Z)) : list string :=
  flat_map (fun b => if (snd b =? 0)%Z
                     then vcs_push_command (git_integration config) else []) bs.

(** The specification on the custom command (claim C2), on the trace of a
    run: the custom command ran exactly once. *)
Definition custom_command_ran_once (config : Manifest) (tr : list event) : Prop :=
  exists st, builds tr = [(custom_build_command (build config), st)].

(** The specification on the push list (claim C7), on the trace of a run:
    every entry was attempted, in order. *)
Definition all_pushes_attempted (cmds : list string) (tr : list event) : Prop :=
  push_attempts tr = cmds.

(** The specification on the iteration (claim C4), on the trace of a
    run: the build command of every target of the mapping ran. *)
Definition all_targets_built (config : Manifest) (tr : list event) : Prop :=
  map fst (builds tr) = map snd (targets (platform_build_commands (build config))).

(** The place of the manifest file of a run that starts in the world
    [w]: where [.birb/birb.json] leads to. *)
Definition manifest_at {E : Type} (w : World E) (p : path) : Prop :=
  locate (disk w) (cwd w) BIRB_CONFIG_FILE true = At p.

(** The specification on the stored manifest (claim C8): what is at the
    place of the manifest after the run is what was there before it. *)
Definition manifest_untouched {E : Type} (before after : World E) : Prop :=
  forall p, manifest_at before p -> lookup p (disk after) = lookup p (disk before).

(** The specification on a hook without manifest (claim C10): the hook
    is silent. *)
Definition hook_silent (tr : list event) : Prop := printed tr = [].

(** The cleaning stage of a run with manifest [m] stays away from the
    path [p]: cleaning is off, or [p] is no entry of the output directory,
    whose listing holds file names. *)
Definition cleaning_spares {E : Type} (w : World E) (m : Manifest) (p : path) : Prop :=
  clean_before_build (build m) = Some true ->
  forall q, locate (disk w) (cwd w) (output_directory (build m)) true = At q ->
    (forall x, q ++ [x] <> p) /\
    forall d es, lookup q (disk w) = Some (Dir d es) ->
      Forall (fun e => proper_name (fst e) = true) es.

Definition set_custom_build_command (config : Manifest) (c : string) : Manifest :=
  mkManifest (project_name config) (versioning config)
    (mkBuild c (platform_build_commands (build config))
       (output_directory (build config)) (clean_before_build (build config)))
    (git_integration config).

Definition set_git_integration (config : Manifest) (g : GitIntegration) : Manifest :=
  mkManifest (project_name config) (versioning config) (build config) g.

(** The manifest with other values of [auto_increment] and
    [increment_type]. *)
Definition set_increment (config : Manifest) (auto : bool) (type : string) : Manifest :=
  mkManifest (project_name config)
    (mkVersioning auto type (current_version (versioning config)))
    (build config) (git_integration config).

(** The directory that [os.makedirs] makes sure of: the one that was
    there, or a new empty one. *)
Definition ensured (found : option node) : option node :=
  match found with
  | None => Some (Dir plain [])
  | Some (Dir d es) => Some (Dir d es)
  | Some _ => None
  end.

(** What [open(file, 'w')] accepts at the place of the file: nothing, or
    a file that is not read-only. *)
Definition writable (found : option node) : bool :=
  match found with
  | None | Some (File false _) => true
  | _ => false
  end.

(** The manifest that [create_birb_json] writes, lines 65-85. *)
Definition birb_config (project_name version custom : string)
    (platform_commands : list (string * option string)) (output_dir : string)
    (clean_before_build : bool) (repo_name branch : string)
    (vcs_push_command : list string) : Manifest :=
  mkManifest project_name
    (mkVersioning true "patch" version)
    (mkBuild custom platform_commands output_dir (Some clean_before_build))
    (mkGit repo_name branch true "Release {version} for {platform}" vcs_push_command).

(** [platform_commands.get("custom", "make build")] *)
Definition get_custom (platform_commands : list (string * option string)) : option string :=
  match assoc "custom" platform_commands with
  | Some stored => stored
  | None => Some "make build"
  end.

(** What [interactive_create] stores for one platform, lines 204-208. *)
Definition platform_entry (answer : string -> string) (platform : string) : option string :=
  if lower (answer platform) =? "null" then None
  else Some (if answer platform =? "" then ("build_script." ++ platform ++ ".sh")%string
             else answer platform).

Definition custom_entry (custom_command : string) : string :=
  if custom_command =? "" then "make build" else custom_command.

(** The preferences file, below the directory that [APPDATA] names. *)
Definition preferences_path (q : path) : path := (q ++ ["BIRB"]) ++ ["preferences.json"].

Module Sample.

(** A project in [/work/demo]; no outside state. *)
Definition home : path := ["work"; "demo"].

Definition manifest (items : list (string * option string)) (output_dir : string)
    (template : string) : Manifest :=
  mkManifest "demo"
    (mkVersioning true "patch" "1.2.0")
    (mkBuild "echo build" items output_dir (Some true))
    (mkGit "demo" "main" true template ["git push origin main"; "git push --tags"]).

Definition template : string := "Release {version} for {platform}".

(** Scenario: one platform fails, one is skipped, one succeeds. *)
Definition three_platforms : Manifest :=
  manifest [("windows", Some "echo win"); ("linux", None); ("macos", Some "make mac")]
           "./builds" template.

(** Scenario: every platform command is null. *)
Definition custom_only : Manifest :=
  manifest [("windows", None); ("linux", None); ("macos", None)] "./builds" template.

(** Scenario: the manifest written by the interactive [create]. *)
Definition created : Manifest :=
  manifest (interactive_platform_commands
              (fun platform => if platform =? "linux" then "" else "NULL") "")
           "./builds" template.

(** Scenario: the output directory is the directory of the manifest. *)
Definition cleans_birb_dir : Manifest :=
  manifest [("windows", Some "echo win")] ".birb" template.

Definition artifacts : list (string * node) :=
  [("app.exe", File false Bytes);
   ("locked.log", File true Bytes);
   ("cache", Dir plain [("index", File false Bytes)]);
   ("empty", Dir plain []);
   ("latest", Symlink false ["work"; "demo"; "builds"; "app.exe"])].

Definition tree (m : Manifest) : node :=
  Dir plain
    [("work",
      Dir plain
        [("demo",
          Dir plain
            [(".birb", Dir plain [("birb.json", File false (Json m))]);
             ("builds", Dir plain artifacts);
             ("main.c", File false Bytes)])])].

Definition world (m : Manifest) : World unit := mkWorld home (tree m) tt [].

(** A project without a manifest. *)
Definition bare_world : World unit :=
  mkWorld home (Dir plain [("work", Dir plain [("demo", Dir plain [])])]) tt [].

(** A project whose [.birb] is a link to the directory [/store/birb]. *)
Definition linked_world (m : Manifest) : World unit :=
  mkWorld home
    (Dir plain
       [("work", Dir plain [("demo", Dir plain [(".birb", Symlink false ["store"; "birb"])])]);
        ("store", Dir plain [("birb", Dir plain [("birb.json", File false (Json m))])])])
    tt [].

(** Child processes that leave the disk alone; the commands [bad] accepts
    exit with status 1, the others with status 0. *)
Definition exec_failing (bad : command -> bool)
    (c : command) (dir : path) (d : node) (o : unit) : spawned unit :=
  Exited (if bad c then 1 else 0)%Z d o.

Definition nothing_fails (c : command) : bool := false.

(** The templates of the samples are all evaluated by [py_format]; the
    formatter is not consulted for them. *)
Definition formatter (template version platform : string) : result string :=
  Raise OutsideModel.

Definition commit_fails (c : command) : bool :=
  match c with
  | Argv ("git" :: "commit" :: _) => true
  | _ => false
  end.

Definition mac_build_fails (c : command) : bool :=
  match c with
  | Shell "make mac" => true
  | _ => false
  end.

Definition windows_build_fails (c : command) : bool :=
  match c with
  | Shell "echo win" => true
  | _ => false
  end.

End Sample.

Module Cases.

Definition exec : command -> path -> node -> unit -> spawned unit :=
  Sample.exec_failing Sample.nothing_fails.

(** A machine without git: the program is not found. *)
Definition exec_without_git (c : command) (dir : path) (d : node) (o : unit)
    : spawned unit :=
  match c with
  | Argv ("git" :: _) => Not_started NoEntry
  | _ => Exited 0%Z d o
  end.

(** The manifest file holds something that is no JSON. *)
Definition garbled_world : World unit :=
  mkWorld Sample.home
    (Dir plain
       [("work", Dir plain
          [("demo", Dir plain [(".birb", Dir plain [("birb.json", File false Bytes)])])])])
    tt [].

(** A template with a brace that is never closed. *)
Definition bad_template : Manifest :=
  Sample.manifest [("windows", Some "echo win"); ("linux", Some "make")] "./builds"
    "Release {version} for {platform".

(** The output directory names the file [main.c]. *)
Definition cleans_a_file : Manifest :=
  Sample.manifest [("windows", Some "echo win")] "main.c" Sample.template.

(** Every platform command is null, and the output directory names the
    file [main.c]. *)
Definition custom_cleans_a_file : Manifest :=
  Sample.manifest [("windows", None); ("linux", None); ("macos", None)] "main.c"
    Sample.template.

(** A custom entry in the mapping, and the output directory names the
    file [main.c]. *)
Definition created_cleans_a_file : Manifest :=
  Sample.manifest [("linux", None); ("custom", Some "make build")] "main.c"
    Sample.template.

(** A build command with a NUL character in it, before another target;
    cleaning is off. *)
Definition nul_build : Manifest :=
  mkManifest "demo"
    (mkVersioning true "patch" "1.2.0")
    (mkBuild "echo build" [("windows", Some (String nul "build")); ("linux", Some "make")]
       "./builds" (Some false))
    (mkGit "demo" "main" true Sample.template ["git push origin main"]).

(** The push command [push1] fails. *)
Definition push1_fails (c : command) : bool :=
  match c with
  | Shell "push1" => true
  | _ => false
  end.

(** A push command with a NUL character in it, before another one. *)
Definition nul_push : list string := [String nul "push1"; "push2"].

(** A named pipe among the build artifacts. *)
Definition pipe_world : World unit :=
  mkWorld Sample.home
    (Dir plain
       [("work", Dir plain
          [("demo", Dir plain [("builds", Dir plain [("pipe", Special)])])])])
    tt [].

(** The output directory may not be read. *)
Definition sealed_world (m : Manifest) : World unit :=
  mkWorld Sample.home
    (Dir plain
       [("work", Dir plain
          [("demo", Dir plain
             [(".birb", Dir plain [("birb.json", File false (Json m))]);
              ("builds", Dir (mkMode false true) Sample.artifacts)])])])
    tt [].

(** The name [.birb] is taken by a file. *)
Definition taken_world : World unit :=
  mkWorld Sample.home
    (Dir plain [("work", Dir plain [("demo", Dir plain [(".birb", File false Bytes)])])])
    tt [].

Definition answers : Answers :=
  mkAnswers "demo" "0.1.0"
    (fun platform => if platform =? "linux" then "make" else
                     if platform =? "macos" then "Null" else "")
    "" "" "Y" "demo" "" "git push, git push --tags".

(** Preferences below [/appdata]. *)
Definition stored : Preferences :=
  mkPreferences
    (mkVersioningPreferences false "minor" "" false "")
    (mkBuildPreferences ["linux"] "./out" false false true "script" "build.sh")
    (mkNotifications false false false)
    (mkGit "mine" "dev" false "{version}" ["git push"]).

Definition with_preferences (content : list (string * node)) (m : Manifest) : World unit :=
  mkWorld Sample.home
    (Dir plain
       [("work", Dir plain
          [("demo", Dir plain [(".birb", Dir plain [("birb.json", File false (Json m))])])]);
        ("appdata", Dir plain [("BIRB", Dir plain content)])])
    tt [].

End Cases.

(** ** Properties *)

(** *** Path strings *)

Lemma append_assoc (a b c : string) : ((a ++ b) ++ c = a ++ (b ++ c))%string.
Proof. induction a as [|x a IH]; cbn; [reflexivity | now rewrite IH]. Qed.

Lemma append_empty_r (a : string) : (a ++ "")%string = a.
Proof. induction a as [|x a IH]; cbn; [reflexivity | now rewrite IH]. Qed.

Lemma proper_name_inv (x : string) :
  proper_name x = true ->
  x <> "" /\ (x =? ".") = false /\ (x =? "..") = false /\
  no_slash x = true /\ has_nul x = false.
Proof.
  unfold proper_name. intros H.
  apply andb_prop in H as [H H4]. apply andb_prop in H as [H H3].
  apply andb_prop in H as [H H2]. apply andb_prop in H as [H0 H1].
  apply negb_true_iff in H0, H1, H2, H4.
  repeat split; auto. intros ->. discriminate.
Qed.

Lemma proper_starts (x : string) : proper_name x = true -> starts_with_slash x = false.
Proof.
  intros H. apply proper_name_inv in H as (_ & _ & _ & H & _).
  destruct x as [|c x]; [reflexivity|].
  cbn in *. apply andb_prop in H as [H _]. now apply negb_true_iff in H.
Qed.

Lemma named_proper (x : string) : proper_name x = true -> named x = [x].
Proof.
  intros H. apply proper_name_inv in H as (H & _). unfold named.
  destruct (String.eqb_spec x ""); [congruence | reflexivity].
Qed.

Lemma components_app_slash (a b : string) : forall name,
  components (a ++ String slash b)%string name = components a name ++ components b "".
Proof.
  induction a as [|c a IH]; intros name; cbn.
  - reflexivity.
  - destruct (Ascii.eqb c slash); [now rewrite IH, app_assoc | apply IH].
Qed.

Lemma components_no_slash (x : string) : forall name,
  no_slash x = true -> components x name = named (name ++ x)%string.
Proof.
  induction x as [|c x IH]; intros name H; cbn.
  - now rewrite append_empty_r.
  - cbn in H. apply andb_prop in H as [Hc Hx]. apply negb_true_iff in Hc.
    rewrite Hc, (IH _ Hx), append_assoc. reflexivity.
Qed.

Lemma ends_with_slash_split (a : string) :
  ends_with_slash a = true -> exists a0, a = (a0 ++ String slash "")%string.
Proof.
  induction a as [|c a IH]; [discriminate|].
  destruct a as [|c' a'].
  - cbn. intros H. apply Ascii.eqb_eq in H. subst. now exists "".
  - intros H. change (ends_with_slash (String c' a') = true) in H.
    destruct (IH H) as [a0 Ha]. exists (String c a0). cbn. now rewrite <- Ha.
Qed.

Lemma ends_with_slash_app (a x : string) :
  x <> "" -> ends_with_slash (a ++ x)%string = ends_with_slash x.
Proof.
  intros Hx. induction a as [|c a IH]; [reflexivity|].
  cbn [append]. rewrite <- IH.
  destruct (a ++ x)%string eqn:Heq; [|reflexivity].
  destruct a; cbn in Heq; [congruence | discriminate].
Qed.

Lemma no_slash_ends (x : string) : no_slash x = true -> ends_with_slash x = false.
Proof.
  induction x as [|c x IH]; [reflexivity|]. cbn [no_slash]. intros H.
  apply andb_prop in H as [Hc Hx]. apply negb_true_iff in Hc.
  destruct x as [|c' x']; [exact Hc|].
  change (ends_with_slash (String c' x') = false). now apply IH.
Qed.

Lemma has_nul_app (a b : string) : has_nul (a ++ b)%string = has_nul a || has_nul b.
Proof.
  induction a as [|c a IH]; [reflexivity|]. cbn. now rewrite IH, orb_assoc.
Qed.

Lemma starts_with_slash_app (a b : string) :
  a <> "" -> starts_with_slash (a ++ b)%string = starts_with_slash a.
Proof. destruct a; [congruence | reflexivity]. Qed.

(** The shape of a file name joined to a directory: the names of the
    directory, then the file name. *)
Lemma path_join_shape (a x : string) :
  proper_name x = true ->
  components (path_join a x) "" = components a "" ++ [x] /\
  (path_join a x =? "") = false /\
  ends_with_slash (path_join a x) = false /\
  has_nul (path_join a x) = has_nul a /\
  (a <> "" -> starts_with_slash (path_join a x) = starts_with_slash a).
Proof.
  intros Hx. pose proof (proper_starts x Hx) as Hs.
  pose proof (named_proper x Hx) as Hn.
  destruct (proper_name_inv x Hx) as (Hne & _ & _ & Hns & Hnul).
  unfold path_join. rewrite Hs.
  destruct (String.eqb_spec a "") as [->|Ha].
  - cbn [orb append]. rewrite (components_no_slash x "" Hns). cbn [append].
    rewrite Hn, (no_slash_ends x Hns), Hnul.
    repeat split; auto; try congruence.
    destruct x; [congruence | reflexivity].
  - cbn [orb].
    assert (Hnon : forall t, ((a ++ t)%string =? "") = false).
    { intros t. destruct a; [congruence | reflexivity]. }
    destruct (ends_with_slash a) eqn:He.
    + destruct (ends_with_slash_split a He) as [a0 ->].
      rewrite (ends_with_slash_app _ x Hne), (no_slash_ends x Hns).
      rewrite has_nul_app, Hnul, orb_false_r.
      rewrite Hnon. repeat split; auto.
      * rewrite append_assoc. cbn [append].
        rewrite !components_app_slash. cbn [components named String.eqb].
        rewrite (components_no_slash x "" Hns). cbn [append].
        now rewrite Hn, app_nil_r.
      * intros _. now apply starts_with_slash_app.
    + rewrite Hnon. rewrite components_app_slash, (components_no_slash x "" Hns).
      cbn [append]. rewrite Hn.
      rewrite has_nul_app. cbn [has_nul]. rewrite Hnul.
      change (Ascii.eqb slash nul) with false. cbn [orb].
      rewrite orb_false_r.
      repeat split; auto.
      * rewrite (ends_with_slash_app a (String slash x)) by discriminate.
        destruct x as [|c x]; [congruence|].
        change (ends_with_slash (String slash (String c x)))
          with (ends_with_slash (String c x)).
        now apply no_slash_ends.
      * intros _. now apply starts_with_slash_app.
Qed.

(** *** The file tree *)

Lemma assoc_remove_key_other {A : Type} (x y : string) (es : list (string * A)) :
  x <> y -> assoc y (remove_key x es) = assoc y es.
Proof.
  intros Hxy. induction es as [|[k v] es IH]; [reflexivity|]. cbn.
  destruct (x =? k) eqn:Hx.
  - apply String.eqb_eq in Hx. subst k.
    destruct (y =? x) eqn:Hy; [apply String.eqb_eq in Hy; congruence | exact IH].
  - cbn. now rewrite IH.
Qed.

Lemma assoc_remove_key_same {A : Type} (x : string) (es : list (string * A)) :
  assoc x (remove_key x es) = None.
Proof.
  induction es as [|[k v] es IH]; [reflexivity|]. cbn.
  destruct (x =? k) eqn:Hx; [exact IH|]. cbn. now rewrite Hx.
Qed.

Lemma remove_key_fresh {A : Type} (x : string) (es : list (string * A)) :
  ~ In x (map fst es) -> remove_key x es = es.
Proof.
  induction es as [|[k v] es IH]; [reflexivity|]. cbn. intros H.
  destruct (String.eqb_spec x k) as [->|_]; [tauto|]. rewrite IH; tauto.
Qed.

Lemma assoc_update_key_other {A : Type} (x y : string) (f : A -> A) (es : list (string * A)) :
  x <> y -> assoc y (update_key x f es) = assoc y es.
Proof.
  intros Hxy. induction es as [|[k v] es IH]; [reflexivity|]. cbn.
  destruct (x =? k) eqn:Hx.
  - apply String.eqb_eq in Hx. subst k. cbn.
    destruct (y =? x) eqn:Hy; [apply String.eqb_eq in Hy; congruence | reflexivity].
  - cbn. now rewrite IH.
Qed.

Lemma assoc_update_key_same {A : Type} (x : string) (f : A -> A) (es : list (string * A)) :
  assoc x (update_key x f es) = option_map f (assoc x es).
Proof.
  induction es as [|[k v] es IH]; [reflexivity|]. cbn.
  destruct (x =? k) eqn:Hx; cbn; rewrite Hx; auto.
Qed.

Lemma update_key_ext {A : Type} (x : string) (f g : A -> A) (es : list (string * A)) :
  (forall c, assoc x es = Some c -> f c = g c) ->
  update_key x f es = update_key x g es.
Proof.
  induction es as [|[k v] es IH]; [reflexivity|]. cbn. intros H.
  destruct (x =? k) eqn:Hx.
  - now rewrite (H v eq_refl).
  - now rewrite IH.
Qed.

Lemma update_key_twice {A : Type} (x : string) (f g : A -> A) (es : list (string * A)) :
  update_key x g (update_key x f es) = update_key x (fun c => g (f c)) es.
Proof.
  induction es as [|[k v] es IH]; [reflexivity|]. cbn.
  destruct (x =? k) eqn:Hx; cbn; rewrite Hx; [reflexivity | now rewrite IH].
Qed.

Lemma lookup_app (p q : path) : forall n,
  lookup (p ++ q) n =
  match lookup p n with
  | Some c => lookup q c
  | None => None
  end.
Proof.
  induction p as [|y p IH]; intros n; [reflexivity|]. cbn.
  destruct n as [| |d es|]; try reflexivity.
  destruct (assoc y es); [apply IH | reflexivity].
Qed.

Lemma lookup_snoc (q : path) (x : string) (n : node) :
  lookup (q ++ [x]) n =
  match lookup q n with
  | Some (Dir _ es) => assoc x es
  | _ => None
  end.
Proof.
  rewrite lookup_app. destruct (lookup q n) as [[| |d es|]|]; try reflexivity.
  cbn. destruct (assoc x es); reflexivity.
Qed.

(** What holds something stands in a directory. *)
Lemma lookup_parent (q : path) (x : string) (n c : node) :
  lookup (q ++ [x]) n = Some c ->
  exists mode es, lookup q n = Some (Dir mode es) /\ assoc x es = Some c.
Proof.
  rewrite lookup_snoc. destruct (lookup q n) as [[| |d es|]|]; try discriminate.
  intros H. now exists d, es.
Qed.

Lemma remove_at_snoc_cons (y : string) (q : path) (x : string) (d : dir_mode)
    (es : list (string * node)) :
  remove_at (y :: q ++ [x]) (Dir d es) = Dir d (update_key y (remove_at (q ++ [x])) es).
Proof. cbn. destruct (q ++ [x]) eqn:H; [destruct q; discriminate | reflexivity]. Qed.

(** Removing a child of the directory at [q] rewrites that directory's
    entries and nothing else. *)
Lemma remove_at_child (q : path) (x : string) : forall n mode es,
  lookup q n = Some (Dir mode es) ->
  remove_at (q ++ [x]) n = with_entries q (remove_key x es) n.
Proof.
  induction q as [|y q IH]; intros n mode es H.
  - cbn in H. injection H as ->. reflexivity.
  - destruct n as [| |d0 es0|]; try discriminate.
    change ((y :: q) ++ [x]) with (y :: q ++ [x]).
    rewrite remove_at_snoc_cons. cbn [with_entries]. f_equal.
    apply update_key_ext. intros c Hc. cbn in H. rewrite Hc in H.
    now apply (IH c mode es).
Qed.

Lemma with_entries_twice (q : path) (es1 es2 : list (string * node)) : forall n,
  with_entries q es2 (with_entries q es1 n) = with_entries q es2 n.
Proof.
  induction q as [|y q IH]; intros n; destruct n as [| |d es|]; try reflexivity.
  cbn. rewrite update_key_twice. f_equal. apply update_key_ext. intros c _. apply IH.
Qed.

Lemma lookup_with_entries (q : path) (es' : list (string * node)) : forall n mode es,
  lookup q n = Some (Dir mode es) ->
  lookup q (with_entries q es' n) = Some (Dir mode es').
Proof.
  induction q as [|y q IH]; intros n mode es H.
  - cbn in H. injection H as ->. reflexivity.
  - destruct n as [| |d0 es0|]; try discriminate. cbn in *.
    rewrite assoc_update_key_same.
    destruct (assoc y es0) as [c|]; [|discriminate]. cbn. now apply (IH c mode es).
Qed.

Lemma with_entries_same (q : path) : forall n mode es,
  lookup q n = Some (Dir mode es) -> with_entries q es n = n.
Proof.
  induction q as [|y q IH]; intros n mode es H.
  - cbn in H. injection H as ->. reflexivity.
  - destruct n as [| |d0 es0|]; try discriminate. cbn in *. f_equal.
    transitivity (update_key y (fun c => c) es0).
    + apply update_key_ext. intros c Hc. rewrite Hc in H. now apply (IH c mode es).
    + clear. induction es0 as [|[k v] es0 IH]; [reflexivity|]. cbn.
      destruct (y =? k); [reflexivity | now rewrite IH].
Qed.

(** Removing a leaf leaves every other file where it is. *)
Lemma lookup_remove_at_file (r : path) : forall p n l deny data,
  lookup r n = Some l -> leaf l = true ->
  lookup p n = Some (File deny data) -> r <> p ->
  lookup p (remove_at r n) = Some (File deny data).
Proof.
  induction r as [|x r IH]; intros p n l deny data Hr Hl Hp Hne.
  - exact Hp.
  - destruct n as [| |d es|]; try discriminate.
    destruct p as [|y p]; [discriminate|].
    cbn in Hr, Hp.
    destruct (assoc x es) as [c|] eqn:Hx; [|discriminate].
    destruct (assoc y es) as [c'|] eqn:Hy; [|discriminate].
    destruct (String.eqb_spec x y) as [->|Hxy].
    + rewrite Hx in Hy. injection Hy as <-.
      destruct r as [|z r].
      * cbn in Hr. injection Hr as ->.
        destruct p as [|z p]; [congruence|].
        destruct l as [| |? [|]|]; cbn in Hp, Hl; discriminate.
      * change (lookup (y :: p) (remove_at (y :: z :: r) (Dir d es)))
          with (match assoc y (update_key y (remove_at (z :: r)) es) with
                | Some c0 => lookup p c0
                | None => None
                end).
        rewrite assoc_update_key_same, Hx. cbn [option_map].
        apply (IH p c l); auto. congruence.
    + destruct r as [|z r].
      * cbn. now rewrite (assoc_remove_key_other x y es Hxy), Hy.
      * change (lookup (y :: p) (remove_at (x :: z :: r) (Dir d es)))
          with (match assoc y (update_key x (remove_at (z :: r)) es) with
                | Some c0 => lookup p c0
                | None => None
                end).
        now rewrite (assoc_update_key_other x y _ es Hxy), Hy.
Qed.

Lemma alike_refl (n : node) : alike n n.
Proof. destruct n; cbn; auto. Qed.

Lemma alike_trans (a b c : node) : alike a b -> alike b c -> alike a c.
Proof. destruct a, b, c; cbn; intros; try tauto; congruence. Qed.

Lemma thinned_refl (d : node) : thinned d d.
Proof. intros p n' H. exists n'. split; [exact H | apply alike_refl]. Qed.

Lemma thinned_trans (a b c : node) : thinned a b -> thinned b c -> thinned a c.
Proof.
  intros Hab Hbc p n Hn. destruct (Hab p n Hn) as (n1 & H1 & A1).
  destruct (Hbc p n1 H1) as (n2 & H2 & A2). exists n2. split; [exact H2|].
  now apply (alike_trans n2 n1 n).
Qed.

Lemma thinned_remove_at (r : path) : forall d, thinned (remove_at r d) d.
Proof.
  induction r as [|x r IH]; intros d; [apply thinned_refl|].
  destruct d as [| |mode es|]; try apply thinned_refl.
  intros p n' H. destruct p as [|y p].
  - cbn in H. exists (Dir mode es). split; [reflexivity|].
    destruct r; cbn in H; injection H as <-; exact I.
  - destruct r as [|z r].
    + cbn in H. cbn.
      destruct (String.eqb_spec x y) as [->|Hxy].
      * rewrite assoc_remove_key_same in H. discriminate.
      * rewrite (assoc_remove_key_other x y es Hxy) in H.
        destruct (assoc y es) as [c|]; [|discriminate].
        exists n'. split; [exact H | apply alike_refl].
    + change (lookup (y :: p) (remove_at (x :: z :: r) (Dir mode es)))
        with (match assoc y (update_key x (remove_at (z :: r)) es) with
              | Some c0 => lookup p c0
              | None => None
              end) in H.
      cbn [lookup].
      destruct (String.eqb_spec x y) as [->|Hxy].
      * rewrite assoc_update_key_same in H.
        destruct (assoc y es) as [c|]; [|discriminate]. cbn [option_map] in H.
        exact (IH c p n' H).
      * rewrite (assoc_update_key_other x y _ es Hxy) in H.
        destruct (assoc y es) as [c|]; [|discriminate].
        exists n'. split; [exact H | apply alike_refl].
Qed.

(** *** Resolution *)

Lemma fold_step_lost (f : bool) (d : node) (names : list string) (k : os_error) :
  fold_left (step f d) names (Lost k) = Lost k.
Proof. induction names as [|x names IH]; [reflexivity | exact IH]. Qed.

Lemma enter_snoc (d : node) (from : path) (names : list string) (x : string) :
  enter d from (names ++ [x]) = step true d (enter d from names) x.
Proof. unfold enter. now rewrite fold_left_app. Qed.

Lemma enter_cons (d : node) (from : path) (x : string) (names : list string) :
  enter d from (x :: names) = fold_left (step true d) names (step true d (At from) x).
Proof. reflexivity. Qed.

Lemma must_be_dir_at (d : node) (l : located) (q : path) :
  must_be_dir d l = At q ->
  l = At q /\ exists mode es, lookup q d = Some (Dir mode es).
Proof.
  destruct l as [p|k]; [|discriminate]. cbn.
  destruct (lookup p d) as [[| |mode es|]|] eqn:Hp; try discriminate.
  intros H. injection H as <-. split; [reflexivity | now exists mode, es].
Qed.

(** A path that leads somewhere is a string without NUL whose names lead
    there one after the other. *)
Lemma locate_enter (d : node) (dir : path) (s : string) (q : path) :
  locate d dir s true = At q ->
  s <> "" /\ has_nul s = false /\
  enter d (origin dir s) (components s "") = At q.
Proof.
  unfold locate.
  destruct (String.eqb_spec s "") as [->|Hs]; [discriminate|]. cbn [orb].
  destruct (has_nul s); [discriminate|].
  destruct (ends_with_slash s); intros H.
  - apply must_be_dir_at in H as [H _]. auto.
  - auto.
Qed.

(** A file name joined to a directory is looked up where the directory
    leads. *)
Lemma locate_join (d : node) (dir : path) (a x : string) (f : bool) :
  a <> "" -> has_nul a = false -> proper_name x = true ->
  locate d dir (path_join a x) f
  = step f d (enter d (origin dir a) (components a "")) x.
Proof.
  intros Ha Hnul Hx.
  destruct (path_join_shape a x Hx) as (Hc & Hne & He & Hn & Hs).
  unfold locate. rewrite Hne, Hn, Hnul, He, Hc. cbn [orb].
  unfold origin. rewrite (Hs Ha).
  destruct f.
  - apply enter_snoc.
  - now rewrite removelast_last, last_last.
Qed.

(** One proper name, looked up in a directory. *)
Lemma step_name (f : bool) (d : node) (q : path) (x : string) (mode : dir_mode)
    (es : list (string * node)) :
  proper_name x = true -> lookup q d = Some (Dir mode es) ->
  step f d (At q) x =
  match assoc x es with
  | Some (Symlink _ t) => if f then present d (chase MAXSYMLINKS d t) else At (q ++ [x])
  | Some _ => At (q ++ [x])
  | None => Lost NoEntry
  end.
Proof.
  intros Hx Hq. destruct (proper_name_inv x Hx) as (_ & H1 & H2 & _).
  unfold step. rewrite Hq, H1, H2, lookup_snoc, Hq. reflexivity.
Qed.

(** The names of a path without links lead down the tree. *)
Lemma enter_plain (d : node) (names : list string) : forall from n,
  Forall (fun x => proper_name x = true) names ->
  lookup (from ++ names) d = Some n ->
  (forall deny t, n <> Symlink deny t) ->
  enter d from names = At (from ++ names).
Proof.
  induction names as [|x names IH]; intros from n Hp Hl Hn.
  - now rewrite app_nil_r.
  - inversion Hp as [|? ? Hx Hp']; subst.
    rewrite enter_cons.
    assert (Hl' : lookup ((from ++ [x]) ++ names) d = Some n)
      by now rewrite <- app_assoc.
    rewrite lookup_app in Hl'.
    destruct (lookup (from ++ [x]) d) as [c|] eqn:Hc; [|discriminate].
    destruct (lookup_parent from x d c Hc) as (mode & es & Hq & Hxe).
    rewrite (step_name true d from x mode es Hx Hq), Hxe.
    assert (Hgo : fold_left (step true d) names (At (from ++ [x]))
                  = At (from ++ x :: names)).
    { change (enter d (from ++ [x]) names = At (from ++ x :: names)).
      rewrite (IH (from ++ [x]) n Hp'); [now rewrite <- app_assoc | | exact Hn].
      rewrite lookup_app, Hc. exact Hl'. }
    destruct c as [| deny t | |]; try exact Hgo.
    destruct names as [|y names]; cbn in Hl'; [|discriminate].
    injection Hl' as <-. now destruct (Hn deny t).
Qed.

Lemma locate_plain (d : node) (dir : path) (s : string) (n : node) :
  s <> "" -> has_nul s = false -> ends_with_slash s = false ->
  Forall (fun x => proper_name x = true) (components s "") ->
  lookup (origin dir s ++ components s "") d = Some n ->
  (forall deny t, n <> Symlink deny t) ->
  locate d dir s true = At (origin dir s ++ components s "").
Proof.
  intros Hs Hnul He Hp Hl Hn. unfold locate.
  destruct (String.eqb_spec s ""); [congruence|]. cbn [orb].
  rewrite Hnul, He. now apply (enter_plain d _ _ n).
Qed.

(** Resolution on a thinned disk: where it leads, the full disk leads as
    well. *)
Lemma chase_O (d : node) (p : path) :
  chase 0 d p = match lookup p d with
                | Some (Symlink _ _) => Lost TooManyLinks
                | _ => At p
                end.
Proof. reflexivity. Qed.

Lemma chase_S (n : nat) (d : node) (p : path) :
  chase (S n) d p = match lookup p d with
                    | Some (Symlink _ t) => chase n d t
                    | _ => At p
                    end.
Proof. reflexivity. Qed.

Lemma chase_thinned (d' d : node) :
  thinned d' d ->
  forall n p q, present d' (chase n d' p) = At q -> present d (chase n d p) = At q.
Proof.
  intros Ht. induction n as [|n IH]; intros p q H.
  - rewrite chase_O in *. destruct (lookup p d') as [c'|] eqn:Hc'.
    + destruct (Ht p c' Hc') as (c & Hc & Ha). rewrite Hc.
      destruct c' as [| deny t | |], c as [| deny0 t0 | |]; cbn in Ha; try tauto;
        try discriminate H; cbn [present] in *; rewrite Hc' in H; now rewrite Hc.
    + cbn [present] in H. rewrite Hc' in H. discriminate H.
  - rewrite chase_S in *. destruct (lookup p d') as [c'|] eqn:Hc'.
    + destruct (Ht p c' Hc') as (c & Hc & Ha). rewrite Hc.
      destruct c' as [| deny t | |], c as [| deny0 t0 | |]; cbn in Ha; try tauto;
        try (cbn [present] in *; rewrite Hc' in H; now rewrite Hc).
      subst t0. now apply IH.
    + cbn [present] in H. rewrite Hc' in H. discriminate H.
Qed.

Lemma step_thinned (f : bool) (d' d : node) (cur : path) (x : string) (q : path) :
  thinned d' d -> step f d' (At cur) x = At q -> step f d (At cur) x = At q.
Proof.
  intros Ht. unfold step. generalize MAXSYMLINKS. intros fuel.
  destruct (lookup cur d') as [c'|] eqn:Hc'; [|intros H; discriminate H].
  destruct (Ht cur c' Hc') as (c & Hc & Ha). rewrite Hc.
  destruct c' as [| | mode' es' |];
    [intros H; discriminate H | intros H; discriminate H | | intros H; discriminate H].
  destruct c as [| | mode es |]; cbn in Ha; try tauto.
  destruct (x =? "."); [auto|]. destruct (x =? ".."); [auto|].
  destruct (lookup (cur ++ [x]) d') as [e'|] eqn:He'; [|intros H; discriminate H].
  destruct (Ht _ e' He') as (e & He & Hae). rewrite He.
  destruct e' as [| deny t | |], e as [| deny0 t0 | |]; cbn in Hae; try tauto.
  subst t0. destruct f; [apply (chase_thinned d' d Ht) | auto].
Qed.

Lemma fold_step_at (f : bool) (d : node) (names : list string) : forall l q,
  fold_left (step f d) names l = At q -> exists cur, l = At cur.
Proof.
  intros l q H. destruct l as [cur|k]; [now exists cur|].
  rewrite fold_step_lost in H. discriminate.
Qed.

Lemma enter_thinned (d' d : node) (names : list string) :
  thinned d' d ->
  forall from q, enter d' from names = At q -> enter d from names = At q.
Proof.
  intros Ht. induction names as [|x names IH]; intros from q H; [exact H|].
  rewrite enter_cons in *.
  destruct (fold_step_at true d' names _ q H) as [c Hc].
  rewrite (step_thinned true d' d from x c Ht Hc). rewrite Hc in H.
  exact (IH c q H).
Qed.

Lemma assoc_app_fresh {A : Type} (x : string) (v : A) (pre post : list (string * A)) :
  ~ In x (map fst pre) -> assoc x (pre ++ (x, v) :: post) = Some v.
Proof.
  induction pre as [|[k u] pre IH]; cbn; intros H.
  - now rewrite String.eqb_refl.
  - destruct (String.eqb_spec x k) as [->|_]; [tauto | apply IH; tauto].
Qed.

Lemma remove_key_app_fresh {A : Type} (x : string) (v : A) (pre post : list (string * A)) :
  ~ In x (map fst pre) -> ~ In x (map fst post) ->
  remove_key x (pre ++ (x, v) :: post) = pre ++ post.
Proof.
  induction pre as [|[k u] pre IH]; cbn; intros H Hp.
  - rewrite String.eqb_refl. now apply remove_key_fresh.
  - destruct (String.eqb_spec x k) as [->|_]; [tauto | rewrite IH; tauto].
Qed.

Lemma sweep_listing (output_dir : string) (post : list (string * node)) :
  forall pre,
    NoDup (map fst (pre ++ post)) ->
    sweep (map fst post) (pre ++ post) = pre ++ filter kept post /\
    sweep_reports output_dir (map fst post) (pre ++ post) =
      map (fun e => Printed (entry_report (path_join output_dir (fst e)) (Some (snd e))))
          post.
Proof.
  induction post as [|[x nd] post IH]; intros pre Hnd.
  - cbn. now rewrite app_nil_r.
  - assert (Hfresh : ~ In x (map fst pre) /\ ~ In x (map fst post)).
    { rewrite map_app in Hnd. cbn in Hnd. apply NoDup_remove_2 in Hnd.
      split; intros Hin; apply Hnd, in_or_app; [now left | now right]. }
    destruct Hfresh as [Hfresh Hfresh'].
    cbn [map fst sweep sweep_reports filter snd].
    rewrite (assoc_app_fresh x nd pre post Hfresh).
    unfold kept at 1. cbn [snd].
    destruct (entry_removed (Some nd)) eqn:Hrm; cbn [negb].
    + rewrite (remove_key_app_fresh x nd pre post Hfresh Hfresh').
      assert (Hnd' : NoDup (map fst (pre ++ post))).
      { rewrite map_app in *. cbn in Hnd. now apply NoDup_remove_1 in Hnd. }
      destruct (IH pre Hnd') as [H1 H2]. now rewrite H1, H2.
    + assert (Hnd' : NoDup (map fst ((pre ++ [(x, nd)]) ++ post))).
      { now rewrite <- app_assoc. }
      destruct (IH (pre ++ [(x, nd)]) Hnd') as [H1 H2].
      rewrite <- app_assoc in H1, H2. cbn [app] in H1, H2.
      rewrite H1, H2, <- app_assoc. auto.
Qed.

Lemma entry_removed_leaf (l : node) : entry_removed (Some l) = true -> leaf l = true.
Proof. destruct l as [| |? [|]|]; cbn; auto; discriminate. Qed.

(** *** The cleaning stage *)

Section Cleaning.

Context {E : Type}.

Lemma clean_entry_lost (output_dir x : string) (k : os_error) (w : World E) :
  output_dir <> "" -> has_nul output_dir = false -> proper_name x = true ->
  entries_at (disk w) (cwd w) output_dir = Lost k ->
  clean_entry output_dir x w
  = (Ok tt, say w [Printed (Deleted (path_join output_dir x))]).
Proof.
  intros Ha Hnul Hx Hl. unfold clean_entry.
  set (fp := path_join output_dir x).
  assert (Hloc : forall f, locate (disk w) (cwd w) fp f = Lost k).
  { intros f. unfold fp. rewrite (locate_join _ _ _ _ _ Ha Hnul Hx).
    unfold entries_at in Hl. now rewrite Hl. }
  unfold try_except, bind, os_path_isfile, os_path_islink, os_path_isdir,
    bind, stat, lstat, ret, found, found_here.
  do 3 (cbn; rewrite ?Hloc). reflexivity.
Qed.

Lemma clean_entry_at (output_dir x : string) (q : path) (w : World E) :
  output_dir <> "" -> has_nul output_dir = false -> proper_name x = true ->
  entries_at (disk w) (cwd w) output_dir = At q ->
  clean_entry output_dir x w =
    (Ok tt,
     mkWorld (cwd w)
       (if entry_removed (lookup (q ++ [x]) (disk w))
        then remove_at (q ++ [x]) (disk w) else disk w)
       (outside w)
       (trace w ++ [Printed (entry_report (path_join output_dir x)
                               (lookup (q ++ [x]) (disk w)))])).
Proof.
  intros Ha Hnul Hx Hl. unfold clean_entry.
  set (fp := path_join output_dir x).
  assert (Hloc : forall f, locate (disk w) (cwd w) fp f = step f (disk w) (At q) x).
  { intros f. unfold fp. rewrite (locate_join _ _ _ _ _ Ha Hnul Hx).
    unfold entries_at in Hl. now rewrite Hl. }
  unfold try_except, bind, os_path_isfile, os_path_islink, os_path_isdir,
    os_unlink, os_rmdir, bind, stat, lstat, ret, found, found_here, delete_entry,
    print, emit.
  destruct (lookup q (disk w)) as [[| |mode es|]|] eqn:Hq.
  1, 2, 4, 5:
    assert (Hst : forall f, step f (disk w) (At q) x = Lost NotADirectory
                            \/ step f (disk w) (At q) x = Lost NoEntry)
      by (intros f; unfold step; rewrite Hq; auto);
    assert (Hsn : lookup (q ++ [x]) (disk w) = None) by (now rewrite lookup_snoc, Hq);
    rewrite Hsn;
    destruct (Hst true) as [Ht|Ht]; destruct (Hst false) as [Hf|Hf];
    do 3 (cbn; rewrite ?Hloc, ?Ht, ?Hf); reflexivity.
  assert (Hsn : lookup (q ++ [x]) (disk w) = assoc x es) by now rewrite lookup_snoc, Hq.
  pose proof (step_name true _ _ _ _ _ Hx Hq) as Ht.
  pose proof (step_name false _ _ _ _ _ Hx Hq) as Hf.
  rewrite Hsn.
  destruct (assoc x es) as [[[|] data|[|] t|mode' [|e' es']|]|] eqn:Hxe;
    try (do 5 (cbn; rewrite ?Hloc, ?Ht, ?Hf, ?Hsn); reflexivity).
  - revert Ht. generalize (present (disk w) (chase MAXSYMLINKS (disk w) t)).
    intros l0 Ht.
    destruct l0 as [q0|k0]; [destruct (lookup q0 (disk w)) as [[| | |]|] eqn:H0|];
      do 5 (cbn; rewrite ?Hloc, ?Ht, ?Hf, ?Hsn, ?H0); reflexivity.
  - revert Ht. generalize (present (disk w) (chase MAXSYMLINKS (disk w) t)).
    intros l0 Ht.
    destruct l0 as [q0|k0]; [destruct (lookup q0 (disk w)) as [[| | |]|] eqn:H0|];
      do 5 (cbn; rewrite ?Hloc, ?Ht, ?Hf, ?Hsn, ?H0); reflexivity.
  - destruct mode' as [[|] sl]; do 5 (cbn; rewrite ?Hloc, ?Ht, ?Hf, ?Hsn); reflexivity.
Qed.

Lemma clean_entries_spec (output_dir : string) (q : path) (mode : dir_mode)
    (names : list string) :
  output_dir <> "" -> has_nul output_dir = false ->
  forall (es : list (string * node)) (w : World E),
    (forall es', entries_at (with_entries q es' (disk w)) (cwd w) output_dir = At q) ->
    lookup q (disk w) = Some (Dir mode es) ->
    Forall (fun x => proper_name x = true) names ->
    exists w',
      clean_entries output_dir names w = (Ok tt, w') /\
      cwd w' = cwd w /\
      outside w' = outside w /\
      disk w' = with_entries q (sweep names es) (disk w) /\
      trace w' = trace w ++ sweep_reports output_dir names es.
Proof.
  intros Ha Hnul.
  induction names as [|x names IH]; intros es w Hq Hd Hn.
  - exists w. cbn. rewrite app_nil_r, (with_entries_same q _ mode es Hd). auto.
  - inversion Hn as [|? ? Hx Hn']; subst.
    cbn [clean_entries]. unfold bind.
    assert (Hq0 : entries_at (disk w) (cwd w) output_dir = At q).
    { specialize (Hq es). now rewrite (with_entries_same q _ mode es Hd) in Hq. }
    rewrite (clean_entry_at output_dir x q w Ha Hnul Hx Hq0).
    rewrite lookup_snoc, Hd.
    set (es1 := if entry_removed (assoc x es) then remove_key x es else es).
    match goal with
    | |- context [clean_entries output_dir names ?w0] => set (w1 := w0)
    end.
    assert (Hd1 : disk w1 = with_entries q es1 (disk w)).
    { unfold w1, es1. cbn [disk].
      destruct (entry_removed (assoc x es)).
      - now apply (remove_at_child q x _ mode es).
      - symmetry. now apply (with_entries_same q _ mode es). }
    assert (Hq1 : forall es', entries_at (with_entries q es' (disk w1)) (cwd w1) output_dir
                              = At q).
    { intros es'. rewrite Hd1, with_entries_twice. exact (Hq es'). }
    assert (Hl1 : lookup q (disk w1) = Some (Dir mode es1)).
    { rewrite Hd1. now apply (lookup_with_entries q es1 _ mode es). }
    destruct (IH es1 w1 Hq1 Hl1 Hn') as (w' & H & Hc & Ho & Hl & Ht).
    exists w'. rewrite H. cbn [sweep sweep_reports]. fold es1.
    split; [reflexivity|]. split; [exact Hc|]. split; [exact Ho|]. split.
    + rewrite Hl, Hd1. apply with_entries_twice.
    + rewrite Ht. unfold w1. cbn [trace]. now rewrite <- app_assoc.
Qed.

(** The loop leaves every file that is no direct entry of the cleaned
    directory in place. *)
Lemma clean_entries_keeps_file (output_dir : string) (q p : path)
    (deny : bool) (data : file_data) (d0 : node) (dir : path) (names : list string) :
  output_dir <> "" -> has_nul output_dir = false ->
  entries_at d0 dir output_dir = At q ->
  (forall x, q ++ [x] <> p) ->
  forall w : World E,
    Forall (fun x => proper_name x = true) names ->
    cwd w = dir -> thinned (disk w) d0 ->
    lookup p (disk w) = Some (File deny data) ->
    lookup p (disk (snd (clean_entries output_dir names w))) = Some (File deny data).
Proof.
  intros Ha Hnul Hq Hne.
  induction names as [|x names IH]; intros w Hn Hc Ht Hp.
  - exact Hp.
  - inversion Hn as [|? ? Hx Hn']; subst.
    cbn [clean_entries]. unfold bind.
    destruct (entries_at (disk w) (cwd w) output_dir) as [q'|k] eqn:Hl.
    + assert (q' = q).
      { apply (enter_thinned _ _ _ Ht) in Hl. unfold entries_at in Hq.
        rewrite Hl in Hq. now injection Hq. }
      subst q'.
      rewrite (clean_entry_at output_dir x q w Ha Hnul Hx Hl).
      match goal with
      | |- context [clean_entries output_dir names ?w0] => set (w1 := w0)
      end.
      assert (Hp1 : lookup p (disk w1) = Some (File deny data)).
      { unfold w1. cbn [disk].
        destruct (lookup (q ++ [x]) (disk w)) as [l|] eqn:L; [|exact Hp].
        destruct (entry_removed (Some l)) eqn:Hrm; [|exact Hp].
        apply (lookup_remove_at_file _ _ _ l); auto using entry_removed_leaf. }
      assert (Ht1 : thinned (disk w1) d0).
      { unfold w1. cbn [disk].
        destruct (entry_removed (lookup (q ++ [x]) (disk w))); [|exact Ht].
        apply (thinned_trans _ (disk w)); [apply thinned_remove_at | exact Ht]. }
      specialize (IH w1 Hn' eq_refl Ht1 Hp1).
      destruct (clean_entries output_dir names w1) as [[[]|e] w']; exact IH.
    + rewrite (clean_entry_lost output_dir x k w Ha Hnul Hx Hl).
      specialize (IH (say w [Printed (Deleted (path_join output_dir x))]) Hn' eq_refl Ht Hp).
      destruct (clean_entries output_dir names _) as [[[]|e] w']; exact IH.
Qed.

Lemma clean_old_builds_absent (output_dir : string) (w : World E) :
  output_node w output_dir = None ->
  clean_old_builds output_dir w = (Ok tt, say w [Printed (Cleaning output_dir)]).
Proof.
  unfold output_node, clean_old_builds, bind, print, emit, os_path_exists, bind, stat.
  cbn [cwd disk]. intros H. rewrite H. reflexivity.
Qed.

(** What the output directory names is there but cannot be listed: the
    listing raises, outside the [try] of the loop. *)
Lemma clean_old_builds_unlisted (output_dir : string) (n : node) (kind : os_error)
    (w : World E) :
  output_node w output_dir = Some n ->
  listing_error n = Some kind ->
  clean_old_builds output_dir w
  = (Raise (OSError kind output_dir), say w [Printed (Cleaning output_dir)]).
Proof.
  unfold output_node, clean_old_builds, bind, print, emit, os_path_exists, os_listdir,
    bind, stat, found.
  cbn [cwd disk]. intros H Hk.
  destruct (locate (disk w) (cwd w) output_dir true) as [q|k] eqn:Hq; [|discriminate].
  rewrite H. cbn. rewrite Hq, H.
  destruct n as [| |mode es|]; cbn in Hk; try (injection Hk as <-; reflexivity).
  destruct (sealed mode); [injection Hk as <-; reflexivity | discriminate].
Qed.

Lemma clean_old_builds_dir (output_dir : string) (q : path) (mode : dir_mode)
    (es : list (string * node)) (w : World E) :
  leads_to w output_dir q ->
  lookup q (disk w) = Some (Dir mode es) ->
  sealed mode = false ->
  NoDup (map fst es) ->
  Forall (fun e => proper_name (fst e) = true) es ->
  exists w',
    clean_old_builds output_dir w = (Ok tt, w') /\
    cwd w' = cwd w /\
    outside w' = outside w /\
    disk w' = with_entries q (filter kept es) (disk w) /\
    trace w' = trace w ++ Printed (Cleaning output_dir)
      :: map (fun e => Printed (entry_report (path_join output_dir (fst e)) (Some (snd e))))
             es.
Proof.
  intros Hlead Hd Hs Hnd Hp.
  assert (Hq : locate (disk w) (cwd w) output_dir true = At q).
  { specialize (Hlead es). now rewrite (with_entries_same q _ mode es Hd) in Hlead. }
  destruct (locate_enter _ _ _ _ Hq) as (Ha & Hnul & _).
  unfold clean_old_builds, bind at 1 2 3, print, emit, os_path_exists, os_listdir,
    bind, stat, found.
  cbn [cwd disk]. rewrite Hq, Hd. cbn. rewrite Hq, Hd, Hs.
  match goal with
  | |- context [clean_entries output_dir _ ?w0] =>
      destruct (clean_entries_spec output_dir q mode (map fst es) Ha Hnul es w0)
        as (w' & H & Hc & Ho & Hl & Ht)
  end.
  { intros es'. cbn [disk cwd]. exact (proj2 (proj2 (locate_enter _ _ _ _ (Hlead es')))). }
  { exact Hd. }
  { apply Forall_map. exact Hp. }
  destruct (sweep_listing output_dir es [] Hnd) as [H1 H2]. cbn [app] in H1, H2.
  rewrite H1 in Hl. rewrite H2 in Ht.
  exists w'. rewrite H. repeat split; auto.
  rewrite Ht. cbn [trace]. now rewrite <- app_assoc.
Qed.

(** Cleaning a directory other than the one that holds the file at [p]
    leaves that file in place, whatever the outcome of the cleaning. *)
Lemma clean_old_builds_keeps_file (output_dir : string) (p : path)
    (deny : bool) (data : file_data) (w : World E) :
  (forall q, locate (disk w) (cwd w) output_dir true = At q ->
     (forall x, q ++ [x] <> p) /\
     (forall d es, lookup q (disk w) = Some (Dir d es) ->
        Forall (fun e => proper_name (fst e) = true) es)) ->
  lookup p (disk w) = Some (File deny data) ->
  lookup p (disk (snd (clean_old_builds output_dir w))) = Some (File deny data).
Proof.
  intros Hsp Hp.
  unfold clean_old_builds, bind at 1 2 3, print, emit, os_path_exists, os_listdir,
    bind, stat, found.
  cbn [cwd disk].
  destruct (locate (disk w) (cwd w) output_dir true) as [q|k] eqn:Hq; [|exact Hp].
  destruct (Hsp q eq_refl) as [Hne Hnames].
  destruct (locate_enter _ _ _ _ Hq) as (Ha & Hnul & Hent).
  destruct (lookup q (disk w)) as [[| |mode es|]|] eqn:Hd;
    cbn; rewrite ?Hq, ?Hd; try exact Hp.
  destruct (sealed mode); [exact Hp|].
  match goal with
  | |- context [clean_entries output_dir _ ?w0] =>
      apply (clean_entries_keeps_file output_dir q p deny data (disk w) (cwd w)
               (map fst es) Ha Hnul Hent Hne w0)
  end; auto using thinned_refl.
  apply Forall_map. eapply Hnames; eauto.
Qed.

End Cleaning.

(** *** [str.format] *)

Lemma prepend_prepend (a b : string) (r : option (result string)) :
  prepend a (prepend b r) = prepend (a ++ b)%string r.
Proof. destruct r as [[t|e]|]; cbn; [now rewrite append_assoc | reflexivity | reflexivity]. Qed.

Lemma brace_free_app (a b : string) :
  brace_free (a ++ b)%string = brace_free a && brace_free b.
Proof.
  unfold brace_free. induction a as [|x a IH]; cbn; [reflexivity|].
  now rewrite IH, andb_assoc.
Qed.

Lemma format_scan_literal (l rest v p : string) :
  brace_free l = true ->
  format_scan (l ++ rest)%string None v p = prepend l (format_scan rest None v p).
Proof.
  induction l as [|c l IH]; intros H.
  - cbn. destruct (format_scan rest None v p) as [[t|e]|]; reflexivity.
  - unfold brace_free in H. cbn in H. apply andb_prop in H as [Hc Hl].
    unfold is_brace in Hc. apply negb_true_iff, orb_false_iff in Hc as [Ho Hcl].
    cbn [append format_scan]. rewrite Ho, Hcl, (IH Hl), prepend_prepend.
    reflexivity.
Qed.

Lemma format_scan_hole (x : placeholder) (rest v p : string) :
  format_scan (hole x ++ rest)%string None v p =
  prepend (value x v p) (format_scan rest None v p).
Proof. destruct x; reflexivity. Qed.

Lemma py_format_two_holes (l0 l1 l2 : string) (x y : placeholder) (v p : string) :
  brace_free (l0 ++ l1 ++ l2)%string = true ->
  py_format (l0 ++ hole x ++ l1 ++ hole y ++ l2)%string v p =
  Some (Ok (l0 ++ value x v p ++ l1 ++ value y v p ++ l2)%string).
Proof.
  rewrite !brace_free_app. intros H.
  apply andb_prop in H as [H0 H]. apply andb_prop in H as [H1 H2].
  unfold py_format.
  rewrite (format_scan_literal l0 _ v p H0), format_scan_hole.
  rewrite (format_scan_literal l1 _ v p H1), format_scan_hole.
  rewrite <- (append_empty_r l2) at 1.
  rewrite (format_scan_literal l2 _ v p H2).
  cbn. now rewrite append_empty_r.
Qed.

Section Properties.

Context {E : Type}.
Variable exec : command -> path -> node -> E -> spawned E.
Variable formatter : string -> string -> string -> result string.

(** *** The paths of the program *)

Lemma locate_birb_dir (d : node) (dir : path) :
  locate d dir BIRB_DIR true = step true d (At dir) ".birb".
Proof. reflexivity. Qed.

Lemma locate_config (d : node) (dir : path) :
  locate d dir BIRB_CONFIG_FILE true
  = step true d (step true d (At dir) ".birb") "birb.json".
Proof. reflexivity. Qed.

Lemma locate_parent (d : node) (dir : path) :
  locate d dir ".." true = step true d (At dir) "..".
Proof. reflexivity. Qed.

Lemma step_lost (f : bool) (d : node) (k : os_error) (x : string) :
  step f d (Lost k) x = Lost k.
Proof. reflexivity. Qed.

Lemma step_dotdot (d : node) (q : path) (mode : dir_mode) (es : list (string * node)) :
  lookup q d = Some (Dir mode es) -> step true d (At q) ".." = At (removelast q).
Proof. intros H. unfold step. now rewrite H. Qed.

Lemma lookup_removelast (q : path) (d : node) (mode : dir_mode)
    (es : list (string * node)) :
  lookup q d = Some (Dir mode es) ->
  exists mode' es', lookup (removelast q) d = Some (Dir mode' es').
Proof.
  induction q as [|x q' _] using rev_ind.
  - intros H. now exists mode, es.
  - rewrite removelast_last. intros H.
    destruct (lookup_parent q' x d _ H) as (mode' & es' & H' & _). now exists mode', es'.
Qed.

Lemma locate_plain_config (d : node) (dir : path) (n : node) :
  lookup (manifest_path dir) d = Some n -> (forall deny t, n <> Symlink deny t) ->
  locate d dir BIRB_CONFIG_FILE true = At (manifest_path dir).
Proof.
  intros H Hn. unfold manifest_path in *. rewrite <- app_assoc in *.
  apply (locate_plain d dir BIRB_CONFIG_FILE n); try reflexivity; auto.
  - discriminate.
  - repeat constructor.
Qed.

Lemma found_config (d : node) (dir : path) (n : node) :
  lookup (manifest_path dir) d = Some n -> (forall deny t, n <> Symlink deny t) ->
  found d dir BIRB_CONFIG_FILE = Some n.
Proof.
  intros H Hn. unfold found. now rewrite (locate_plain_config d dir n H Hn).
Qed.

(** When the manifest is found, [.birb] leads to a directory. *)
Lemma config_found_dir (d : node) (dir : path) (n : node) :
  found d dir BIRB_CONFIG_FILE = Some n ->
  exists q mode es,
    locate d dir BIRB_DIR true = At q /\ lookup q d = Some (Dir mode es).
Proof.
  unfold found. rewrite locate_config, locate_birb_dir.
  destruct (step true d (At dir) ".birb") as [q|k]; [|discriminate].
  unfold step at 1.
  destruct (lookup q d) as [[| |mode es|]|] eqn:Hq; try discriminate.
  intros _. now exists q, mode, es.
Qed.

Lemma load_birb_json_eq (w : World E) :
  load_birb_json w =
  match found (disk w) (cwd w) BIRB_CONFIG_FILE with
  | Some (File _ (Json m)) => (Ok (Some m), w)
  | Some (File _ (Prefs _)) => (Raise OutsideModel, w)
  | Some (File _ Bytes) => (Raise JSONDecodeError, w)
  | Some (Dir _ _) => (Raise (OSError IsADirectory BIRB_CONFIG_FILE), w)
  | Some _ => (Raise OutsideModel, w)
  | None => (Ok None, say w [Printed Config_not_found])
  end.
Proof.
  unfold load_birb_json, os_path_exists, json_load, bind, stat, found.
  generalize BIRB_CONFIG_FILE. intros f.
  destruct (locate (disk w) (cwd w) f true) as [q|k] eqn:Hq; [|reflexivity].
  destruct (lookup q (disk w)) as [[? [m|?|]|? ?|? ?|]|] eqn:L;
    cbn; rewrite ?Hq, ?L; reflexivity.
Qed.

(** *** The working directory *)

Lemma os_chdir_effect (s : string) (w : World E) :
  exists r w',
    os_chdir s w = (r, w') /\ trace w' = trace w /\ disk w' = disk w /\
    outside w' = outside w.
Proof.
  unfold os_chdir.
  destruct (must_be_dir (disk w) (locate (disk w) (cwd w) s true)); eauto 10.
Qed.

Lemma os_chdir_parent (w : World E) (mode : dir_mode) (es : list (string * node)) :
  lookup (cwd w) (disk w) = Some (Dir mode es) ->
  os_chdir ".." w = (Ok tt, mkWorld (removelast (cwd w)) (disk w) (outside w) (trace w)).
Proof.
  intros H. unfold os_chdir.
  rewrite locate_parent, (step_dotdot _ _ _ _ H).
  destruct (lookup_removelast _ _ _ _ H) as (mode' & es' & H').
  cbn. now rewrite H'.
Qed.

(** The [finally] clause of the hook, after a body that ended in [wf]
    with the outcome [r0]. *)
Lemma finally_parent (r0 : result unit) (wf : World E) :
  exists r w',
    match os_chdir ".." wf with
    | (Ok _, w'') => (r0, w'')
    | (Raise e, w'') => (Raise e, w'')
    end = (r, w') /\
    trace w' = trace wf /\
    ((exists mode es, lookup (cwd wf) (disk wf) = Some (Dir mode es)) ->
     r = r0 /\ cwd w' = removelast (cwd wf)).
Proof.
  destruct (lookup (cwd wf) (disk wf)) as [[| |mode es|]|] eqn:H.
  3: { rewrite (os_chdir_parent wf mode es H). do 2 eexists.
       split; [reflexivity|]. split; [reflexivity|]. auto. }
  all: destruct (os_chdir_effect ".." wf) as (r & w' & Heq & Ht & _);
    rewrite Heq; destruct r as [[]|e]; do 2 eexists;
    (split; [reflexivity|]); (split; [exact Ht|]);
    intros (mode & es & Hd); discriminate.
Qed.

(** *** The commit step *)

Lemma git_events_hook (q : path) (msg : string) (news : list event) :
  Forall (git_event q msg) news -> Forall hook_event news.
Proof.
  apply Forall_impl. intros [[]|[] [] ? ?|]; cbn; tauto.
Qed.

Lemma git_events_messages (q : path) (msg : string) (news : list event) :
  Forall (git_event q msg) news -> commit_messages news = [].
Proof.
  induction 1 as [|e news H _ IH]; [reflexivity|].
  destruct e as [[]|[] [] ? ?|]; cbn in H; try contradiction; exact IH.
Qed.

Lemma git_events_runs (q : path) (msg : string) (news : list event) :
  Forall (git_event q msg) news ->
  Forall (fun g => snd (fst g) = q /\
                   (fst (fst g) = git_add \/ fst (fst g) = git_commit_m msg))
         (git_runs news).
Proof.
  induction 1 as [|e news H _ IH]; [constructor|].
  destruct e as [[]|[] [] ? ?|]; cbn in H; try contradiction; try exact IH.
  cbn. constructor; [exact H | exact IH].
Qed.

(** The [try] block: every outcome, with the directory the commands ran
    in. *)
Lemma commit_steps_spec (msg : string) (w : World E) :
  exists r wf news,
    commit_steps exec msg w = (r, wf) /\
    trace wf = trace w ++ news /\
    match must_be_dir (disk w) (locate (disk w) (cwd w) BIRB_DIR true) with
    | Lost k => r = Raise (OSError k BIRB_DIR) /\ wf = w /\ news = []
    | At q =>
        cwd wf = q /\
        Forall (git_event q msg) news /\
        (git_leaves_directories exec ->
         forall p mode es, lookup p (disk w) = Some (Dir mode es) ->
           exists mode' es', lookup p (disk wf) = Some (Dir mode' es'))
    end.
Proof.
  unfold commit_steps, bind, os_chdir at 1.
  destruct (must_be_dir (disk w) (locate (disk w) (cwd w) BIRB_DIR true))
    as [q|k] eqn:Hcd.
  2: { exists (Raise (OSError k BIRB_DIR)), w, []. rewrite app_nil_r. auto. }
  unfold subprocess_run at 1.
  change (command_has_nul (Argv ["git"; "add"; "."])) with false.
  cbn [cwd disk outside trace].
  destruct (exec (Argv ["git"; "add"; "."]) q (disk w) (outside w))
    as [st1 d1 o1|k1] eqn:Hx1.
  2: { do 2 eexists. exists []. split; [reflexivity|]. cbn [trace cwd disk].
       rewrite app_nil_r. split; [reflexivity|]. split; [reflexivity|].
       split; [constructor|]. intros _ p mode es Hp. eauto. }
  destruct (st1 =? 0)%Z.
  2: { do 2 eexists. exists [Ran Git_site (Argv ["git"; "add"; "."]) q st1].
       split; [reflexivity|]. cbn [trace cwd disk].
       split; [reflexivity|]. split; [reflexivity|].
       split; [constructor; [cbn; auto | constructor]|].
       intros Hg p mode es Hp. exact (Hg _ _ _ _ _ _ _ Hx1 p mode es Hp). }
  unfold subprocess_run.
  replace (command_has_nul (Argv ["git"; "commit"; "-m"; msg])) with (has_nul msg)
    by (cbn; now rewrite orb_false_r).
  cbn [cwd disk outside trace].
  destruct (has_nul msg).
  { do 2 eexists. exists [Ran Git_site (Argv ["git"; "add"; "."]) q st1].
    split; [reflexivity|]. cbn [trace cwd disk].
    split; [reflexivity|]. split; [reflexivity|].
    split; [constructor; [cbn; auto | constructor]|].
    intros Hg p mode es Hp. exact (Hg _ _ _ _ _ _ _ Hx1 p mode es Hp). }
  destruct (exec (Argv ["git"; "commit"; "-m"; msg]) q d1 o1)
    as [st2 d2 o2|k2] eqn:Hx2.
  2: { do 2 eexists. exists [Ran Git_site (Argv ["git"; "add"; "."]) q st1].
       split; [reflexivity|]. cbn [trace cwd disk].
       split; [reflexivity|]. split; [reflexivity|].
       split; [constructor; [cbn; auto | constructor]|].
       intros Hg p mode es Hp. exact (Hg _ _ _ _ _ _ _ Hx1 p mode es Hp). }
  assert (Hkeep : git_leaves_directories exec ->
                  forall p mode es, lookup p (disk w) = Some (Dir mode es) ->
                    exists mode' es', lookup p d2 = Some (Dir mode' es')).
  { intros Hg p mode es Hp.
    destruct (Hg _ _ _ _ _ _ _ Hx1 p mode es Hp) as (m1 & e1 & Hp1).
    exact (Hg _ _ _ _ _ _ _ Hx2 p m1 e1 Hp1). }
  destruct (st2 =? 0)%Z.
  - do 2 eexists.
    exists [Ran Git_site (Argv ["git"; "add"; "."]) q st1;
            Ran Git_site (Argv ["git"; "commit"; "-m"; msg]) q st2;
            Printed Committed].
    split; [reflexivity|]. cbn [print emit trace cwd disk].
    split; [now rewrite <- !app_assoc|]. split; [reflexivity|].
    split; [|exact Hkeep].
    constructor; [cbn; auto|]. constructor; [cbn; auto|].
    constructor; [exact I | constructor].
  - do 2 eexists.
    exists [Ran Git_site (Argv ["git"; "add"; "."]) q st1;
            Ran Git_site (Argv ["git"; "commit"; "-m"; msg]) q st2].
    split; [reflexivity|]. cbn [trace cwd disk].
    split; [now rewrite <- !app_assoc|]. split; [reflexivity|].
    split; [|exact Hkeep].
    constructor; [cbn; auto|]. constructor; [cbn; auto | constructor].
Qed.

(** The whole [try] statement: the events are those of the block and of
    the handler; the directory the hook ends in is the parent of the
    directory [.birb] leads to, as long as the directories stay. *)
Lemma commit_in_birb_dir_spec (msg : string) (w : World E) :
  exists r w' news,
    commit_in_birb_dir exec msg w = (r, w') /\
    trace w' = trace w ++ news /\
    (forall q, locate (disk w) (cwd w) BIRB_DIR true = At q ->
               Forall (git_event q msg) news) /\
    Forall hook_event news /\
    commit_messages news = [] /\
    (git_leaves_directories exec ->
     forall q mode es,
       locate (disk w) (cwd w) BIRB_DIR true = At q ->
       lookup q (disk w) = Some (Dir mode es) ->
       cwd w' = removelast q).
Proof.
  unfold commit_in_birb_dir, try_finally, try_except.
  destruct (commit_steps_spec msg w) as (r0 & wf & news & H & Ht & Hm).
  rewrite H.
  destruct (must_be_dir (disk w) (locate (disk w) (cwd w) BIRB_DIR true))
    as [q|k] eqn:Hcd.
  - destruct Hm as (Hc & Hev & Hkeep).
    apply must_be_dir_at in Hcd as (Hq & mode & es & Hdir).
    assert (Hfin : forall q0, locate (disk w) (cwd w) BIRB_DIR true = At q0 -> q0 = q)
      by (intros q0 H0; rewrite Hq in H0; now injection H0).
    destruct r0 as [[]|e]; [|destruct (is_CalledProcessError e)].
    + destruct (finally_parent (Ok tt) wf) as (r & w' & Heq & Ht' & Hcw).
      rewrite Heq. exists r, w', news.
      split; [reflexivity|]. split; [congruence|].
      split; [intros q0 H0; now rewrite (Hfin q0 H0)|].
      split; [exact (git_events_hook _ _ _ Hev)|].
      split; [exact (git_events_messages _ _ _ Hev)|].
      intros Hg q0 m0 e0 H0 _. rewrite (Hfin q0 H0), <- Hc.
      apply Hcw. rewrite Hc. exact (Hkeep Hg q mode es Hdir).
    + cbn [print emit].
      match goal with
      | |- context [os_chdir ".." ?w0] =>
          destruct (finally_parent (Ok tt) w0) as (r & w' & Heq & Ht' & Hcw)
      end.
      rewrite Heq. cbn [trace cwd disk] in *.
      exists r, w', (news ++ [Printed (Commit_failed e)]).
      assert (Hev' : Forall (git_event q msg) (news ++ [Printed (Commit_failed e)])).
      { apply Forall_app. split; [exact Hev | constructor; [exact I | constructor]]. }
      split; [reflexivity|]. split; [rewrite Ht', Ht; now rewrite <- app_assoc|].
      split; [intros q0 H0; now rewrite (Hfin q0 H0)|].
      split; [exact (git_events_hook _ _ _ Hev')|].
      split; [exact (git_events_messages _ _ _ Hev')|].
      intros Hg q0 m0 e0 H0 _. rewrite (Hfin q0 H0), <- Hc.
      apply Hcw. rewrite Hc. exact (Hkeep Hg q mode es Hdir).
    + destruct (finally_parent (Raise e) wf) as (r & w' & Heq & Ht' & Hcw).
      rewrite Heq. exists r, w', news.
      split; [reflexivity|]. split; [congruence|].
      split; [intros q0 H0; now rewrite (Hfin q0 H0)|].
      split; [exact (git_events_hook _ _ _ Hev)|].
      split; [exact (git_events_messages _ _ _ Hev)|].
      intros Hg q0 m0 e0 H0 _. rewrite (Hfin q0 H0), <- Hc.
      apply Hcw. rewrite Hc. exact (Hkeep Hg q mode es Hdir).
  - destruct Hm as (-> & -> & ->). cbn [is_CalledProcessError].
    destruct (finally_parent (Raise (OSError k BIRB_DIR)) w) as (r & w' & Heq & Ht' & Hcw).
    rewrite Heq. exists r, w', [].
    split; [reflexivity|]. split; [now rewrite app_nil_r|].
    split; [intros; constructor|]. split; [constructor|]. split; [reflexivity|].
    intros _ q0 m0 e0 H0 Hd0. rewrite H0 in Hcd. cbn in Hcd. rewrite Hd0 in Hcd.
    discriminate.
Qed.

(** The commit step where [.birb] is a directory of the working
    directory, git can be started and leaves the directories in place. *)
Lemma commit_in_birb_dir_events (msg : string) (w : World E)
    (mode : dir_mode) (es : list (string * node)) :
  lookup (cwd w ++ [".birb"]) (disk w) = Some (Dir mode es) ->
  starts exec (Argv git_add) ->
  starts exec (Argv (git_commit_m msg)) ->
  git_leaves_directories exec ->
  exists w' st1 st2,
    commit_in_birb_dir exec msg w = (Ok tt, w') /\
    cwd w' = cwd w /\
    trace w' = trace w ++ commit_events (cwd w) msg st1 st2.
Proof.
  intros Hb [_ Hadd] [Hnul Hcommit] Hg.
  set (q := cwd w ++ [".birb"]) in *.
  assert (Hq : must_be_dir (disk w) (locate (disk w) (cwd w) BIRB_DIR true) = At q).
  { rewrite locate_birb_dir.
    destruct (lookup_parent _ _ _ _ Hb) as (m0 & e0 & Hc & Hx).
    rewrite (step_name true (disk w) (cwd w) ".birb" m0 e0 eq_refl Hc), Hx.
    cbn. fold q. now rewrite Hb. }
  assert (Hfinal : forall d' (o' : E) tr mode' es',
            lookup q d' = Some (Dir mode' es') ->
            os_chdir ".." (mkWorld q d' o' tr) = (Ok tt, mkWorld (cwd w) d' o' tr)).
  { intros d' o' tr mode' es' Hd'.
    rewrite (os_chdir_parent (mkWorld q d' o' tr) mode' es' Hd'). cbn [cwd disk outside trace].
    unfold q. now rewrite removelast_last. }
  unfold commit_in_birb_dir, try_finally, try_except, commit_steps, bind, os_chdir at 1.
  rewrite Hq. unfold subprocess_run at 1.
  change (command_has_nul (Argv ["git"; "add"; "."])) with false.
  cbn [cwd disk outside trace].
  destruct (Hadd q (disk w) (outside w)) as (st1 & d1 & o1 & Hx1).
  unfold git_add in Hx1. rewrite Hx1.
  destruct (Hg _ _ _ _ _ _ _ Hx1 q mode es Hb) as (m1 & e1 & Hb1).
  unfold commit_events. fold q.
  destruct (st1 =? 0)%Z eqn:H1.
  - unfold subprocess_run. unfold git_commit_m in Hnul, Hcommit. rewrite Hnul.
    cbn [cwd disk outside trace].
    destruct (Hcommit q d1 o1) as (st2 & d2 & o2 & Hx2). rewrite Hx2.
    destruct (Hg _ _ _ _ _ _ _ Hx2 q m1 e1 Hb1) as (m2 & e2 & Hb2).
    destruct (st2 =? 0)%Z eqn:H2; cbn [is_CalledProcessError print emit cwd disk outside trace];
      rewrite (Hfinal _ _ _ m2 e2 Hb2); eexists; exists st1, st2;
      (split; [reflexivity|]); (split; [reflexivity|]); cbn [trace];
      rewrite H1, H2, <- !app_assoc; reflexivity.
  - cbn [is_CalledProcessError print emit cwd disk outside trace].
    rewrite (Hfinal _ _ _ m1 e1 Hb1). eexists. exists st1, 0%Z.
    split; [reflexivity|]. split; [reflexivity|]. cbn [trace].
    rewrite H1, <- !app_assoc. reflexivity.
Qed.

(** *** The hook *)

Ltac close_hook :=
  do 3 eexists; split; [reflexivity|]; unfold say; cbn [cwd trace];
  split; [rewrite <- ?app_assoc; reflexivity|];
  split; [repeat constructor|];
  split; [intros; constructor | intros; reflexivity].

Lemma git_commit_spec (v p : string) (w : World E) :
  exists r w' news,
    git_commit exec formatter v p w = (r, w') /\
    trace w' = trace w ++ Called_git_commit v p :: news /\
    Forall hook_event news /\
    (forall q, locate (disk w) (cwd w) BIRB_DIR true = At q ->
       Forall (fun g => snd (fst g) = q) (git_runs news)) /\
    ((forall q, locate (disk w) (cwd w) BIRB_DIR true = At q -> removelast q = cwd w) ->
     git_leaves_directories exec -> cwd w' = cwd w).
Proof.
  unfold git_commit, bind, emit.
  rewrite load_birb_json_eq; cbn [cwd disk outside trace].
  destruct (found (disk w) (cwd w) BIRB_CONFIG_FILE) as [[? [m|?|]|? ?|? ?|]|] eqn:Hf;
    try (unfold ret; close_hook; fail).
  destruct (auto_commit (git_integration m)); cbn [negb]; [|unfold ret; close_hook].
  destruct (str_format formatter _ v p) as [msg|e]; unfold lift; [|close_hook].
  unfold print, emit; cbn [cwd disk outside trace].
  match goal with
  | |- context [commit_in_birb_dir exec msg ?w0] =>
      destruct (commit_in_birb_dir_spec msg w0)
        as (r & w' & news & H & Ht & Hev & Hh & _ & Hc)
  end.
  rewrite H. cbn [cwd disk trace] in *.
  exists r, w', (Printed (Committing msg) :: news).
  split; [reflexivity|].
  split; [rewrite Ht, <- !app_assoc; reflexivity|].
  split; [constructor; [exact I | exact Hh]|].
  split.
  - intros q Hq. cbn [git_runs flat_map app].
    apply (Forall_impl _ (P := fun g => snd (fst g) = q /\
             (fst (fst g) = git_add \/ fst (fst g) = git_commit_m msg))).
    + tauto.
    + exact (git_events_runs _ _ _ (Hev q Hq)).
  - intros Hloc Hg.
    destruct (config_found_dir _ _ _ Hf) as (q & mode & es & Hq & Hd).
    rewrite (Hc Hg q mode es Hq Hd). exact (Hloc q Hq).
Qed.

(** Nothing is found at the place of the manifest when the hook runs. *)
Lemma git_commit_absent (v p : string) (w : World E) :
  found (disk w) (cwd w) BIRB_CONFIG_FILE = None ->
  git_commit exec formatter v p w =
    (Ok tt, say w [Called_git_commit v p; Printed Config_not_found]).
Proof.
  intros H. unfold git_commit, bind, emit.
  rewrite load_birb_json_eq; cbn [cwd disk outside trace]. rewrite H.
  unfold say, ret. cbn. now rewrite <- app_assoc.
Qed.

(** The manifest on disk has [auto_commit] off. *)
Lemma git_commit_off (v p : string) (w : World E) (deny : bool) (m : Manifest) :
  found (disk w) (cwd w) BIRB_CONFIG_FILE = Some (File deny (Json m)) ->
  auto_commit (git_integration m) = false ->
  git_commit exec formatter v p w = (Ok tt, say w [Called_git_commit v p]).
Proof.
  intros H Hoff. unfold git_commit, bind, emit.
  rewrite load_birb_json_eq; cbn [cwd disk outside trace]. rewrite H, Hoff.
  reflexivity.
Qed.

(** The template on disk does not format: the exception leaves the hook. *)
Lemma git_commit_bad_template (v p : string) (e : exn) (w : World E) (deny : bool)
    (m : Manifest) :
  found (disk w) (cwd w) BIRB_CONFIG_FILE = Some (File deny (Json m)) ->
  auto_commit (git_integration m) = true ->
  str_format formatter (commit_message_template (git_integration m)) v p = Raise e ->
  git_commit exec formatter v p w = (Raise e, say w [Called_git_commit v p]).
Proof.
  intros H Hon Hfmt. unfold git_commit, bind, emit.
  rewrite load_birb_json_eq; cbn [cwd disk outside trace]. rewrite H, Hon.
  cbn [negb]. unfold lift. now rewrite Hfmt.
Qed.

(** The manifest on disk has [auto_commit] on and a template that
    formats: the message is printed, and the git commands that run carry
    it. *)
Lemma git_commit_formatted (v p msg : string) (w : World E) (deny : bool) (m : Manifest) :
  found (disk w) (cwd w) BIRB_CONFIG_FILE = Some (File deny (Json m)) ->
  auto_commit (git_integration m) = true ->
  str_format formatter (commit_message_template (git_integration m)) v p = Ok msg ->
  exists r w' news,
    git_commit exec formatter v p w = (r, w') /\
    trace w' = trace w ++ Called_git_commit v p :: Printed (Committing msg) :: news /\
    commit_messages news = [] /\
    forall q, locate (disk w) (cwd w) BIRB_DIR true = At q ->
              Forall (git_event q msg) news.
Proof.
  intros H Hon Hfmt. unfold git_commit, bind, emit.
  rewrite load_birb_json_eq; cbn [cwd disk outside trace]. rewrite H, Hon.
  cbn [negb]. unfold lift. rewrite Hfmt. unfold print, emit.
  cbn [cwd disk outside trace].
  match goal with
  | |- context [commit_in_birb_dir exec msg ?w0] =>
      destruct (commit_in_birb_dir_spec msg w0)
        as (r & w' & news & H1 & Ht & Hev & _ & Hm & _)
  end.
  rewrite H1. cbn [cwd disk trace] in *. exists r, w', news.
  split; [reflexivity|]. split; [rewrite Ht, <- !app_assoc; reflexivity|].
  split; [exact Hm | exact Hev].
Qed.

Lemma manifest_in_birb_dir (dir : path) (d n : node) :
  lookup (manifest_path dir) d = Some n ->
  exists mode es, lookup (dir ++ [".birb"]) d = Some (Dir mode es).
Proof.
  intros H. destruct (lookup_parent _ _ _ _ H) as (mode & es & Hd & _).
  now exists mode, es.
Qed.

(** The same, where the manifest is a file of the directory [.birb] of
    the working directory, git can be started and leaves the directories
    in place. *)
Lemma git_commit_on (v p msg : string) (w : World E) (deny : bool) (m : Manifest) :
  lookup (manifest_path (cwd w)) (disk w) = Some (File deny (Json m)) ->
  auto_commit (git_integration m) = true ->
  str_format formatter (commit_message_template (git_integration m)) v p = Ok msg ->
  starts exec (Argv git_add) ->
  starts exec (Argv (git_commit_m msg)) ->
  git_leaves_directories exec ->
  exists w' st1 st2,
    git_commit exec formatter v p w = (Ok tt, w') /\
    cwd w' = cwd w /\
    trace w' = trace w ++ Called_git_commit v p :: Printed (Committing msg)
                       :: commit_events (cwd w) msg st1 st2.
Proof.
  intros H Hon Hfmt Hadd Hcommit Hg. unfold git_commit, bind, emit.
  rewrite load_birb_json_eq; cbn [cwd disk outside trace].
  rewrite (found_config _ _ _ H) by discriminate. rewrite Hon.
  cbn [negb]. unfold lift. rewrite Hfmt. unfold print, emit.
  cbn [cwd disk outside trace].
  destruct (manifest_in_birb_dir _ _ _ H) as (mode & es & Hb).
  match goal with
  | |- context [commit_in_birb_dir exec msg ?w0] =>
      destruct (commit_in_birb_dir_events msg w0 mode es Hb Hadd Hcommit Hg)
        as (w' & st1 & st2 & H1 & Hc & Ht)
  end.
  rewrite H1. cbn [cwd disk trace] in *. exists w', st1, st2.
  split; [reflexivity|]. split; [exact Hc|].
  rewrite Ht, <- !app_assoc. reflexivity.
Qed.

(** *** One build command *)

Lemma refused_say (c : command) (w : World E) (evs : list event) :
  refused exec c w -> refused exec c (say w evs).
Proof. exact (fun H => H). Qed.

Lemma execute_build_command_spec (c : string) (w : World E) :
  (exists st w',
     execute_build_command exec c w
     = (Ok (if (st =? 0)%Z then Some (mkCompleted (Shell c) st) else None), w') /\
     cwd w' = cwd w /\
     trace w' = trace w ++
       [Printed (Executing_command c); Ran Build_site (Shell c) (cwd w) st;
        Printed (if (st =? 0)%Z then Build_succeeded
                 else Build_failed (CalledProcessError (Shell c) st))]) \/
  (exists e,
     execute_build_command exec c w = (Raise e, say w [Printed (Executing_command c)]) /\
     refused exec (Shell c) w).
Proof.
  unfold execute_build_command, try_except, bind, print, emit, subprocess_run, refused.
  cbn [cwd disk outside trace command_has_nul].
  destruct (has_nul c); [right; eexists; split; [reflexivity | now left]|].
  destruct (exec (Shell c) (cwd w) (disk w) (outside w)) as [st d o|k] eqn:Hx.
  - left. exists st.
    destruct (st =? 0)%Z; cbn; eexists; (split; [reflexivity|]);
      cbn; rewrite <- !app_assoc; auto.
  - right. eexists. split; [reflexivity|]. right. now exists k.
Qed.

(** *** The push loop *)

Lemma builds_app (a b : list event) : builds (a ++ b) = builds a ++ builds b.
Proof. apply flat_map_app. Qed.
Lemma pushes_app (a b : list event) : pushes (a ++ b) = pushes a ++ pushes b.
Proof. apply flat_map_app. Qed.
Lemma hooks_app (a b : list event) : hooks (a ++ b) = hooks a ++ hooks b.
Proof. apply flat_map_app. Qed.
Lemma announced_app (a b : list event) : announced (a ++ b) = announced a ++ announced b.
Proof. apply flat_map_app. Qed.

Lemma push_loop_spec (cmds : list string) : forall w : World E,
  exists r w' news rest,
    execute_vcs_push_commands exec cmds w = (r, w') /\
    cwd w' = cwd w /\
    trace w' = trace w ++ news /\
    Forall push_event news /\
    push_reports news = map push_report (pushes news) /\
    cmds = map fst (pushes news) ++ rest /\
    ((r = Ok tt /\ rest = [] /\ push_attempts news = cmds) \/
     (exists e c rest',
        r = Raise e /\ rest = c :: rest' /\ refused exec (Shell c) w' /\
        push_attempts news = map fst (pushes news) ++ [c])).
Proof.
  induction cmds as [|c cmds IH]; intros w.
  - exists (Ok tt), w, [], []. cbn. rewrite app_nil_r.
    split; [reflexivity|]. split; [reflexivity|]. split; [reflexivity|].
    split; [constructor|]. split; [reflexivity|]. split; [reflexivity|].
    left. auto.
  - cbn [execute_vcs_push_commands].
    unfold bind at 1 2, print at 1, emit, try_except, bind, subprocess_run.
    cbn [cwd disk outside trace command_has_nul].
    destruct (has_nul c) eqn:Hn.
    { exists (Raise ValueError), (say w [Printed (Executing_push c)]),
        [Printed (Executing_push c)], (c :: cmds).
      split; [reflexivity|]. split; [reflexivity|]. split; [reflexivity|].
      split; [repeat constructor|]. split; [reflexivity|]. split; [reflexivity|].
      right. exists ValueError, c, cmds. repeat split. now left. }
    destruct (exec (Shell c) (cwd w) (disk w) (outside w)) as [st d o|k] eqn:Hx.
    2: { exists (Raise (OSError k "/bin/sh")), (say w [Printed (Executing_push c)]),
           [Printed (Executing_push c)], (c :: cmds).
         split; [reflexivity|]. split; [reflexivity|]. split; [reflexivity|].
         split; [repeat constructor|]. split; [reflexivity|]. split; [reflexivity|].
         right. exists (OSError k "/bin/sh"), c, cmds. repeat split.
         right. exists k. exact Hx. }
    assert (Hrep : push_report (c, st) =
                   if (st =? 0)%Z then Push_succeeded
                   else Push_failed (CalledProcessError (Shell c) st))
      by reflexivity.
    destruct (st =? 0)%Z eqn:Hst;
      cbn [is_CalledProcessError print emit cwd disk outside trace];
      match goal with
      | |- context [execute_vcs_push_commands exec cmds ?w0] =>
          destruct (IH w0) as (r & w' & news & rest & H & Hc & Ht & Hp & Hr & Hm & Hend)
      end;
      rewrite H; cbn [cwd disk outside trace] in *;
      exists r, w', (Printed (Executing_push c) :: Ran Push_site (Shell c) (cwd w) st
                     :: Printed (push_report (c, st)) :: news), rest;
      rewrite Hrep;
      (split; [reflexivity|]); (split; [exact Hc|]);
      (split; [rewrite Ht, <- !app_assoc; reflexivity|]);
      (split; [repeat (constructor; [exact I|]); exact Hp|]);
      (split; [unfold pushes, push_reports in *; cbn; rewrite Hrep, Hr; reflexivity|]);
      (split; [unfold pushes in *; cbn; now rewrite Hm at 1|]);
      (destruct Hend as [(-> & -> & Ha)|(e & c' & rest' & -> & -> & Hrf & Ha)];
       [left; repeat split; unfold push_attempts in *; cbn; now rewrite Ha
       |right; exists e, c', rest'; repeat split; auto;
        unfold push_attempts, pushes in *; cbn; now rewrite Ha]).
Qed.

(** *** Projections of the events of each stage *)

Ltac silent :=
  let e := fresh "e" in
  let H := fresh "H" in
  induction 1 as [|e ? H ? ?]; [reflexivity|];
  destruct e as [[]|[] [] ? ?|]; cbn in H; try contradiction; assumption.

Lemma hook_events_builds news : Forall hook_event news -> builds news = [].
Proof. silent. Qed.
Lemma hook_events_pushes news : Forall hook_event news -> pushes news = [].
Proof. silent. Qed.
Lemma hook_events_hooks news : Forall hook_event news -> hooks news = [].
Proof. silent. Qed.
Lemma hook_events_announced news : Forall hook_event news -> announced news = [].
Proof. silent. Qed.
Lemma hook_events_attempts news : Forall hook_event news -> push_attempts news = [].
Proof. silent. Qed.
Lemma push_events_builds news : Forall push_event news -> builds news = [].
Proof. silent. Qed.
Lemma push_events_hooks news : Forall push_event news -> hooks news = [].
Proof. silent. Qed.
Lemma push_events_announced news : Forall push_event news -> announced news = [].
Proof. silent. Qed.
Lemma push_events_git_runs news : Forall push_event news -> git_runs news = [].
Proof. silent. Qed.

Lemma hook_events_loop news : Forall hook_event news -> Forall loop_event news.
Proof.
  apply Forall_impl. intros [[]|[] ? ? ?|]; cbn; auto.
Qed.

Lemma push_events_loop news : Forall push_event news -> Forall loop_event news.
Proof.
  apply Forall_impl. intros [[]|[] ? ? ?|]; cbn; auto.
Qed.

(** *** What follows a successful build *)

Lemma pushes_due_cons (config : Manifest) (c : string) (st : Z) (bs : list (string * Z)) :
  pushes_due config ((c, st) :: bs)
  = (if (st =? 0)%Z then vcs_push_command (git_integration config) else [])
    ++ pushes_due config bs.
Proof. reflexivity. Qed.

(** The push commands that ran after the hook are a prefix of the list,
    the whole list when no exception leaves [after_build]. *)
Lemma after_build_spec (config : Manifest) (p : string) (w : World E) :
  exists r w' news tail,
    after_build exec formatter config p w = (r, w') /\
    trace w' = trace w ++ Called_git_commit (current_version (versioning config)) p :: news /\
    builds news = [] /\ hooks news = [] /\ announced news = [] /\
    Forall loop_event news /\
    vcs_push_command (git_integration config) = map fst (pushes news) ++ tail /\
    (r = Ok tt -> tail = []).
Proof.
  unfold after_build, bind.
  destruct (git_commit_spec (current_version (versioning config)) p w)
    as (r & w1 & n1 & H & Ht & Hh & _).
  rewrite H. destruct r as [[]|e].
  - destruct (push_loop_spec (vcs_push_command (git_integration config)) w1)
      as (r2 & w2 & n2 & rest & H2 & _ & Ht2 & Hp & _ & Hm & Hend).
    rewrite H2. exists r2, w2, (n1 ++ n2), rest.
    split; [reflexivity|].
    split; [rewrite Ht2, Ht, <- app_assoc; reflexivity|].
    rewrite builds_app, hooks_app, announced_app, pushes_app.
    rewrite (hook_events_builds _ Hh), (hook_events_hooks _ Hh),
      (hook_events_announced _ Hh), (hook_events_pushes _ Hh),
      (push_events_builds _ Hp), (push_events_hooks _ Hp),
      (push_events_announced _ Hp).
    split; [reflexivity|]. split; [reflexivity|]. split; [reflexivity|].
    split; [apply Forall_app; split;
            [apply hook_events_loop | apply push_events_loop]; assumption|].
    split; [exact Hm|].
    intros ->. destruct Hend as [(_ & Hr & _)|(e & c & rest' & He & _)];
      [exact Hr | discriminate He].
  - exists (Raise e), w1, n1, (vcs_push_command (git_integration config)).
    rewrite (hook_events_builds _ Hh), (hook_events_hooks _ Hh),
      (hook_events_announced _ Hh), (hook_events_pushes _ Hh).
    split; [reflexivity|]. split; [exact Ht|].
    split; [reflexivity|]. split; [reflexivity|]. split; [reflexivity|].
    split; [apply hook_events_loop; exact Hh|].
    split; [reflexivity | discriminate].
Qed.

Lemma targets_some p c items : targets ((p, Some c) :: items) = (p, c) :: targets items.
Proof. reflexivity. Qed.

Lemma targets_none p items : targets ((p, None) :: items) = targets items.
Proof. reflexivity. Qed.

Lemma loop_end_cons (config : Manifest) (o : outcome) (outcomes : list outcome)
    (rest : list (string * string)) (r : result unit) (w' : World E)
    (extra : list string) :
  loop_end exec formatter config outcomes rest r w' extra ->
  loop_end exec formatter config (o :: outcomes) rest r w' extra.
Proof.
  intros [Hr Hn | e pre o' w1 Hr Ho Hs Ha | e p c rest' Hr Hn Hf].
  - now apply Finished.
  - apply (Left_after_build exec formatter config _ rest r w' e (o :: pre) o' w1); auto.
    now rewrite Ho.
  - now apply (Left_at_start exec formatter config _ rest r w' e p c rest').
Qed.

(** The multi-platform loop, lines 174-182: the targets whose command ran
    ([outcomes]) are a prefix of the targets, the hook was called for those
    that succeeded, the push commands that ran are a prefix of those that
    were due, and the loop ended in one of three ways. *)
Lemma build_platforms_spec (config : Manifest) (items : list (string * option string)) :
  forall w : World E,
  exists r w' news (outcomes : list outcome) rest extra tail,
    build_platforms exec formatter config items w = (r, w') /\
    trace w' = trace w ++ news /\
    targets items = map fst outcomes ++ rest /\
    loop_end exec formatter config outcomes rest r w' extra /\
    announced news = map (fun o => fst (fst o)) outcomes ++ extra /\
    builds news = map (fun o => (snd (fst o), snd o)) outcomes /\
    hooks news = map (fun o => (current_version (versioning config), fst (fst o)))
                     (filter succeeded outcomes) /\
    Forall loop_event news /\
    pushes_due config (builds news) = map fst (pushes news) ++ tail /\
    (tail = [] \/ (extra = [] /\ exists e, r = Raise e)).
Proof.
  induction items as [|[p [c|]] items IH]; intros w.
  - exists (Ok tt), w, [], [], [], [], []. cbn. rewrite app_nil_r.
    repeat split; auto. now apply Finished.
  - cbn [build_platforms]. unfold bind at 1 2 3, print, emit.
    match goal with
    | |- context [execute_build_command exec c ?w0] =>
        destruct (execute_build_command_spec c w0)
          as [(st & w1 & H1 & Hc1 & Ht1)|(e & H1 & Hrf)]
    end.
    + rewrite H1. cbn [cwd disk trace] in Hc1, Ht1.
      assert (Hs : succeeded (p, c, st) = (st =? 0)%Z) by reflexivity.
      destruct (st =? 0)%Z eqn:Hst.
      * destruct (after_build_spec config p w1)
          as (r2 & w2 & n2 & t2 & H2 & Ht2 & Hb2 & Hh2 & Ha2 & Hl2 & Hm2 & Hr2).
        rewrite H2. destruct r2 as [[]|e].
        -- destruct (IH w2)
             as (r & w' & n & os & rest & extra & tail
                 & H & Ht & Htg & Hend & Ha & Hb & Hh & Hl & Hm & Htl).
           rewrite H.
           exists r, w',
             ([Printed (Building_for p); Printed (Executing_command c);
               Ran Build_site (Shell c) (cwd w) st; Printed Build_succeeded;
               Called_git_commit (current_version (versioning config)) p]
              ++ n2 ++ n),
             ((p, c, st) :: os), rest, extra, tail.
           split; [reflexivity|].
           split; [rewrite Ht, Ht2, Ht1, <- !app_assoc; reflexivity|].
           split; [rewrite targets_some, Htg; reflexivity|].
           split; [now apply loop_end_cons|].
           rewrite !announced_app, !builds_app, !hooks_app, !pushes_app.
           rewrite Ha2, Hb2, Hh2, Ha, Hb, Hh.
           cbn [announced builds hooks pushes flat_map app map filter fst snd].
           rewrite Hs. cbn [announced builds hooks flat_map app map filter fst snd].
           split; [reflexivity|]. split; [reflexivity|]. split; [reflexivity|].
           split; [repeat (constructor; [exact I|]);
                   apply Forall_app; split; assumption|].
           split; [|exact Htl].
           rewrite pushes_due_cons, Hst, <- Hb, Hm.
           rewrite Hm2 at 1. rewrite (Hr2 eq_refl), app_nil_r, map_app, <- app_assoc.
           reflexivity.
        -- exists (Raise e), w2,
             ([Printed (Building_for p); Printed (Executing_command c);
               Ran Build_site (Shell c) (cwd w) st; Printed Build_succeeded;
               Called_git_commit (current_version (versioning config)) p]
              ++ n2),
             [(p, c, st)], (targets items), [], t2.
           split; [reflexivity|].
           split; [rewrite Ht2, Ht1, <- !app_assoc; reflexivity|].
           split; [reflexivity|].
           split; [apply (Left_after_build exec formatter config _ _ _ _ e []
                            (p, c, st) w1); auto|].
           rewrite !announced_app, !builds_app, !hooks_app, !pushes_app.
           rewrite Ha2, Hb2, Hh2.
           cbn [announced builds hooks pushes flat_map app map filter fst snd].
           rewrite Hs. cbn [announced builds hooks flat_map app map filter fst snd].
           split; [reflexivity|]. split; [reflexivity|]. split; [reflexivity|].
           split; [repeat (constructor; [exact I|]); assumption|].
           split; [|right; split; [reflexivity | now exists e]].
           rewrite pushes_due_cons, Hst. cbn [pushes_due flat_map].
           rewrite app_nil_r. exact Hm2.
      * unfold ret.
        destruct (IH w1)
          as (r & w' & n & os & rest & extra & tail
              & H & Ht & Htg & Hend & Ha & Hb & Hh & Hl & Hm & Htl).
        rewrite H.
        exists r, w',
          ([Printed (Building_for p); Printed (Executing_command c);
            Ran Build_site (Shell c) (cwd w) st;
            Printed (Build_failed (CalledProcessError (Shell c) st))] ++ n),
          ((p, c, st) :: os), rest, extra, tail.
        split; [reflexivity|].
        split; [rewrite Ht, Ht1, <- !app_assoc; reflexivity|].
        split; [rewrite targets_some, Htg; reflexivity|].
        split; [now apply loop_end_cons|].
        rewrite !announced_app, !builds_app, !hooks_app, !pushes_app.
        rewrite Ha, Hb, Hh.
        cbn [announced builds hooks pushes flat_map app map filter fst snd].
        rewrite Hs. cbn [announced builds hooks flat_map app map filter fst snd].
        split; [reflexivity|]. split; [reflexivity|]. split; [reflexivity|].
        split; [repeat (constructor; [exact I|]); assumption|].
        split; [|exact Htl].
        rewrite pushes_due_cons, Hst, <- Hb. exact Hm.
    + rewrite H1.
      exists (Raise e),
        (say (say w [Printed (Building_for p)]) [Printed (Executing_command c)]),
        [Printed (Building_for p); Printed (Executing_command c)],
        [], ((p, c) :: targets items), [p], [].
      split; [reflexivity|].
      split; [unfold say; cbn; now rewrite <- app_assoc|].
      split; [reflexivity|].
      split; [apply (Left_at_start exec formatter config _ _ _ _ e p c (targets items));
              auto|].
      split; [reflexivity|]. split; [reflexivity|]. split; [reflexivity|].
      split; [repeat constructor|].
      split; [reflexivity | now left].
  - cbn [build_platforms]. unfold bind at 1, ret.
    destruct (IH w)
      as (r & w' & n & os & rest & extra & tail
          & H & Ht & Htg & Hend & Ha & Hb & Hh & Hl & Hm & Htl).
    rewrite H. exists r, w', n, os, rest, extra, tail. rewrite targets_none.
    repeat split; auto.
Qed.

Lemma any_platform_command_spec (items : list (string * option string)) :
  any_platform_command items = true <-> exists p c, In (p, Some c) items.
Proof.
  unfold any_platform_command. rewrite existsb_exists. split.
  - intros [[p [c|]] [Hin H]]; [eauto | discriminate].
  - intros (p & c & Hin). exists (p, Some c). auto.
Qed.

Lemma in_targets (items : list (string * option string)) p c :
  In (p, Some c) items -> In (p, c) (targets items).
Proof.
  intros H. unfold targets. apply in_flat_map. exists (p, Some c). cbn. auto.
Qed.

(** The custom-command mode, lines 183-191. *)
Lemma custom_mode_spec (config : Manifest) (w : World E) :
  any_platform_command (platform_build_commands (build config)) = false ->
  exists r w' news,
    run_targets exec formatter config w = (r, w') /\
    trace w' = trace w ++ Printed Using_custom_command
                 :: Printed (Executing_command (custom_build_command (build config)))
                 :: news /\
    announced news = [] /\
    Forall loop_event news /\
    ((exists st tail,
        builds news = [(custom_build_command (build config), st)] /\
        hooks news = (if (st =? 0)%Z
                      then [(current_version (versioning config), "custom")] else []) /\
        pushes_due config (builds news) = map fst (pushes news) ++ tail /\
        (r = Ok tt -> tail = []) /\
        (st <> 0%Z -> r = Ok tt) /\
        (forall e, r = Raise e ->
           exists w1, after_build exec formatter config "custom" w1 = (Raise e, w'))) \/
     (exists e,
        r = Raise e /\ news = [] /\
        refused exec (Shell (custom_build_command (build config))) w')).
Proof.
  intros Hany. unfold run_targets. rewrite Hany.
  unfold bind at 1 2, print, emit.
  match goal with
  | |- context [execute_build_command exec ?c ?w0] =>
      destruct (execute_build_command_spec c w0)
        as [(st & w1 & H1 & Hc1 & Ht1)|(e & H1 & Hrf)]
  end.
  - rewrite H1. cbn [cwd disk trace] in Hc1, Ht1.
    destruct (st =? 0)%Z eqn:Hst.
    + destruct (after_build_spec config "custom" w1)
        as (r2 & w2 & n2 & t2 & H2 & Ht2 & Hb2 & Hh2 & Ha2 & Hl2 & Hm2 & Hr2).
      rewrite H2.
      exists r2, w2,
        ([Ran Build_site (Shell (custom_build_command (build config))) (cwd w) st;
          Printed Build_succeeded;
          Called_git_commit (current_version (versioning config)) "custom"] ++ n2).
      split; [reflexivity|].
      split; [rewrite Ht2, Ht1, <- !app_assoc; reflexivity|].
      rewrite builds_app, hooks_app, announced_app, pushes_app, Hb2, Hh2, Ha2.
      split; [reflexivity|].
      split; [repeat (constructor; [exact I|]); exact Hl2|].
      left. exists st, t2. rewrite Hst.
      cbn [builds hooks pushes flat_map app].
      split; [reflexivity|]. split; [reflexivity|].
      split; [rewrite pushes_due_cons, Hst; cbn [pushes_due flat_map];
              rewrite app_nil_r; exact Hm2|].
      split; [exact Hr2|].
      split; [intros Hne; apply Z.eqb_eq in Hst; contradiction|].
      intros e ->. now exists w1.
    + exists (Ok tt), w1,
        [Ran Build_site (Shell (custom_build_command (build config))) (cwd w) st;
         Printed (Build_failed
                    (CalledProcessError (Shell (custom_build_command (build config))) st))].
      split; [reflexivity|].
      split; [rewrite Ht1, <- !app_assoc; reflexivity|].
      split; [reflexivity|].
      split; [repeat constructor|].
      left. exists st, []. rewrite Hst.
      cbn [builds hooks pushes flat_map app].
      split; [reflexivity|]. split; [reflexivity|].
      split; [rewrite pushes_due_cons, Hst; reflexivity|].
      split; [reflexivity|]. split; [reflexivity|]. discriminate.
  - rewrite H1. do 2 eexists. exists [].
    split; [reflexivity|].
    split; [unfold say; cbn; now rewrite <- app_assoc|].
    split; [reflexivity|]. split; [constructor|].
    right. exists e. repeat split; auto.
Qed.

(** The multi-platform mode, lines 172-182. *)
Lemma platform_mode_spec (config : Manifest) (w : World E) :
  any_platform_command (platform_build_commands (build config)) = true ->
  exists r w' news (outcomes : list outcome) rest extra tail,
    run_targets exec formatter config w = (r, w') /\
    trace w' = trace w ++ Printed Using_platform_commands :: news /\
    targets (platform_build_commands (build config)) = map fst outcomes ++ rest /\
    loop_end exec formatter config outcomes rest r w' extra /\
    announced news = map (fun o => fst (fst o)) outcomes ++ extra /\
    builds news = map (fun o => (snd (fst o), snd o)) outcomes /\
    hooks news = map (fun o => (current_version (versioning config), fst (fst o)))
                     (filter succeeded outcomes) /\
    Forall loop_event news /\
    pushes_due config (builds news) = map fst (pushes news) ++ tail /\
    (tail = [] \/ (extra = [] /\ exists e, r = Raise e)).
Proof.
  intros Hany. unfold run_targets. rewrite Hany.
  unfold bind at 1, print, emit.
  match goal with
  | |- context [build_platforms exec formatter config ?items ?w0] =>
      destruct (build_platforms_spec config items w0)
        as (r & w' & n & os & rest & extra & tail
            & H & Ht & Htg & Hend & Ha & Hb & Hh & Hl & Hm & Htl)
  end.
  rewrite H. cbn [trace] in Ht.
  exists r, w', n, os, rest, extra, tail.
  split; [reflexivity|].
  split; [rewrite Ht, <- app_assoc; reflexivity|].
  repeat split; auto.
Qed.

(** *** What the engine reads of the manifest it loaded *)

Lemma build_platforms_view (c1 c2 : Manifest) (items : list (string * option string)) :
  current_version (versioning c1) = current_version (versioning c2) ->
  vcs_push_command (git_integration c1) = vcs_push_command (git_integration c2) ->
  forall w : World E, build_platforms exec formatter c1 items w = build_platforms exec formatter c2 items w.
Proof.
  intros Hv Hp. induction items as [|[p [c|]] items IH]; intros w.
  - reflexivity.
  - cbn [build_platforms]. unfold bind, after_build. rewrite Hv, Hp.
    destruct (print (Building_for p) w) as [[[]|e] w0]; [|reflexivity].
    destruct (execute_build_command exec c w0) as [[[cp|]|e] w1]; try reflexivity.
    + unfold bind.
      destruct (git_commit exec formatter (current_version (versioning c2)) p w1) as [[[]|e] w2];
        [|reflexivity].
      destruct (execute_vcs_push_commands exec _ w2) as [[[]|e] w3];
        [apply IH | reflexivity].
    + apply IH.
  - cbn [build_platforms]. unfold bind, ret. apply IH.
Qed.

Lemma run_targets_view (c1 c2 : Manifest) (w : World E) :
  build c1 = build c2 ->
  current_version (versioning c1) = current_version (versioning c2) ->
  vcs_push_command (git_integration c1) = vcs_push_command (git_integration c2) ->
  run_targets exec formatter c1 w = run_targets exec formatter c2 w.
Proof.
  intros Hb Hv Hp. unfold run_targets. rewrite Hb.
  destruct (any_platform_command _).
  - unfold bind. destruct (print Using_platform_commands w) as [[[]|e] w0];
      [now apply build_platforms_view | reflexivity].
  - unfold bind, after_build. now rewrite Hv, Hp.
Qed.

Lemma build_engine_view (c1 c2 : Manifest) (w : World E) :
  build c1 = build c2 ->
  current_version (versioning c1) = current_version (versioning c2) ->
  vcs_push_command (git_integration c1) = vcs_push_command (git_integration c2) ->
  build_engine exec formatter c1 w = build_engine exec formatter c2 w.
Proof.
  intros Hb Hv Hp. unfold build_engine, bind, cleaning_stage. rewrite Hb.
  destruct (match clean_before_build (build c2) with Some b => b | None => false end).
  - destruct (clean_old_builds _ w) as [[[]|e] w0];
      [now apply run_targets_view | reflexivity].
  - cbn. now apply run_targets_view.
Qed.

Lemma build_engine_after_cleaning (config : Manifest) (w w0 : World E) :
  cleaning_stage config w = (Ok tt, w0) ->
  build_engine exec formatter config w = run_targets exec formatter config w0.
Proof. intros H. unfold build_engine, bind. now rewrite H. Qed.

Lemma build_engine_cleaning_raises (config : Manifest) (w w0 : World E) (e : exn) :
  cleaning_stage config w = (Raise e, w0) ->
  build_engine exec formatter config w = (Raise e, w0).
Proof. intros H. unfold build_engine, bind. now rewrite H. Qed.

(** *** More on the hook and on what follows a build *)

Lemma str_format_evaluated (template v p : string) (r : result string) :
  py_format template v p = Some r -> str_format formatter template v p = r.
Proof. intros H. unfold str_format. now rewrite H. Qed.

(** With a manifest on disk that asks for the commit and a template that
    formats, the hook is its [try] statement, run after the two lines it
    leaves in the trace. *)
Lemma git_commit_entered (v p msg : string) (w : World E) (deny : bool) (m : Manifest) :
  found (disk w) (cwd w) BIRB_CONFIG_FILE = Some (File deny (Json m)) ->
  auto_commit (git_integration m) = true ->
  str_format formatter (commit_message_template (git_integration m)) v p = Ok msg ->
  git_commit exec formatter v p w
  = commit_in_birb_dir exec msg
      (say w [Called_git_commit v p; Printed (Committing msg)]).
Proof.
  intros H Hon Hfmt. unfold git_commit, bind, emit.
  rewrite load_birb_json_eq; cbn [cwd disk outside trace]. rewrite H, Hon.
  cbn [negb]. unfold lift. rewrite Hfmt. unfold print, emit, say.
  cbn [cwd disk outside trace]. now rewrite <- app_assoc.
Qed.

(** Where the hook leaves the process: in the parent of the directory
    that [.birb] leads to, when the [try] statement was entered. *)
Lemma git_commit_leaves_in_parent (v p msg : string) (w : World E) (deny : bool)
    (m : Manifest) (q : path) :
  found (disk w) (cwd w) BIRB_CONFIG_FILE = Some (File deny (Json m)) ->
  auto_commit (git_integration m) = true ->
  str_format formatter (commit_message_template (git_integration m)) v p = Ok msg ->
  locate (disk w) (cwd w) BIRB_DIR true = At q ->
  git_leaves_directories exec ->
  cwd (snd (git_commit exec formatter v p w)) = removelast q.
Proof.
  intros H Hon Hfmt Hq Hg.
  rewrite (git_commit_entered v p msg w deny m H Hon Hfmt).
  destruct (config_found_dir _ _ _ H) as (q' & mode & es & Hq' & Hd).
  assert (q' = q) by congruence. subst q'.
  destruct (commit_in_birb_dir_spec msg
              (say w [Called_git_commit v p; Printed (Committing msg)]))
    as (r & w' & news & H1 & _ & _ & _ & _ & Hc).
  rewrite H1. cbn [snd]. exact (Hc Hg q mode es Hq Hd).
Qed.

(** *** Files the engine leaves alone

    The engine itself writes no file: apart from the cleaning stage, the
    disk changes only through child processes.  So whatever the child
    processes keep at a path, the build stages keep. *)

Create HintDb keeps.

Section Frame.

Variable p : path.

Hypothesis exec_keeps : processes_leave exec p.

Lemma keeps_ret {A : Type} (a : A) : keeps (E := E) p (ret a).
Proof. intros w. reflexivity. Qed.

Lemma keeps_raise {A : Type} (e : exn) : keeps (E := E) p (raise (A := A) e).
Proof. intros w. reflexivity. Qed.

Lemma keeps_lift {A : Type} (r : result A) : keeps (E := E) p (lift r).
Proof. intros w. reflexivity. Qed.

Lemma keeps_emit (e : event) : keeps (E := E) p (emit e).
Proof. intros w. reflexivity. Qed.

Lemma keeps_print (m : message) : keeps (E := E) p (print m).
Proof. intros w. reflexivity. Qed.

Lemma keeps_bind {A B : Type} (m : M E A) (k : A -> M E B) :
  keeps (E := E) p m -> (forall a, keeps (E := E) p (k a)) -> keeps (E := E) p (bind m k).
Proof.
  intros Hm Hk w. unfold bind. specialize (Hm w).
  destruct (m w) as [[a|e] w1]; cbn [snd] in *; [rewrite <- Hm; apply Hk | exact Hm].
Qed.

Lemma keeps_try_except {A : Type} (body : M E A) (catches : exn -> bool)
    (handler : exn -> M E A) :
  keeps (E := E) p body -> (forall e, keeps (E := E) p (handler e)) ->
  keeps (E := E) p (try_except body catches handler).
Proof.
  intros Hb Hh w. unfold try_except. specialize (Hb w).
  destruct (body w) as [[a|e] w1]; cbn [snd] in *; [exact Hb|].
  destruct (catches e); [rewrite <- Hb; apply Hh | exact Hb].
Qed.

Lemma keeps_try_finally {A : Type} (body : M E A) (final : M E unit) :
  keeps (E := E) p body -> keeps (E := E) p final ->
  keeps (E := E) p (try_finally body final).
Proof.
  intros Hb Hf w. unfold try_finally. specialize (Hb w).
  destruct (body w) as [r w1]. specialize (Hf w1).
  destruct (final w1) as [[[]|e] w2]; cbn [snd] in *; congruence.
Qed.

Lemma keeps_os_chdir (s : string) : keeps (E := E) p (os_chdir s).
Proof.
  intros w. unfold os_chdir.
  destruct (must_be_dir (disk w) (locate (disk w) (cwd w) s true)); reflexivity.
Qed.

Lemma keeps_subprocess_run (s : site) (c : command) :
  keeps (E := E) p (subprocess_run exec s c).
Proof.
  intros w. unfold subprocess_run.
  destruct (command_has_nul c); [reflexivity|].
  destruct (exec c (cwd w) (disk w) (outside w)) as [st d o|k] eqn:Hx; [|reflexivity].
  destruct (st =? 0)%Z; cbn [snd disk]; exact (exec_keeps _ _ _ _ _ _ _ Hx).
Qed.

#[local] Hint Resolve keeps_ret keeps_raise keeps_lift keeps_emit keeps_print
  keeps_bind keeps_try_except keeps_try_finally keeps_os_chdir
  keeps_subprocess_run : keeps.

Lemma keeps_load_birb_json : keeps (E := E) p load_birb_json.
Proof.
  intros w. rewrite load_birb_json_eq.
  destruct (found (disk w) (cwd w) BIRB_CONFIG_FILE) as [[? [?|?|]|? ?|? ?|]|];
    reflexivity.
Qed.

Lemma keeps_execute_build_command (c : string) :
  keeps (E := E) p (execute_build_command exec c).
Proof. unfold execute_build_command. auto 10 with keeps. Qed.

Lemma keeps_commit_in_birb_dir (msg : string) :
  keeps (E := E) p (commit_in_birb_dir exec msg).
Proof. unfold commit_in_birb_dir, commit_steps. auto 12 with keeps. Qed.

Lemma keeps_git_commit (v pl : string) : keeps (E := E) p (git_commit exec formatter v pl).
Proof.
  unfold git_commit.
  apply keeps_bind; [auto with keeps|]. intros _.
  apply keeps_bind; [apply keeps_load_birb_json|]. intros [m|]; [|auto with keeps].
  destruct (negb (auto_commit (git_integration m))); [auto with keeps|].
  apply keeps_bind; [auto with keeps|]. intros msg.
  apply keeps_bind; [auto with keeps|]. intros _.
  apply keeps_commit_in_birb_dir.
Qed.

Lemma keeps_execute_vcs_push_commands (cmds : list string) :
  keeps (E := E) p (execute_vcs_push_commands exec cmds).
Proof.
  induction cmds as [|c cmds IH]; cbn [execute_vcs_push_commands]; auto 10 with keeps.
Qed.

Lemma keeps_after_build (config : Manifest) (pl : string) :
  keeps (E := E) p (after_build exec formatter config pl).
Proof.
  unfold after_build. apply keeps_bind; [apply keeps_git_commit|].
  intros _. apply keeps_execute_vcs_push_commands.
Qed.

Lemma keeps_build_platforms (config : Manifest) (items : list (string * option string)) :
  keeps (E := E) p (build_platforms exec formatter config items).
Proof.
  induction items as [|[pl [c|]] items IH]; cbn [build_platforms]; auto with keeps.
  apply keeps_bind; [|auto].
  apply keeps_bind; [auto with keeps|]. intros _.
  apply keeps_bind; [apply keeps_execute_build_command|].
  intros [cp|]; [apply keeps_after_build | auto with keeps].
Qed.

Lemma keeps_run_targets (config : Manifest) :
  keeps (E := E) p (run_targets exec formatter config).
Proof.
  unfold run_targets. destruct (any_platform_command _).
  - apply keeps_bind; [auto with keeps|]. intros _. apply keeps_build_platforms.
  - apply keeps_bind; [auto with keeps|]. intros _.
    apply keeps_bind; [apply keeps_execute_build_command|].
    intros [cp|]; [apply keeps_after_build | auto with keeps].
Qed.

End Frame.

(** ** The claims *)

Lemma loop_events_no_custom_mode (news : list event) :
  Forall loop_event news -> ~ In (Printed Using_custom_command) news.
Proof.
  intros H Hin. rewrite Forall_forall in H. exact (H _ Hin).
Qed.

Lemma loop_end_ok (config : Manifest) (outcomes : list outcome)
    (rest : list (string * string)) (r : result unit) (w' : World E)
    (extra : list string) :
  loop_end exec formatter config outcomes rest r w' extra ->
  r = Ok tt -> rest = [] /\ extra = [].
Proof.
  intros [Hr Hn | e pre o w1 Hr _ _ _ | e p c rest' Hr _ _] Hok.
  - auto.
  - rewrite Hr in Hok. discriminate Hok.
  - rewrite Hr in Hok. discriminate Hok.
Qed.

Lemma loop_end_rest (config : Manifest) (outcomes : list outcome)
    (rest : list (string * string)) (r : result unit) (w' : World E)
    (extra : list string) :
  loop_end exec formatter config outcomes rest r w' extra ->
  rest <> [] -> exists e, r = Raise e.
Proof.
  intros [Hr Hn | e pre o w1 Hr _ _ _ | e p c rest' Hr _ _] Hne.
  - contradiction.
  - now exists e.
  - now exists e.
Qed.

(** Build commands that exit with a non-zero status do not end the loop. *)
Lemma loop_end_failures (config : Manifest) (outcomes : list outcome)
    (rest : list (string * string)) (r : result unit) (w' : World E)
    (extra : list string) :
  loop_end exec formatter config outcomes rest r w' extra ->
  (forall o, In o outcomes -> succeeded o = false) -> extra = [] ->
  r = Ok tt /\ rest = [].
Proof.
  intros [Hr Hn | e pre o w1 Hr Ho Hs _ | e p c rest' Hr _ _] Hall Hex.
  - auto.
  - rewrite (Hall o) in Hs; [discriminate Hs|].
    rewrite Ho. apply in_or_app. right. now left.
  - discriminate Hex.
Qed.

Lemma build_project_loaded (w : World E) (deny : bool) (config : Manifest) :
  found (disk w) (cwd w) BIRB_CONFIG_FILE = Some (File deny (Json config)) ->
  build_project exec formatter w = build_engine exec formatter config w.
Proof.
  intros H. unfold build_project, bind. rewrite load_birb_json_eq, H. reflexivity.
Qed.

Lemma locate_birb_dir_plain (d : node) (dir : path) (mode : dir_mode)
    (es : list (string * node)) :
  lookup (dir ++ [".birb"]) d = Some (Dir mode es) ->
  locate d dir BIRB_DIR true = At (dir ++ [".birb"]).
Proof.
  intros Hb. rewrite locate_birb_dir.
  destruct (lookup_parent _ _ _ _ Hb) as (m0 & e0 & Hc & Hx).
  now rewrite (step_name true d dir ".birb" m0 e0 eq_refl Hc), Hx.
Qed.

Lemma starts_not_refused (c : command) (w : World E) :
  starts exec c -> ~ refused exec c w.
Proof.
  intros [Hn Hs] [Hr|(k & Hr)].
  - rewrite Hn in Hr. discriminate Hr.
  - destruct (Hs (cwd w) (disk w) (outside w)) as (st & d' & o' & Hx).
    rewrite Hx in Hr. discriminate Hr.
Qed.





(** C5.  When the template of the manifest on disk is literal text
    without braces around one [{version}] and one [{platform}], in either
    order, the hook formats the commit message by putting the version and
    the platform label in their places, once each, and leaves the literal
    text as it is; this message is the one printed and the one handed to
    [git commit -m], and no other message is formatted.  When git can be
    started and leaves the directories in place, the hook returns and its
    events are the two lines and the commit events of that message. *)
Theorem commit_message_substituted (w : World E) (deny : bool) (m : Manifest)
    (v p l0 l1 l2 : string) (x y : placeholder) :
  lookup (manifest_path (cwd w)) (disk w) = Some (File deny (Json m)) ->
  auto_commit (git_integration m) = true ->
  commit_message_template (git_integration m)
    = (l0 ++ hole x ++ l1 ++ hole y ++ l2)%string ->
  x <> y ->
  brace_free (l0 ++ l1 ++ l2)%string = true ->
  let msg := (l0 ++ value x v p ++ l1 ++ value y v p ++ l2)%string in
  (exists r w' news,
     git_commit exec formatter v p w = (r, w') /\
     trace w' = trace w ++ Called_git_commit v p :: Printed (Committing msg) :: news /\
     commit_messages news = [] /\
     Forall (git_event (cwd w ++ [".birb"]) msg) news) /\
  (starts exec (Argv git_add) ->
   starts exec (Argv (git_commit_m msg)) ->
   git_leaves_directories exec ->
   exists w' st1 st2,
     git_commit exec formatter v p w = (Ok tt, w') /\
     trace w' = trace w ++ Called_git_commit v p :: Printed (Committing msg)
                        :: commit_events (cwd w) msg st1 st2).
Proof.
  intros Hm Hon Ht _ Hbf msg.
  assert (Hfmt : str_format formatter (commit_message_template (git_integration m)) v p
                 = Ok msg).
  { apply str_format_evaluated. rewrite Ht. now apply py_format_two_holes. }
  split.
  - assert (Hf : found (disk w) (cwd w) BIRB_CONFIG_FILE = Some (File deny (Json m)))
      by (apply found_config; [exact Hm | discriminate]).
    destruct (git_commit_formatted v p msg w deny m Hf Hon Hfmt)
      as (r & w' & news & H & Htr & Hcm & Hev).
    exists r, w', news. split; [exact H|]. split; [exact Htr|]. split; [exact Hcm|].
    destruct (manifest_in_birb_dir _ _ _ Hm) as (mode & es & Hb).
    exact (Hev _ (locate_birb_dir_plain _ _ _ _ Hb)).
  - intros Hadd Hcommit Hg.
    destruct (git_commit_on v p msg w deny m Hm Hon Hfmt Hadd Hcommit Hg)
      as (w' & st1 & st2 & H & _ & Htr).
    exists w', st1, st2. auto.
Qed.




Lemma build_engine_custom_view (config : Manifest) (other : string) (w : World E) :
  any_platform_command (platform_build_commands (build config)) = true ->
  build_engine exec formatter (set_custom_build_command config other) w
  = build_engine exec formatter config w.
Proof.
  intros Hany. unfold build_engine, bind.
  change (cleaning_stage (set_custom_build_command config other) w)
    with (cleaning_stage config w).
  destruct (cleaning_stage config w) as [[[]|e] w0]; [|reflexivity].
  unfold run_targets.
  change (platform_build_commands (build (set_custom_build_command config other)))
    with (platform_build_commands (build config)).
  rewrite Hany. unfold bind.
  destruct (print Using_platform_commands w0) as [[[]|e] w1]; [|reflexivity].
  now apply build_platforms_view.
Qed.


(** C10 (amended).  The hook takes nothing from the manifest the engine
    loaded: the engine's copy of [auto_commit], [repo_name], [branch] and
    [commit_message_template] does not influence a run.  The hook reads
    the manifest that is on disk when it is called: that manifest's
    [auto_commit] decides whether it commits and that manifest's template
    gives the commit message.  When nothing is found at the place of the
    manifest the hook commits nothing, runs no command and raises nothing,
    but it is not silent: the loader prints its not-found error. *)
Theorem hook_reads_manifest_from_disk (config : Manifest) (v p : string) (w : World E) :
  (forall g (w0 : World E),
     vcs_push_command g = vcs_push_command (git_integration config) ->
     build_engine exec formatter (set_git_integration config g) w0
     = build_engine exec formatter config w0) /\
  (found (disk w) (cwd w) BIRB_CONFIG_FILE = None ->
   git_commit exec formatter v p w
   = (Ok tt, say w [Called_git_commit v p; Printed Config_not_found])) /\
  (forall deny m,
     found (disk w) (cwd w) BIRB_CONFIG_FILE = Some (File deny (Json m)) ->
     auto_commit (git_integration m) = false ->
     git_commit exec formatter v p w = (Ok tt, say w [Called_git_commit v p])) /\
  (forall deny m e,
     found (disk w) (cwd w) BIRB_CONFIG_FILE = Some (File deny (Json m)) ->
     auto_commit (git_integration m) = true ->
     str_format formatter (commit_message_template (git_integration m)) v p = Raise e ->
     git_commit exec formatter v p w = (Raise e, say w [Called_git_commit v p])) /\
  (forall deny m msg,
     found (disk w) (cwd w) BIRB_CONFIG_FILE = Some (File deny (Json m)) ->
     auto_commit (git_integration m) = true ->
     str_format formatter (commit_message_template (git_integration m)) v p = Ok msg ->
     exists r w' news,
       git_commit exec formatter v p w = (r, w') /\
       trace w' = trace w ++ Called_git_commit v p :: Printed (Committing msg) :: news /\
       commit_messages news = [] /\
       forall q, locate (disk w) (cwd w) BIRB_DIR true = At q ->
                 Forall (git_event q msg) news) /\
  (forall deny m msg,
     lookup (manifest_path (cwd w)) (disk w) = Some (File deny (Json m)) ->
     auto_commit (git_integration m) = true ->
     str_format formatter (commit_message_template (git_integration m)) v p = Ok msg ->
     starts exec (Argv git_add) ->
     starts exec (Argv (git_commit_m msg)) ->
     git_leaves_directories exec ->
     exists w' st1 st2,
       git_commit exec formatter v p w = (Ok tt, w') /\
       cwd w' = cwd w /\
       trace w' = trace w ++ Called_git_commit v p :: Printed (Committing msg)
                          :: commit_events (cwd w) msg st1 st2).
Proof.
  split; [|split; [|split; [|split; [|split]]]].
  - intros g w0 Hg. now apply build_engine_view.
  - apply git_commit_absent.
  - intros deny m. apply git_commit_off.
  - intros deny m e. apply git_commit_bad_template.
  - intros deny m msg. apply git_commit_formatted.
  - intros deny m msg. apply git_commit_on.
Qed.

End Properties.
(** ** Concrete runs *)

(** The child processes of the samples can always be started and leave
    the disk alone. *)
Lemma sample_starts (bad : command -> bool) (c : command) :
  command_has_nul c = false -> starts (Sample.exec_failing bad) c.
Proof.
  intros H. split; [exact H|]. intros dir d o.
  exists (if bad c then 1 else 0)%Z, d, o. reflexivity.
Qed.

Lemma sample_leaves_directories (bad : command -> bool) :
  git_leaves_directories (Sample.exec_failing bad).
Proof.
  intros args dir d o st d' o' H p mode es Hp.
  unfold Sample.exec_failing in H. injection H as _ <- _. eauto.
Qed.

Lemma sample_processes_leave (bad : command -> bool) (p : path) :
  processes_leave (Sample.exec_failing bad) p.
Proof.
  intros c dir d o st d' o' H.
  unfold Sample.exec_failing in H. now injection H as _ <- _.
Qed.









Lemma commit_message_substituted_witness :
  (exists r w' news,
     git_commit (Sample.exec_failing Sample.nothing_fails) Sample.formatter
       "1.2.0" "linux" (Sample.world Sample.three_platforms) = (r, w') /\
     trace w' = trace (Sample.world Sample.three_platforms)
                ++ Called_git_commit "1.2.0" "linux"
                :: Printed (Committing "Release 1.2.0 for linux") :: news /\
     commit_messages news = [] /\
     Forall (git_event ["work"; "demo"; ".birb"] "Release 1.2.0 for linux") news) /\
  exists w' st1 st2,
    git_commit (Sample.exec_failing Sample.nothing_fails) Sample.formatter
      "1.2.0" "linux" (Sample.world Sample.three_platforms) = (Ok tt, w') /\
    trace w' = trace (Sample.world Sample.three_platforms)
               ++ Called_git_commit "1.2.0" "linux"
               :: Printed (Committing "Release 1.2.0 for linux")
               :: commit_events Sample.home "Release 1.2.0 for linux" st1 st2.
Proof.
  destruct (commit_message_substituted
              (Sample.exec_failing Sample.nothing_fails) Sample.formatter
              (Sample.world Sample.three_platforms) false Sample.three_platforms
              "1.2.0" "linux" "Release " " for " "" Version Platform)
    as [Hmsg Hrun]; try reflexivity.
  - discriminate.
  - split; [exact Hmsg|].
    apply Hrun;
      [apply sample_starts; reflexivity | apply sample_starts; reflexivity
      | apply sample_leaves_directories].
Defined.









(** C10, counterexample: without a manifest the hook is not silent: the
    loader prints its not-found error. *)
Lemma hook_prints_when_manifest_is_absent :
  ~ hook_silent
      (trace (snd (git_commit Cases.exec Sample.formatter "1.2.0" "linux"
                     Sample.bare_world))).
Proof. unfold hook_silent. vm_compute. discriminate. Qed.

Lemma hook_reads_manifest_from_disk_witness :
  build_engine (Sample.exec_failing Sample.nothing_fails) Sample.formatter
    (set_git_integration Sample.three_platforms
       (mkGit "other" "dev" false "{oops"
          (vcs_push_command (git_integration Sample.three_platforms))))
    (Sample.world Sample.three_platforms)
  = build_engine (Sample.exec_failing Sample.nothing_fails) Sample.formatter
      Sample.three_platforms (Sample.world Sample.three_platforms) /\
  git_commit (Sample.exec_failing Sample.nothing_fails) Sample.formatter
    "1.2.0" "linux" Sample.bare_world
  = (Ok tt, say Sample.bare_world
              [Called_git_commit "1.2.0" "linux"; Printed Config_not_found]) /\
  (let off := set_git_integration Sample.three_platforms
                (mkGit "demo" "main" false Sample.template []) in
   git_commit (Sample.exec_failing Sample.nothing_fails) Sample.formatter
     "1.2.0" "linux" (Sample.world off)
   = (Ok tt, say (Sample.world off) [Called_git_commit "1.2.0" "linux"])) /\
  git_commit (Sample.exec_failing Sample.nothing_fails) Sample.formatter
    "1.2.0" "windows" (Sample.world Cases.bad_template)
  = (Raise ValueError,
     say (Sample.world Cases.bad_template) [Called_git_commit "1.2.0" "windows"]) /\
  exists w' st1 st2,
    git_commit (Sample.exec_failing Sample.commit_fails) Sample.formatter
      "1.2.0" "linux" (Sample.world Sample.three_platforms) = (Ok tt, w') /\
    cwd w' = Sample.home /\
    trace w' = Called_git_commit "1.2.0" "linux"
               :: Printed (Committing "Release 1.2.0 for linux")
               :: commit_events Sample.home "Release 1.2.0 for linux" st1 st2.
Proof.
  split; [|split; [|split; [|split]]].
  - apply (proj1 (hook_reads_manifest_from_disk
                    (Sample.exec_failing Sample.nothing_fails) Sample.formatter
                    Sample.three_platforms "1.2.0" "linux"
                    (Sample.world Sample.three_platforms))).
    reflexivity.
  - apply (proj1 (proj2 (hook_reads_manifest_from_disk
                           (Sample.exec_failing Sample.nothing_fails) Sample.formatter
                           Sample.three_platforms "1.2.0" "linux" Sample.bare_world))).
    reflexivity.
  - intros off.
    apply (proj1 (proj2 (proj2 (hook_reads_manifest_from_disk
                                  (Sample.exec_failing Sample.nothing_fails)
                                  Sample.formatter Sample.three_platforms
                                  "1.2.0" "linux" (Sample.world off)))) false off);
      reflexivity.
  - apply (proj1 (proj2 (proj2 (proj2 (hook_reads_manifest_from_disk
                                         (Sample.exec_failing Sample.nothing_fails)
                                         Sample.formatter Sample.three_platforms
                                         "1.2.0" "windows"
                                         (Sample.world Cases.bad_template)))))
             false Cases.bad_template ValueError);
      try reflexivity; vm_compute; reflexivity.
  - apply (proj2 (proj2 (proj2 (proj2 (proj2 (hook_reads_manifest_from_disk
                                  (Sample.exec_failing Sample.commit_fails)
                                  Sample.formatter Sample.three_platforms
                                  "1.2.0" "linux"
                                  (Sample.world Sample.three_platforms))))))
             false Sample.three_platforms "Release 1.2.0 for linux");
      try reflexivity;
      [apply sample_starts; reflexivity | apply sample_starts; reflexivity
      | apply sample_leaves_directories].
Defined.

(** ** The rest of the program: creation, preferences, the entry point *)

(** *** Writing into the file tree *)

Lemma assoc_dict_set_same {A : Type} (x : string) (v : A) (es : list (string * A)) :
  assoc x (dict_set x v es) = Some v.
Proof.
  induction es as [|[k u] es IH]; cbn.
  - now rewrite String.eqb_refl.
  - destruct (x =? k) eqn:Hx; cbn; rewrite Hx; auto.
Qed.

Lemma assoc_dict_set_other {A : Type} (x y : string) (v : A) (es : list (string * A)) :
  x <> y -> assoc y (dict_set x v es) = assoc y es.
Proof.
  intros Hxy. induction es as [|[k u] es IH]; cbn.
  - destruct (String.eqb_spec y x); [congruence | reflexivity].
  - destruct (x =? k) eqn:Hx; cbn.
    + apply String.eqb_eq in Hx. subst k.
      destruct (String.eqb_spec y x); [congruence | reflexivity].
    + now rewrite IH.
Qed.

Lemma put_at_snoc_cons (y : string) (q : path) (x : string) (new : node) (d : dir_mode)
    (es : list (string * node)) :
  put_at (y :: q ++ [x]) new (Dir d es) = Dir d (update_key y (put_at (q ++ [x]) new) es).
Proof. cbn. destruct (q ++ [x]) eqn:H; [destruct q; discriminate | reflexivity]. Qed.

(** Writing an entry of an existing directory: the entry is there
    afterwards. *)
Lemma lookup_put_at (q : path) (x : string) (new : node) : forall n d es,
  lookup q n = Some (Dir d es) ->
  lookup (q ++ [x]) (put_at (q ++ [x]) new n) = Some new.
Proof.
  induction q as [|y q IH]; intros n d es H.
  - cbn in H. injection H as ->. cbn. now rewrite assoc_dict_set_same.
  - destruct n as [| |d0 es0|]; try discriminate.
    change ((y :: q) ++ [x]) with (y :: q ++ [x]).
    rewrite put_at_snoc_cons. cbn in *.
    rewrite assoc_update_key_same.
    destruct (assoc y es0) as [c|]; [|discriminate]. cbn. now apply (IH c d es).
Qed.

(** Writing where there was nothing, or a file over a file, takes
    nothing away: every path that led somewhere still does. *)
Lemma thinned_put (new : node) (r : path) : forall d,
  (forall old, lookup r d = Some old -> (exists b t, old = File b t) /\ alike new old) ->
  thinned d (put_at r new d).
Proof.
  induction r as [|x r IH]; intros d Hold; [apply thinned_refl|].
  destruct d as [| |m es|]; try apply thinned_refl.
  intros p n' Hp. destruct p as [|y p].
  - cbn in Hp. injection Hp as <-.
    exists (put_at (x :: r) new (Dir m es)). split; [reflexivity|].
    cbn. destruct r; exact I.
  - cbn [lookup] in Hp. destruct (assoc y es) as [c|] eqn:Hy; [|discriminate Hp].
    destruct (String.eqb_spec x y) as [->|Hxy].
    + destruct r as [|z r].
      * cbn [put_at lookup]. rewrite assoc_dict_set_same.
        destruct (Hold c) as ((b & t & ->) & Hal); [cbn; now rewrite Hy|].
        destruct p as [|? ?]; [|discriminate Hp].
        cbn in Hp. injection Hp as <-. exists new. split; [reflexivity | exact Hal].
      * cbn [put_at lookup]. rewrite assoc_update_key_same, Hy. cbn [option_map].
        apply (IH c); [|exact Hp].
        intros old Ho. apply Hold. cbn [lookup]. now rewrite Hy.
    + exists n'. split; [|apply alike_refl].
      destruct r as [|z r]; cbn [put_at lookup].
      * rewrite (assoc_dict_set_other x y _ es Hxy), Hy. exact Hp.
      * rewrite (assoc_update_key_other x y _ es Hxy), Hy. exact Hp.
Qed.

Lemma grow_nil (d : node) (cur : path) : grow d cur [] = inl d.
Proof. reflexivity. Qed.

(** [os.makedirs] on one name below an existing directory. *)
Lemma grow_one (d : node) (cur : path) (x : string) (mode : dir_mode)
    (es : list (string * node)) :
  lookup cur d = Some (Dir mode es) -> proper_name x = true ->
  grow d cur [x] =
  match assoc x es with
  | None => inl (put_at (cur ++ [x]) (Dir plain []) d)
  | Some (Dir _ _) => inl d
  | Some (Symlink _ t) =>
      match present d (chase MAXSYMLINKS d t) with
      | At q => match lookup q d with
                | Some (Dir _ _) => inl d
                | _ => inr FileExists
                end
      | Lost k => inr FileExists
      end
  | Some _ => inr FileExists
  end.
Proof.
  intros Hc Hx. destruct (proper_name_inv x Hx) as (_ & H1 & H2 & _).
  change (grow d cur [x]) with
    (match lookup cur d with
     | Some (Dir _ _) =>
         if x =? "." then grow d cur []
         else if x =? ".." then grow d (removelast cur) []
         else match lookup (cur ++ [x]) d with
              | None => grow (put_at (cur ++ [x]) (Dir plain []) d) (cur ++ [x]) []
              | Some (Dir _ _) => grow d (cur ++ [x]) []
              | Some (Symlink _ t) =>
                  match present d (chase MAXSYMLINKS d t) with
                  | At q => match lookup q d with
                            | Some (Dir _ _) => grow d q []
                            | _ => inr FileExists
                            end
                  | Lost k => inr FileExists
                  end
              | Some _ => inr FileExists
              end
     | Some _ => inr NotADirectory
     | None => inr NoEntry
     end).
  rewrite Hc, H1, H2, lookup_snoc, Hc.
  destruct (assoc x es) as [[| |? ?|]|]; reflexivity.
Qed.

Lemma grow_ensured (d : node) (cur : path) (x : string) (mode : dir_mode)
    (es : list (string * node)) (c : node) :
  lookup cur d = Some (Dir mode es) -> proper_name x = true ->
  ensured (assoc x es) = Some c ->
  exists d',
    grow d cur [x] = inl d' /\
    lookup (cur ++ [x]) d' = Some c /\
    thinned d d'.
Proof.
  intros Hc Hx He. rewrite (grow_one d cur x mode es Hc Hx).
  destruct (assoc x es) as [[| |m' es'|]|] eqn:Ha; cbn in He; try discriminate He;
    injection He as <-.
  - exists d. split; [reflexivity|]. split; [|apply thinned_refl].
    now rewrite lookup_snoc, Hc.
  - eexists. split; [reflexivity|]. split; [apply (lookup_put_at cur x _ d mode es Hc)|].
    apply thinned_put. intros old Ho. rewrite lookup_snoc, Hc, Ha in Ho. discriminate Ho.
Qed.

(** Where [open(path_join a x, 'w')] writes. *)
Lemma place_join (d : node) (dir : path) (a x : string) (q : path) (mode : dir_mode)
    (es : list (string * node)) :
  a <> "" -> has_nul a = false -> proper_name x = true ->
  enter d (origin dir a) (components a "") = At q ->
  lookup q d = Some (Dir mode es) ->
  (forall deny t, assoc x es <> Some (Symlink deny t)) ->
  place d dir (path_join a x) = At (q ++ [x]).
Proof.
  intros Ha Hnul Hx Hent Hq Hns.
  destruct (path_join_shape a x Hx) as (Hc & Hne & He & Hn & Hs).
  destruct (proper_name_inv x Hx) as (_ & H1 & H2 & _).
  unfold place. rewrite Hne, Hn, Hnul, He, Hc. cbn [orb].
  rewrite removelast_last, last_last.
  unfold origin. rewrite (Hs Ha). fold (origin dir a). rewrite Hent, Hq, H1, H2.
  rewrite lookup_snoc, Hq.
  destruct (assoc x es) as [[| |? ?|]|] eqn:Hax; try reflexivity.
  exfalso. exact (Hns _ _ eq_refl).
Qed.

Lemma enter_birb_dir (d : node) (dir : path) (mode : dir_mode)
    (es : list (string * node)) :
  lookup (dir ++ [".birb"]) d = Some (Dir mode es) ->
  enter d (origin dir BIRB_DIR) (components BIRB_DIR "") = At (dir ++ [".birb"]).
Proof.
  intros Hb.
  change (enter d (origin dir BIRB_DIR) (components BIRB_DIR ""))
    with (step true d (At dir) ".birb").
  destruct (lookup_parent _ _ _ _ Hb) as (m0 & e0 & Hc & Hx).
  now rewrite (step_name true d dir ".birb" m0 e0 eq_refl Hc), Hx.
Qed.

Lemma place_config (d : node) (dir : path) (mode : dir_mode)
    (es : list (string * node)) :
  lookup (dir ++ [".birb"]) d = Some (Dir mode es) ->
  (forall deny t, assoc "birb.json" es <> Some (Symlink deny t)) ->
  place d dir BIRB_CONFIG_FILE = At (manifest_path dir).
Proof.
  intros Hb Hns. unfold BIRB_CONFIG_FILE, manifest_path.
  apply (place_join d dir BIRB_DIR "birb.json" (dir ++ [".birb"]) mode es);
    try reflexivity; auto.
  - discriminate.
  - now apply (enter_birb_dir d dir mode es).
Qed.

(** What [lstat] finds is what [stat] finds, unless it is a link. *)
Lemma step_here_followed (d : node) (l : located) (x : string) (r : path) (n : node) :
  step false d l x = At r -> lookup r d = Some n ->
  (forall deny t, n <> Symlink deny t) ->
  step true d l x = At r.
Proof.
  unfold step. generalize MAXSYMLINKS. intros fuel.
  destruct l as [cur|k]; [|intros H; discriminate H].
  destruct (lookup cur d) as [[| |? ?|]|]; try (intros H; discriminate H).
  destruct (x =? "."); [auto|]. destruct (x =? ".."); [auto|].
  destruct (lookup (cur ++ [x]) d) as [[| |? ?|]|] eqn:Hx; auto.
  intros H Hr Hn. injection H as <-. rewrite Hx in Hr. injection Hr as <-.
  exfalso. exact (Hn _ _ eq_refl).
Qed.

Lemma found_here_found (d : node) (dir : path) (s : string) (n : node) :
  found_here d dir s = Some n -> (forall deny t, n <> Symlink deny t) ->
  found d dir s = Some n.
Proof.
  unfold found_here, found, locate.
  destruct ((s =? "") || has_nul s); [intros H; discriminate H|].
  destruct (ends_with_slash s); [auto|].
  set (names := components s "").
  destruct (step false d (enter d (origin dir s) (removelast names)) (last names "."))
    as [r|k] eqn:Hst; [|intros H; discriminate H].
  intros Hr Hn.
  assert (Hent : enter d (origin dir s) names = At r).
  { destruct names as [|a names'] eqn:Hnames using rev_ind.
    - unfold enter in *. cbn [fold_left removelast last] in *.
      unfold step in Hst.
      destruct (lookup (origin dir s) d) as [[| |? ?|]|];
        try discriminate Hst. exact Hst.
    - clear IHnames'. rewrite removelast_last, last_last in Hst.
      rewrite enter_snoc. exact (step_here_followed _ _ _ _ _ Hst Hr Hn). }
  now rewrite Hent.
Qed.

Lemma locate_thinned (d d' : node) (dir : path) (s : string) (q : path) :
  thinned d d' -> locate d dir s true = At q -> locate d' dir s true = At q.
Proof.
  intros Hth. unfold locate.
  destruct ((s =? "") || has_nul s); [auto|].
  destruct (ends_with_slash s).
  - intros H. apply must_be_dir_at in H as (He & mode & es & Hq).
    rewrite (enter_thinned d d' _ Hth _ _ He). cbn [must_be_dir].
    destruct (Hth q _ Hq) as (n & Hn & Hal). rewrite Hn.
    destruct n; cbn in Hal; try contradiction. reflexivity.
  - apply (enter_thinned d d' _ Hth).
Qed.

Section Creation.

Context {E : Type}.

Lemma json_dump_into (s : string) (q : path) (x : string) (data : file_data)
    (d : dir_mode) (es : list (string * node)) (w : World E) :
  place (disk w) (cwd w) s = At (q ++ [x]) ->
  lookup q (disk w) = Some (Dir d es) ->
  writable (assoc x es) = true ->
  exists w',
    json_dump s data w = (Ok tt, w') /\
    cwd w' = cwd w /\ outside w' = outside w /\ trace w' = trace w /\
    disk w' = put_at (q ++ [x]) (File false data) (disk w) /\
    lookup (q ++ [x]) (disk w') = Some (File false data).
Proof.
  intros Hr Hq Hw. unfold json_dump. rewrite Hr, lookup_snoc, Hq.
  destruct (assoc x es) as [[[|] ?| | |]|]; try discriminate;
    eexists; (split; [reflexivity|]); cbn [cwd disk outside trace];
    repeat split; apply (lookup_put_at q x _ _ d es Hq).
Qed.

Lemma writable_no_link (found : option node) :
  writable found = true -> forall deny t, found <> Some (Symlink deny t).
Proof. intros H deny t ->. discriminate H. Qed.

Lemma create_birb_json_spec (project_name version : string) (generate_config : bool)
    (platform_commands : list (string * option string)) (output_dir : string)
    (clean_before_build : bool) (repo_name branch : string)
    (vcs_push_command : list string) (custom : string)
    (d d' : dir_mode) (es es' : list (string * node)) (w : World E) :
  lookup (cwd w) (disk w) = Some (Dir d es) ->
  ensured (assoc ".birb" es) = Some (Dir d' es') ->
  writable (assoc "birb.json" es') = true ->
  get_custom platform_commands = Some custom ->
  exists w',
    create_birb_json project_name version generate_config platform_commands output_dir
      clean_before_build repo_name branch vcs_push_command w = (Ok tt, w') /\
    cwd w' = cwd w /\
    outside w' = outside w /\
    trace w' = trace w ++ [Printed (Created BIRB_CONFIG_FILE)] /\
    lookup (manifest_path (cwd w)) (disk w')
    = Some (File false
              (Json (birb_config project_name version custom platform_commands output_dir
                       clean_before_build repo_name branch vcs_push_command))).
Proof.
  intros Hcwd Hdir Hfile Hcustom.
  unfold create_birb_json, bind at 1, os_makedirs.
  change ((BIRB_DIR =? "") || has_nul BIRB_DIR) with false. cbn match.
  change (origin (cwd w) BIRB_DIR) with (cwd w).
  change (components BIRB_DIR "") with [".birb"].
  destruct (grow_ensured (disk w) (cwd w) ".birb" d es (Dir d' es') Hcwd eq_refl Hdir)
    as (n' & Hg & Hl & _).
  rewrite Hg. unfold get_custom in Hcustom. rewrite Hcustom. unfold bind.
  match goal with
  | |- context [json_dump BIRB_CONFIG_FILE ?data ?w0] =>
      destruct (json_dump_into BIRB_CONFIG_FILE (cwd w ++ [".birb"]) "birb.json" data
                  d' es' w0
                  (place_config n' (cwd w) d' es' Hl (writable_no_link _ Hfile)) Hl Hfile)
        as (w' & H & Hc & Ho & Ht & _ & Hlk)
  end.
  rewrite H. unfold print, emit. eexists. split; [reflexivity|].
  cbn [cwd disk outside trace]. cbn [cwd disk outside trace] in Hc, Ho, Ht.
  rewrite Hc, Ho, Ht.
  repeat split. exact Hlk.
Qed.

End Creation.

(** *** Error and edge behaviour of the build *)

Section Edges.

Context {E : Type}.
Variable exec : command -> path -> node -> E -> spawned E.
Variable formatter : string -> string -> string -> result string.

(** X2.  [execute_build_command] catches the failure of a build command
    and nothing else.  When the command runs, a non-zero exit status is
    reported and the function returns, with the completed process exactly
    when the status is 0; it prints the command, runs it once in the
    current directory and prints the outcome.  When the command cannot be
    started the exception leaves the function after the first line. *)
Theorem build_command_failure_is_contained (c : string) (w : World E) :
  (exists st w',
     execute_build_command exec c w
     = (Ok (if (st =? 0)%Z then Some (mkCompleted (Shell c) st) else None), w') /\
     cwd w' = cwd w /\
     trace w' = trace w ++
       [Printed (Executing_command c); Ran Build_site (Shell c) (cwd w) st;
        Printed (if (st =? 0)%Z then Build_succeeded
                 else Build_failed (CalledProcessError (Shell c) st))]) \/
  (exists e,
     execute_build_command exec c w = (Raise e, say w [Printed (Executing_command c)]) /\
     refused exec (Shell c) w).
Proof. apply execute_build_command_spec. Qed.

(** X3.  When nothing is found at [.birb/birb.json] the build does
    nothing: it prints the not-found error and returns; no cleaning, no
    command, no exception. *)
Theorem build_without_manifest_runs_nothing (w : World E) :
  found (disk w) (cwd w) BIRB_CONFIG_FILE = None ->
  build_project exec formatter w = (Ok tt, say w [Printed Config_not_found]).
Proof.
  intros H. unfold build_project, bind. now rewrite load_birb_json_eq, H.
Qed.

(** X4.  A manifest file that is not JSON is not guarded against: the
    decoding error leaves [build_project] before anything is cleaned or
    run, and leaves the hook as well. *)
Theorem undecodable_manifest_raises (deny : bool) (w : World E) :
  lookup (manifest_path (cwd w)) (disk w) = Some (File deny Bytes) ->
  build_project exec formatter w = (Raise JSONDecodeError, w) /\
  forall v p,
    git_commit exec formatter v p w
    = (Raise JSONDecodeError, say w [Called_git_commit v p]).
Proof.
  intros H.
  assert (Hf : found (disk w) (cwd w) BIRB_CONFIG_FILE = Some (File deny Bytes))
    by (apply found_config; [exact H | discriminate]).
  split.
  - unfold build_project, bind. now rewrite load_birb_json_eq, Hf.
  - intros v p. unfold git_commit, bind, emit.
    rewrite load_birb_json_eq; cbn [cwd disk outside trace]. now rewrite Hf.
Qed.

(** X5.  A template that [str.format] rejects stops the whole run: after
    the first build command that succeeds, the exception leaves the hook
    before any git command, no push command runs for that target, and the
    remaining platforms are not built. *)
Theorem bad_template_stops_the_run (config : Manifest) (p c : string)
    (rest : list (string * option string)) (w w1 : World E) (cp : CompletedProcess)
    (deny : bool) (m : Manifest) (e : exn) :
  execute_build_command exec c (say w [Printed (Building_for p)]) = (Ok (Some cp), w1) ->
  found (disk w1) (cwd w1) BIRB_CONFIG_FILE = Some (File deny (Json m)) ->
  auto_commit (git_integration m) = true ->
  str_format formatter (commit_message_template (git_integration m))
    (current_version (versioning config)) p = Raise e ->
  build_platforms exec formatter config ((p, Some c) :: rest) w
  = (Raise e, say w1 [Called_git_commit (current_version (versioning config)) p]).
Proof.
  intros Hb Hm Hon Hfmt. unfold say in Hb.
  cbn [build_platforms]. unfold bind at 1 2 3, print, emit. rewrite Hb.
  unfold after_build, bind.
  now rewrite (git_commit_bad_template exec formatter _ p e w1 deny m Hm Hon Hfmt).
Qed.

(** X6.  When what the output directory names cannot be listed, a
    regular file or a directory that may not be read, the listing raises
    outside the [try] of the loop: with cleaning on, the build stops with
    that error before any target is built, and nothing is removed. *)
Theorem cleaning_a_file_raises (config : Manifest) (w : World E) (n : node)
    (kind : os_error) :
  clean_before_build (build config) = Some true ->
  output_node w (output_directory (build config)) = Some n ->
  listing_error n = Some kind ->
  build_engine exec formatter config w
  = (Raise (OSError kind (output_directory (build config))),
     say w [Printed (Cleaning (output_directory (build config)))]).
Proof.
  intros Hclean Hn Hk. apply build_engine_cleaning_raises.
  unfold cleaning_stage. rewrite Hclean.
  now apply (clean_old_builds_unlisted _ n kind).
Qed.

(** X7.  The cleaning stage is confined to the direct entries of the
    output directory: whatever it removes or fails to remove, a file that
    is not a direct entry of that directory is still there afterwards,
    with its content. *)
Theorem cleaning_keeps_files_elsewhere (output_dir : string) (p : path)
    (deny : bool) (data : file_data) (w : World E) :
  (forall q, locate (disk w) (cwd w) output_dir true = At q ->
     (forall x, q ++ [x] <> p) /\
     (forall d es, lookup q (disk w) = Some (Dir d es) ->
        Forall (fun e => proper_name (fst e) = true) es)) ->
  lookup p (disk w) = Some (File deny data) ->
  lookup p (disk (snd (clean_old_builds output_dir w))) = Some (File deny data).
Proof. apply clean_old_builds_keeps_file. Qed.

(** X8.  An entry of the output directory that is neither a file, a link
    nor a directory is left in place, and the loop still prints that it
    was deleted. *)
Theorem special_entry_is_reported_deleted (output_dir x : string) (w : World E) :
  found_here (disk w) (cwd w) (path_join output_dir x) = Some Special ->
  clean_entry output_dir x w
  = (Ok tt, say w [Printed (Deleted (path_join output_dir x))]).
Proof.
  intros Hh.
  assert (Hf : found (disk w) (cwd w) (path_join output_dir x) = Some Special)
    by (apply found_here_found; [exact Hh | discriminate]).
  unfold clean_entry, try_except, bind, os_path_isfile, os_path_islink, os_path_isdir,
    bind, stat, lstat, ret.
  generalize (path_join output_dir x) Hh Hf. intros f Hh' Hf'.
  do 3 (cbn [cwd disk]; rewrite ?Hf', ?Hh'). reflexivity.
Qed.

(** X9.  When [.birb] is a directory of the working directory, git can
    be started and leaves the directories in place, the commit step
    returns and runs [git commit] only after a [git add] that succeeded:
    either [git add] failed and is the only git command, with one failure
    message, or [git add] exited with status 0 and [git commit] ran after
    it, with the message for its outcome.  Both run in [.birb], and the
    process ends in the directory it started in. *)
Theorem commit_needs_git_add (msg : string) (w : World E) (mode : dir_mode)
    (es : list (string * node)) :
  lookup (cwd w ++ [".birb"]) (disk w) = Some (Dir mode es) ->
  starts exec (Argv git_add) ->
  starts exec (Argv (git_commit_m msg)) ->
  git_leaves_directories exec ->
  exists w' news,
    commit_in_birb_dir exec msg w = (Ok tt, w') /\
    cwd w' = cwd w /\
    trace w' = trace w ++ news /\
    ((exists st1,
        st1 <> 0%Z /\
        git_runs news = [(["git"; "add"; "."], cwd w ++ [".birb"], st1)] /\
        printed news
        = [Commit_failed (CalledProcessError (Argv ["git"; "add"; "."]) st1)]) \/
     (exists st2,
        git_runs news = [(["git"; "add"; "."], cwd w ++ [".birb"], 0%Z);
                         (["git"; "commit"; "-m"; msg], cwd w ++ [".birb"], st2)] /\
        printed news
        = [if (st2 =? 0)%Z then Committed
           else Commit_failed
                  (CalledProcessError (Argv ["git"; "commit"; "-m"; msg]) st2)])).
Proof.
  intros Hb Hadd Hcommit Hg.
  destruct (commit_in_birb_dir_events exec msg w mode es Hb Hadd Hcommit Hg)
    as (w' & st1 & st2 & H & Hc & Ht).
  exists w', (commit_events (cwd w) msg st1 st2).
  split; [exact H|]. split; [exact Hc|]. split; [exact Ht|].
  unfold commit_events. destruct (st1 =? 0)%Z eqn:H1.
  - right. apply Z.eqb_eq in H1. subst st1. exists st2. split; reflexivity.
  - left. apply Z.eqb_neq in H1. exists st1. repeat split; auto.
Qed.

End Edges.

(** *** Creation and the build that follows *)

Lemma interactive_platform_commands_eq (answer : string -> string) (custom : string) :
  interactive_platform_commands answer custom =
  [("windows", platform_entry answer "windows");
   ("linux", platform_entry answer "linux");
   ("macos", platform_entry answer "macos");
   ("custom", Some (custom_entry custom))].
Proof.
  unfold interactive_platform_commands, platform_entry, custom_entry. cbn.
  destruct (lower (answer "windows") =? "null");
    destruct (lower (answer "linux") =? "null");
    destruct (lower (answer "macos") =? "null"); reflexivity.
Qed.

(** X10.  Whatever is typed at the prompts, the mapping that
    [interactive_create] builds has the keys windows, linux, macos and
    custom, in this order; a platform is null exactly when its answer is
    "null" in any letter case; the entry under "custom" is never null, so
    the engine's test for the multi-platform mode succeeds on it and
    [create_birb_json] reads the custom command out of the mapping. *)
Theorem interactive_mapping_has_custom (answer : string -> string) (custom : string) :
  let mapping := interactive_platform_commands answer custom in
  map fst mapping = ["windows"; "linux"; "macos"; "custom"] /\
  (forall platform, In platform platforms ->
     assoc platform mapping = Some (platform_entry answer platform) /\
     (assoc platform mapping = Some None <-> lower (answer platform) = "null")) /\
  assoc "custom" mapping = Some (Some (custom_entry custom)) /\
  get_custom mapping = Some (custom_entry custom) /\
  any_platform_command mapping = true.
Proof.
  intros mapping. unfold mapping. rewrite interactive_platform_commands_eq.
  split; [reflexivity|]. split.
  - intros platform Hin. cbn in Hin.
    assert (Hentry : forall q, platform_entry answer q = None <-> lower (answer q) = "null").
    { intros q. unfold platform_entry.
      destruct (String.eqb_spec (lower (answer q)) "null"); split; congruence. }
    destruct Hin as [<-|[<-|[<-|[]]]]; cbn; (split; [reflexivity|]);
      rewrite <- Hentry; split; congruence.
  - split; [reflexivity|]. split; [reflexivity|].
    unfold any_platform_command. cbn. now rewrite !orb_true_r.
Qed.

Section AfterCreation.

Context {E : Type}.
Variable exec : command -> path -> node -> E -> spawned E.
Variable formatter : string -> string -> string -> result string.


(** X12.  When the name [.birb] is taken by something that is no
    directory and leads to none, [create_birb_json] raises
    [FileExistsError] at [os.makedirs] and writes nothing. *)
Theorem create_refused_when_birb_is_taken (project_name version : string)
    (generate_config : bool) (platform_commands : list (string * option string))
    (output_dir : string) (clean_before_build : bool) (repo_name branch : string)
    (vcs_push_command : list string) (d : dir_mode) (es : list (string * node))
    (w : World E) :
  lookup (cwd w) (disk w) = Some (Dir d es) ->
  ensured (assoc ".birb" es) = None ->
  os_path_isdir BIRB_DIR w = (Ok false, w) ->
  create_birb_json project_name version generate_config platform_commands output_dir
    clean_before_build repo_name branch vcs_push_command w
  = (Raise (OSError FileExists BIRB_DIR), w).
Proof.
  intros Hcwd Hdir Hno. unfold create_birb_json, bind, os_makedirs.
  change ((BIRB_DIR =? "") || has_nul BIRB_DIR) with false. cbn match.
  change (origin (cwd w) BIRB_DIR) with (cwd w).
  change (components BIRB_DIR "") with [".birb"].
  rewrite (grow_one (disk w) (cwd w) ".birb" d es Hcwd eq_refl).
  unfold os_path_isdir, bind, stat, ret, found in Hno.
  rewrite locate_birb_dir, (step_name true _ _ ".birb" d es eq_refl Hcwd) in Hno.
  destruct (assoc ".birb" es) as [[| |? ?|]|]; cbn in Hdir; try discriminate Hdir;
    try reflexivity.
  revert Hno. generalize (present (disk w) (chase MAXSYMLINKS (disk w) target)).
  intros [q|k] Hno; [|reflexivity].
  destruct (lookup q (disk w)) as [[| |? ?|]|]; try reflexivity.
  discriminate Hno.
Qed.

(** A manifest whose mapping has a non-null entry is built in the
    multi-platform mode, from any world. *)
Lemma build_project_platform_mode (m : Manifest) (deny : bool) (w : World E) :
  lookup (manifest_path (cwd w)) (disk w) = Some (File deny (Json m)) ->
  clean_before_build (build m) = Some false ->
  any_platform_command (platform_build_commands (build m)) = true ->
  exists r w' news (outcomes : list outcome) rest extra,
    build_project exec formatter w = (r, w') /\
    trace w' = trace w ++ Printed Using_platform_commands :: news /\
    targets (platform_build_commands (build m)) = map fst outcomes ++ rest /\
    loop_end exec formatter m outcomes rest r w' extra /\
    (r = Ok tt -> rest = [] /\ extra = []) /\
    announced news = map (fun o => fst (fst o)) outcomes ++ extra /\
    builds news = map (fun o => (snd (fst o), snd o)) outcomes /\
    hooks news = map (fun o => (current_version (versioning m), fst (fst o)))
                     (filter succeeded outcomes) /\
    ~ In (Printed Using_custom_command) news.
Proof.
  intros Hm Hclean Hany.
  destruct (platform_mode_spec exec formatter m w Hany)
    as (r & w' & n & os & rest & extra & tail
        & H & Ht & Htg & Hend & Ha & Hb & Hh & Hl & _).
  exists r, w', n, os, rest, extra.
  split.
  - rewrite (build_project_loaded exec formatter w deny m);
      [|apply found_config; [exact Hm | discriminate]].
    unfold build_engine, bind, cleaning_stage. rewrite Hclean. exact H.
  - split; [exact Ht|]. split; [exact Htg|]. split; [exact Hend|].
    split; [exact (loop_end_ok exec formatter _ _ _ _ _ _ Hend)|].
    split; [exact Ha|]. split; [exact Hb|]. split; [exact Hh|].
    now apply loop_events_no_custom_mode.
Qed.

(** The call of [create_birb_json] that [main] makes for
    [create --name --version], lines 251-258, and the build after it. *)
Lemma flag_create_then_build (name version : string)
    (generate_config : bool) (d d' : dir_mode) (es es' : list (string * node))
    (w : World E) :
  lookup (cwd w) (disk w) = Some (Dir d es) ->
  ensured (assoc ".birb" es) = Some (Dir d' es') ->
  writable (assoc "birb.json" es') = true ->
  exists w1,
    create_birb_json name version generate_config default_platform_commands "./builds"
      false "" "main" [] w = (Ok tt, w1) /\
    trace w1 = trace w ++ [Printed (Created BIRB_CONFIG_FILE)] /\
    exists r w2 news (outcomes : list outcome) rest extra,
      build_project exec formatter w1 = (r, w2) /\
      trace w2 = trace w1 ++ Printed Using_platform_commands :: news /\
      [("windows", "build_script.windows.sh"); ("linux", "build_script.linux.sh");
       ("macos", "build_script.macos.sh")] = map fst outcomes ++ rest /\
      loop_end exec formatter
        (birb_config name version "make build" default_platform_commands "./builds"
           false "" "main" [])
        outcomes rest r w2 extra /\
      (r = Ok tt -> rest = [] /\ extra = []) /\
      announced news = map (fun o => fst (fst o)) outcomes ++ extra /\
      builds news = map (fun o => (snd (fst o), snd o)) outcomes /\
      hooks news = map (fun o => (version, fst (fst o))) (filter succeeded outcomes) /\
      ~ In (Printed Using_custom_command) news.
Proof.
  intros Hcwd Hdir Hfile.
  destruct (create_birb_json_spec name version generate_config default_platform_commands
              "./builds" false "" "main" [] "make build" d d' es es' w
              Hcwd Hdir Hfile eq_refl)
    as (w1 & H & Hc & _ & Ht & Hl).
  exists w1. split; [exact H|]. split; [exact Ht|].
  rewrite <- Hc in Hl.
  apply (build_project_platform_mode _ false w1 Hl); reflexivity.
Qed.

(** X14.  Creation at the prompts, then a build: whatever was typed, the
    manifest that [interactive_create] writes holds its custom command
    under the key "custom" of the mapping as well, so every build of that
    manifest is in the multi-platform mode, with "custom" as a target, and
    the custom-command mode is never entered. *)
Theorem interactively_created_manifest_never_builds_in_custom_mode (answers : Answers)
    (d d' : dir_mode) (es es' : list (string * node)) (w : World E) :
  lookup (cwd w) (disk w) = Some (Dir d es) ->
  ensured (assoc ".birb" es) = Some (Dir d' es') ->
  writable (assoc "birb.json" es') = true ->
  exists w1 m,
    interactive_create answers w = (Ok tt, w1) /\
    load_birb_json w1 = (Ok (Some m), w1) /\
    In ("custom", custom_build_command (build m))
       (targets (platform_build_commands (build m))) /\
    forall w0, exists r w2 news,
      run_targets exec formatter m w0 = (r, w2) /\
      trace w2 = trace w0 ++ Printed Using_platform_commands :: news /\
      ~ In (Printed Using_custom_command) news.
Proof.
  intros Hcwd Hdir Hfile.
  assert (Hget : get_custom (interactive_platform_commands (platform_answer answers)
                               (custom_command_answer answers))
                 = Some (custom_entry (custom_command_answer answers)))
    by (rewrite interactive_platform_commands_eq; reflexivity).
  assert (Hany : any_platform_command
                   (interactive_platform_commands (platform_answer answers)
                      (custom_command_answer answers)) = true).
  { rewrite interactive_platform_commands_eq. unfold any_platform_command. cbn.
    now rewrite !orb_true_r. }
  unfold interactive_create, bind at 1, print, emit.
  match goal with
  | |- context [create_birb_json ?a ?b ?c ?pc ?o ?cl ?r ?br ?v ?w0] =>
      destruct (create_birb_json_spec a b c pc o cl r br v _ d d' es es' w0
                  Hcwd Hdir Hfile Hget)
        as (w1 & H & Hc & _ & _ & Hl);
      exists w1, (birb_config a b (custom_entry (custom_command_answer answers))
                    pc o cl r br v)
  end.
  split; [exact H|]. cbn [cwd] in Hc, Hl.
  split.
  { rewrite load_birb_json_eq. rewrite <- Hc in Hl.
    rewrite (found_config _ _ _ Hl); [reflexivity | discriminate]. }
  split.
  - unfold birb_config. cbn [build platform_build_commands custom_build_command].
    rewrite interactive_platform_commands_eq. apply in_targets. cbn. auto.
  - intros w0.
    destruct (platform_mode_spec exec formatter
                (birb_config (project_name_answer answers) (version_answer answers)
                   (custom_entry (custom_command_answer answers))
                   (interactive_platform_commands (platform_answer answers)
                      (custom_command_answer answers))
                   (if output_dir_answer answers =? "" then "./builds"
                    else output_dir_answer answers)
                   (lower (clean_answer answers) =? "y")
                   (repo_name_answer answers)
                   (if branch_answer answers =? "" then "main" else branch_answer answers)
                   (if vcs_push_answer answers =? "" then []
                    else map strip (split_on ","%char (vcs_push_answer answers) "")))
                w0 Hany)
      as (r & w2 & n & os & rest & extra & tail & Hrun & Ht & _ & _ & _ & _ & _ & Hloop & _).
    exists r, w2, n.
    split; [exact Hrun|]. split; [exact Ht|]. now apply loop_events_no_custom_mode.
Qed.

End AfterCreation.

(** *** Preferences and the entry point *)

Section Entry.

Context {E : Type}.
Variable exec : command -> path -> node -> E -> spawned E.
Variable formatter : string -> string -> string -> result string.
Variable APPDATA : string.

(** Where the name [preferences.json] is looked up. *)
Lemma locate_preferences (d : node) (dir q : path) (mode : dir_mode)
    (es : list (string * node)) (f : bool) :
  locate d dir APPDATA true = At q ->
  lookup (q ++ ["BIRB"]) d = Some (Dir mode es) ->
  APPDATA_PATH APPDATA <> "" /\
  has_nul (APPDATA_PATH APPDATA) = false /\
  enter d (origin dir (APPDATA_PATH APPDATA)) (components (APPDATA_PATH APPDATA) "")
  = At (q ++ ["BIRB"]) /\
  locate d dir (PREFERENCES_FILE APPDATA) f =
  match assoc "preferences.json" es with
  | Some (Symlink _ t) =>
      if f then present d (chase MAXSYMLINKS d t)
      else At (preferences_path q)
  | Some _ => At (preferences_path q)
  | None => Lost NoEntry
  end.
Proof.
  intros Hq Hb.
  destruct (locate_enter _ _ _ _ Hq) as (Ha & Hnul & Hent).
  destruct (path_join_shape APPDATA "BIRB" eq_refl) as (Hc & Hne & _ & Hn & Hs).
  assert (Hne' : APPDATA_PATH APPDATA <> "").
  { unfold APPDATA_PATH. now apply String.eqb_neq. }
  assert (Hnul' : has_nul (APPDATA_PATH APPDATA) = false).
  { unfold APPDATA_PATH. now rewrite Hn. }
  assert (Hent' : enter d (origin dir (APPDATA_PATH APPDATA))
                    (components (APPDATA_PATH APPDATA) "") = At (q ++ ["BIRB"])).
  { unfold APPDATA_PATH, origin. rewrite Hc, (Hs Ha). fold (origin dir APPDATA).
    rewrite enter_snoc, Hent.
    destruct (lookup_parent _ _ _ _ Hb) as (m0 & e0 & Hq0 & Hx).
    now rewrite (step_name true d q "BIRB" m0 e0 eq_refl Hq0), Hx. }
  split; [exact Hne'|]. split; [exact Hnul'|]. split; [exact Hent'|].
  unfold PREFERENCES_FILE.
  rewrite (locate_join d dir _ "preferences.json" f Hne' Hnul' eq_refl), Hent'.
  apply (step_name f d (q ++ ["BIRB"]) "preferences.json" mode es eq_refl Hb).
Qed.

Lemma found_preferences (d : node) (dir q : path) (n : node) :
  locate d dir APPDATA true = At q ->
  lookup (preferences_path q) d = Some n ->
  (forall deny t, n <> Symlink deny t) ->
  found d dir (PREFERENCES_FILE APPDATA) = Some n.
Proof.
  intros Hq Hl Hn. unfold preferences_path in Hl.
  destruct (lookup_parent _ _ _ _ Hl) as (mode & es & Hb & Hx).
  destruct (locate_preferences d dir q mode es true Hq Hb) as (_ & _ & _ & Hloc).
  unfold found. rewrite Hloc, Hx.
  destruct n; try exact Hl. exfalso. exact (Hn _ _ eq_refl).
Qed.

Lemma load_preferences_present (w : World E) (q : path) (deny : bool) (p : Preferences) :
  locate (disk w) (cwd w) APPDATA true = At q ->
  lookup (preferences_path q) (disk w) = Some (File deny (Prefs p)) ->
  load_preferences APPDATA w = (Ok p, w).
Proof.
  intros Hq Hl.
  assert (Hf : found (disk w) (cwd w) (PREFERENCES_FILE APPDATA)
               = Some (File deny (Prefs p)))
    by (apply (found_preferences _ _ q); [exact Hq | exact Hl | discriminate]).
  unfold load_preferences, bind, os_path_exists, bind, stat.
  set (f := PREFERENCES_FILE APPDATA) in *. clearbody f.
  rewrite Hf. cbn. rewrite Hf. reflexivity.
Qed.

(** X15.  Preferences that exist are returned as stored and never
    rewritten: the call prints nothing and changes nothing. *)
Theorem existing_preferences_are_kept (w : World E) (q : path) (deny : bool)
    (p : Preferences) :
  locate (disk w) (cwd w) APPDATA true = At q ->
  lookup (preferences_path q) (disk w) = Some (File deny (Prefs p)) ->
  load_preferences APPDATA w = (Ok p, w).
Proof. apply load_preferences_present. Qed.


(** X13.  Creation by flags, then a build: with a name and a version on
    the command line, [main] writes, without asking anything, a manifest
    with the three default platform scripts and no cleaning; the build
    that follows is in the multi-platform mode and goes through windows,
    linux and macos in this order (all three when no exception leaves the
    run); the default custom command "make build" is never run. *)
Theorem flag_created_manifest_builds_three_platforms (args : Namespace)
    (answers : Answers) (name version : string) (w : World E) (q : path) (deny : bool)
    (p : Preferences) (d d' : dir_mode) (es es' : list (string * node)) :
  ns_command args = Create_command ->
  ns_name args = Some name -> name <> "" ->
  ns_version args = Some version -> version <> "" ->
  locate (disk w) (cwd w) APPDATA true = At q ->
  lookup (preferences_path q) (disk w) = Some (File deny (Prefs p)) ->
  lookup (cwd w) (disk w) = Some (Dir d es) ->
  ensured (assoc ".birb" es) = Some (Dir d' es') ->
  writable (assoc "birb.json" es') = true ->
  exists w1,
    main exec formatter APPDATA args answers w = (Ok tt, w1) /\
    trace w1 = trace w ++ [Printed (Created BIRB_CONFIG_FILE)] /\
    exists r w2 news (outcomes : list outcome) rest extra,
      build_project exec formatter w1 = (r, w2) /\
      trace w2 = trace w1 ++ Printed Using_platform_commands :: news /\
      [("windows", "build_script.windows.sh"); ("linux", "build_script.linux.sh");
       ("macos", "build_script.macos.sh")] = map fst outcomes ++ rest /\
      loop_end exec formatter
        (birb_config name version "make build" default_platform_commands "./builds"
           false "" "main" [])
        outcomes rest r w2 extra /\
      (r = Ok tt -> rest = [] /\ extra = []) /\
      announced news = map (fun o => fst (fst o)) outcomes ++ extra /\
      builds news = map (fun o => (snd (fst o), snd o)) outcomes /\
      hooks news = map (fun o => (version, fst (fst o))) (filter succeeded outcomes) /\
      ~ In (Printed Using_custom_command) news.
Proof.
  intros Hcmd Hname Hn Hversion Hv Hq Hl Hcwd Hdir Hfile.
  destruct (flag_create_then_build exec formatter name version (ns_generate_config args)
              d d' es es' w Hcwd Hdir Hfile) as (w1 & H & Ht & Hbuild).
  exists w1. split; [|split; [exact Ht | exact Hbuild]].
  unfold main, bind at 1.
  rewrite (load_preferences_present w q deny p Hq Hl), Hcmd, Hname, Hversion.
  apply String.eqb_neq in Hn, Hv. cbn [truthy]. rewrite Hn, Hv. exact H.
Qed.

(** X17.  The preferences never reach the build: [main] loads them and
    drops them, so with any stored preferences [main build] is
    [build_project], result and final world. *)
Theorem main_build_ignores_preferences (args : Namespace) (answers : Answers)
    (w : World E) (q : path) (deny : bool) (p : Preferences) :
  ns_command args = Build_command ->
  locate (disk w) (cwd w) APPDATA true = At q ->
  lookup (preferences_path q) (disk w) = Some (File deny (Prefs p)) ->
  main exec formatter APPDATA args answers w = build_project exec formatter w.
Proof.
  intros Hcmd Hq Hl. unfold main, bind at 1.
  now rewrite (load_preferences_present w q deny p Hq Hl), Hcmd.
Qed.

(** X18.  Preferences that cannot be decoded are not guarded against:
    [main] raises [JSONDecodeError] before it creates or builds anything,
    whatever the subcommand. *)
Theorem undecodable_preferences_stop_main (args : Namespace) (answers : Answers)
    (w : World E) (q : path) (deny : bool) :
  locate (disk w) (cwd w) APPDATA true = At q ->
  lookup (preferences_path q) (disk w) = Some (File deny Bytes) ->
  main exec formatter APPDATA args answers w = (Raise JSONDecodeError, w).
Proof.
  intros Hq Hl.
  assert (Hf : found (disk w) (cwd w) (PREFERENCES_FILE APPDATA) = Some (File deny Bytes))
    by (apply (found_preferences _ _ q); [exact Hq | exact Hl | discriminate]).
  unfold main, bind at 1, load_preferences, bind, os_path_exists, bind, stat.
  set (f := PREFERENCES_FILE APPDATA) in *. clearbody f.
  rewrite Hf. cbn. rewrite Hf. reflexivity.
Qed.

End Entry.

(** ** More concrete runs *)

Lemma build_without_manifest_runs_nothing_witness :
  build_project Cases.exec Sample.formatter Sample.bare_world
  = (Ok tt, say Sample.bare_world [Printed Config_not_found]).
Proof.
  apply (build_without_manifest_runs_nothing Cases.exec Sample.formatter
           Sample.bare_world).
  reflexivity.
Defined.

Lemma undecodable_manifest_raises_witness :
  build_project Cases.exec Sample.formatter Cases.garbled_world
  = (Raise JSONDecodeError, Cases.garbled_world) /\
  forall v p,
    git_commit Cases.exec Sample.formatter v p Cases.garbled_world
    = (Raise JSONDecodeError, say Cases.garbled_world [Called_git_commit v p]).
Proof.
  apply (undecodable_manifest_raises Cases.exec Sample.formatter false
           Cases.garbled_world).
  reflexivity.
Defined.

Lemma bad_template_stops_the_run_witness :
  build_platforms Cases.exec Sample.formatter Cases.bad_template
    [("windows", Some "echo win"); ("linux", Some "make")]
    (Sample.world Cases.bad_template)
  = (Raise ValueError,
     say (snd (execute_build_command Cases.exec "echo win"
                 (say (Sample.world Cases.bad_template) [Printed (Building_for "windows")])))
         [Called_git_commit "1.2.0" "windows"]).
Proof.
  apply (bad_template_stops_the_run Cases.exec Sample.formatter Cases.bad_template
           "windows" "echo win"
           [("linux", Some "make")] (Sample.world Cases.bad_template) _
           (mkCompleted (Shell "echo win") 0) false Cases.bad_template ValueError);
    reflexivity.
Defined.

Lemma cleaning_a_file_raises_witness :
  build_engine Cases.exec Sample.formatter Cases.cleans_a_file
    (Sample.world Cases.cleans_a_file)
  = (Raise (OSError NotADirectory "main.c"),
     say (Sample.world Cases.cleans_a_file) [Printed (Cleaning "main.c")]) /\
  build_engine Cases.exec Sample.formatter Sample.three_platforms
    (Cases.sealed_world Sample.three_platforms)
  = (Raise (OSError PermissionDenied "./builds"),
     say (Cases.sealed_world Sample.three_platforms) [Printed (Cleaning "./builds")]).
Proof.
  split.
  - apply (cleaning_a_file_raises Cases.exec Sample.formatter Cases.cleans_a_file
             (Sample.world Cases.cleans_a_file) (File false Bytes) NotADirectory);
      reflexivity.
  - apply (cleaning_a_file_raises Cases.exec Sample.formatter Sample.three_platforms
             (Cases.sealed_world Sample.three_platforms)
             (Dir (mkMode false true) Sample.artifacts) PermissionDenied);
      reflexivity.
Defined.

Lemma cleaning_keeps_files_elsewhere_witness :
  lookup ["work"; "demo"; "main.c"]
    (disk (snd (clean_old_builds "./builds" (Sample.world Sample.three_platforms))))
  = Some (File false Bytes).
Proof.
  apply (cleaning_keeps_files_elsewhere "./builds" ["work"; "demo"; "main.c"] false Bytes
           (Sample.world Sample.three_platforms)).
  - intros q Hq. vm_compute in Hq. injection Hq as <-. split.
    + intros x Hx. discriminate.
    + intros d es Hl. vm_compute in Hl. injection Hl as _ <-. repeat constructor.
  - reflexivity.
Defined.

Lemma special_entry_is_reported_deleted_witness :
  clean_entry "./builds" "pipe" Cases.pipe_world
  = (Ok tt, say Cases.pipe_world [Printed (Deleted "./builds/pipe")]).
Proof.
  apply (special_entry_is_reported_deleted "./builds" "pipe" Cases.pipe_world).
  reflexivity.
Defined.

Lemma commit_needs_git_add_witness :
  exists w' news,
    commit_in_birb_dir (Sample.exec_failing Sample.commit_fails)
      "Release 1.2.0 for linux" (Sample.world Sample.three_platforms) = (Ok tt, w') /\
    cwd w' = Sample.home /\
    trace w' = trace (Sample.world Sample.three_platforms) ++ news /\
    ((exists st1,
        st1 <> 0%Z /\
        git_runs news = [(["git"; "add"; "."], ["work"; "demo"; ".birb"], st1)] /\
        printed news
        = [Commit_failed (CalledProcessError (Argv ["git"; "add"; "."]) st1)]) \/
     (exists st2,
        git_runs news
        = [(["git"; "add"; "."], ["work"; "demo"; ".birb"], 0%Z);
           (["git"; "commit"; "-m"; "Release 1.2.0 for linux"],
            ["work"; "demo"; ".birb"], st2)] /\
        printed news
        = [if (st2 =? 0)%Z then Committed
           else Commit_failed
                  (CalledProcessError
                     (Argv ["git"; "commit"; "-m"; "Release 1.2.0 for linux"]) st2)])).
Proof.
  apply (commit_needs_git_add (Sample.exec_failing Sample.commit_fails)
           "Release 1.2.0 for linux" (Sample.world Sample.three_platforms) plain
           [("birb.json", File false (Json Sample.three_platforms))]).
  - reflexivity.
  - apply sample_starts. reflexivity.
  - apply sample_starts. reflexivity.
  - apply sample_leaves_directories.
Defined.

Lemma interactive_mapping_has_custom_witness :
  assoc "macos"
    (interactive_platform_commands (platform_answer Cases.answers)
       (custom_command_answer Cases.answers))
  = Some (platform_entry (platform_answer Cases.answers) "macos") /\
  (assoc "macos"
     (interactive_platform_commands (platform_answer Cases.answers)
        (custom_command_answer Cases.answers)) = Some None
   <-> lower (platform_answer Cases.answers "macos") = "null").
Proof.
  apply (proj1 (proj2 (interactive_mapping_has_custom (platform_answer Cases.answers)
                         (custom_command_answer Cases.answers)))).
  cbn. auto.
Defined.


Lemma create_refused_when_birb_is_taken_witness :
  create_birb_json "demo" "0.1.0" true default_platform_commands "./builds" false
    "" "main" [] Cases.taken_world
  = (Raise (OSError FileExists ".birb"), Cases.taken_world).
Proof.
  apply (create_refused_when_birb_is_taken "demo" "0.1.0" true default_platform_commands
           "./builds" false "" "main" [] plain [(".birb", File false Bytes)]
           Cases.taken_world);
    reflexivity.
Defined.

Lemma flag_created_manifest_builds_three_platforms_witness :
  exists w1,
    main (Sample.exec_failing Sample.commit_fails) Sample.formatter "/appdata"
      (mkNamespace Create_command (Some "demo") (Some "0.1.0") false) Cases.answers
      (Cases.with_preferences [("preferences.json", File false (Prefs Cases.stored))]
         Sample.three_platforms) = (Ok tt, w1) /\
    trace w1 = [Printed (Created ".birb/birb.json")] /\
    exists r w2 news (outcomes : list outcome) rest extra,
      build_project (Sample.exec_failing Sample.commit_fails) Sample.formatter w1
      = (r, w2) /\
      trace w2 = trace w1 ++ Printed Using_platform_commands :: news /\
      [("windows", "build_script.windows.sh"); ("linux", "build_script.linux.sh");
       ("macos", "build_script.macos.sh")] = map fst outcomes ++ rest /\
      loop_end (Sample.exec_failing Sample.commit_fails) Sample.formatter
        (birb_config "demo" "0.1.0" "make build" default_platform_commands "./builds"
           false "" "main" [])
        outcomes rest r w2 extra /\
      (r = Ok tt -> rest = [] /\ extra = []) /\
      announced news = map (fun o => fst (fst o)) outcomes ++ extra /\
      builds news = map (fun o => (snd (fst o), snd o)) outcomes /\
      hooks news = map (fun o => ("0.1.0", fst (fst o))) (filter succeeded outcomes) /\
      ~ In (Printed Using_custom_command) news.
Proof.
  apply (flag_created_manifest_builds_three_platforms
           (Sample.exec_failing Sample.commit_fails) Sample.formatter "/appdata"
           (mkNamespace Create_command (Some "demo") (Some "0.1.0") false) Cases.answers
           "demo" "0.1.0"
           (Cases.with_preferences [("preferences.json", File false (Prefs Cases.stored))]
              Sample.three_platforms)
           ["appdata"] false Cases.stored plain plain
           [(".birb", Dir plain [("birb.json", File false (Json Sample.three_platforms))])]
           [("birb.json", File false (Json Sample.three_platforms))]);
    try reflexivity; discriminate.
Defined.

Lemma interactively_created_manifest_never_builds_in_custom_mode_witness :
  exists w1 m,
    interactive_create Cases.answers Sample.bare_world = (Ok tt, w1) /\
    load_birb_json w1 = (Ok (Some m), w1) /\
    In ("custom", custom_build_command (build m))
       (targets (platform_build_commands (build m))) /\
    forall w0 : World unit, exists r w2 news,
      run_targets Cases.exec Sample.formatter m w0 = (r, w2) /\
      trace w2 = trace w0 ++ Printed Using_platform_commands :: news /\
      ~ In (Printed Using_custom_command) news.
Proof.
  apply (interactively_created_manifest_never_builds_in_custom_mode Cases.exec
           Sample.formatter Cases.answers plain plain [] [] Sample.bare_world);
    reflexivity.
Defined.

Lemma existing_preferences_are_kept_witness :
  load_preferences "/appdata"
    (Cases.with_preferences [("preferences.json", File true (Prefs Cases.stored))]
       Sample.three_platforms)
  = (Ok Cases.stored,
     Cases.with_preferences [("preferences.json", File true (Prefs Cases.stored))]
       Sample.three_platforms).
Proof.
  apply (existing_preferences_are_kept "/appdata" _ ["appdata"] true Cases.stored);
    reflexivity.
Defined.


Lemma main_build_ignores_preferences_witness :
  main Cases.exec Sample.formatter "/appdata" (mkNamespace Build_command None None false)
    Cases.answers
    (Cases.with_preferences [("preferences.json", File false (Prefs Cases.stored))]
       Sample.three_platforms)
  = build_project Cases.exec Sample.formatter
      (Cases.with_preferences [("preferences.json", File false (Prefs Cases.stored))]
         Sample.three_platforms).
Proof.
  apply (main_build_ignores_preferences Cases.exec Sample.formatter "/appdata" _
           Cases.answers _ ["appdata"] false Cases.stored);
    reflexivity.
Defined.

Lemma undecodable_preferences_stop_main_witness :
  main Cases.exec Sample.formatter "/appdata" (mkNamespace Build_command None None false)
    Cases.answers
    (Cases.with_preferences [("preferences.json", File false Bytes)] Sample.three_platforms)
  = (Raise JSONDecodeError,
     Cases.with_preferences [("preferences.json", File false Bytes)] Sample.three_platforms).
Proof.
  apply (undecodable_preferences_stop_main Cases.exec Sample.formatter "/appdata" _
           Cases.answers _ ["appdata"] false);
    reflexivity.
Defined.
